(** * Modbus RTU simulator: the frame engine of [modbus_simulator_gui.py]

    A shallow embedding of the protocol-relevant methods of the class
    [ModbusSimulatorGUI]: the CRC16 routine, the frame logger, the
    register bank and its text rules, the command dispatcher and the raw
    command path.

    Conventions.
    - A Python [int] is a [Z]; the bit operators [&], [|], [^], [>>], [<<]
      are [Z.land], [Z.lor], [Z.lxor], [Z.shiftr], [Z.shiftl], which agree
      with Python on negative numbers too (two's complement, unbounded).
    - A Python [str] is a list of characters ([list ascii]) whose code
      points are below 256; literals are written as Rocq strings.
    - A [tk.StringVar] is the text it holds; the dictionary
      [self.register_vars] is a [gmap Z (list ascii)].
    - Calls on [self.client], message boxes and log records are effects:
      they are appended to traces kept in the state. *)

From Stdlib Require Import ZArith List Ascii String Bool Lia.
From stdpp Require Import base option list strings gmap.

Local Open Scope Z_scope.

(** ** Python built-ins used by the program *)

Module Py.

Abbreviation str := (list ascii).

(** A string literal as a Python [str]. *)
Definition lit (s : string) : str := list_ascii_of_string s.

Definition ord (c : ascii) : Z := Z.of_N (N_of_ascii c).

Definition between (lo hi : Z) (c : ascii) : bool :=
  (lo <=? ord c) && (ord c <=? hi).

(** [str.isspace] on one character (code points below 256): the set that
    [str.strip()] and [str.split()] use. *)
Definition isspace (c : ascii) : bool :=
  between 9 13 c || between 28 32 c || (ord c =? 133) || (ord c =? 160).

(** The white space [int()] skips around a number: code points 28..31 are
    not part of it. *)
Definition int_isspace (c : ascii) : bool :=
  between 9 13 c || (ord c =? 32) || (ord c =? 133) || (ord c =? 160).

Fixpoint lstrip (s : str) : str :=
  match s with
  | c :: s' => if isspace c then lstrip s' else s
  | [] => []
  end.

(** [s.strip()] *)
Definition strip (s : str) : str := rev (lstrip (rev (lstrip s))).

(** [s.split()]: the maximal runs of characters that are not white space.
    [cur] is the run being read, most recent character first. *)
Fixpoint split_go (cur : str) (s : str) : list str :=
  match s with
  | [] => match cur with [] => [] | _ => [rev cur] end
  | c :: s' =>
      if isspace c
      then match cur with [] => split_go [] s' | _ => rev cur :: split_go [] s' end
      else split_go (c :: cur) s'
  end.

Definition split (s : str) : list str := split_go [] s.

(** [s.upper()] on the ASCII letters. The other characters below 256 that
    [upper] changes become non-ASCII letters or the text SS; none of them
    becomes a hexadecimal digit, 0 or X, and every use of [upper] in this
    program is followed by a filter that keeps hexadecimal digits only, so
    they are left as they are. *)
Definition upper_char (c : ascii) : ascii :=
  if between 97 122 c then ascii_of_N (N_of_ascii c - 32) else c.

Definition upper (s : str) : str := map upper_char s.

(** [s.startswith(p)] *)
Fixpoint startswith (p s : str) : bool :=
  match p, s with
  | [], _ => true
  | a :: p', b :: s' => Ascii.eqb a b && startswith p' s'
  | _ :: _, [] => false
  end.

(** [needle in hay] for strings. *)
Fixpoint contains (needle hay : str) : bool :=
  startswith needle hay ||
  match hay with
  | [] => false
  | _ :: hay' => contains needle hay'
  end.

(** [s[n:]] and [s[:n]] for a non-negative literal [n]. *)
Definition slice_from (n : nat) (s : str) : str := skipn n s.
Definition slice_to (n : nat) (s : str) : str := firstn n s.

(** [len(s)] *)
Definition len {A} (l : list A) : Z := Z.of_nat (length l).

(** [s.zfill(width)]: zeros on the left, after a leading sign. *)
Definition zfill (width : nat) (s : str) : str :=
  let pad := repeat "0"%char (width - length s) in
  match s with
  | c :: s' =>
      if Ascii.eqb c "+" || Ascii.eqb c "-" then c :: pad ++ s' else pad ++ s
  | [] => pad
  end.

(** The value of a character as a digit, as [int()] reads it. *)
Definition digit_value (c : ascii) : option Z :=
  if between 48 57 c then Some (ord c - 48)
  else if between 97 122 c then Some (ord c - 87)
  else if between 65 90 c then Some (ord c - 55)
  else None.

Definition is_underscore (c : ascii) : bool := Ascii.eqb c "_".

(** The digit loop of [int()]: digits below [base] and single
    underscores between them. Returns the value, the number of characters
    read and the rest; fails on a doubled or trailing underscore. *)
Fixpoint scan_digits (base : Z) (prev_us : bool) (acc : Z) (n : nat) (s : str)
  : option (Z * nat * str) :=
  let stop := if prev_us then None else Some (acc, n, s) in
  match s with
  | [] => stop
  | c :: s' =>
      if is_underscore c
      then if prev_us then None else scan_digits base true acc (S n) s'
      else match digit_value c with
           | Some d =>
               if d <? base
               then scan_digits base false (acc * base + d) (S n) s'
               else stop
           | None => stop
           end
  end.

Fixpoint skip_int_space (s : str) : str :=
  match s with
  | c :: s' => if int_isspace c then skip_int_space s' else s
  | [] => []
  end.

(** The optional sign in front of the digits. *)
Definition take_sign (s : str) : Z * str :=
  match s with
  | c :: s' =>
      if Ascii.eqb c "+" then (1, s')
      else if Ascii.eqb c "-" then (-1, s')
      else (1, s)
  | [] => (1, s)
  end.

(** The optional 0x or 0X of base 16, and one underscore after it. *)
Definition take_prefix (base : Z) (s : str) : str :=
  match s with
  | z :: x :: s' =>
      if (base =? 16) && Ascii.eqb z "0" && (Ascii.eqb x "x" || Ascii.eqb x "X")
      then match s' with
           | u :: s'' => if is_underscore u then s'' else s'
           | [] => s'
           end
      else s
  | _ => s
  end.

(** The digits: at least one, no leading underscore, and nothing after
    them but white space. *)
Definition int_digits (base sign : Z) (s : str) : option Z :=
  match s with
  | c :: _ =>
      if is_underscore c then None else
      match scan_digits base false 0 0%nat s with
      | Some (v, n, rest) =>
          match n, skip_int_space rest with
          | S _, [] => Some (sign * v)
          | _, _ => None
          end
      | None => None
      end
  | [] => None
  end.

(** [int(s, base)] for [base] 10 or 16; [None] stands for [ValueError].
    The limit that recent interpreters put on the number of decimal
    digits (4300 unless configured) is not modelled. *)
Definition int (base : Z) (s : str) : option Z :=
  let '(sign, s) := take_sign (skip_int_space s) in
  int_digits base sign (take_prefix base s).

(** [range(start, stop, step)] for a positive [step]. *)
Definition range3 (start stop step : Z) : list Z :=
  map (fun k => start + step * Z.of_nat k)
      (seq 0 (Z.to_nat ((stop - start + step - 1) / step))).

(** [range(n)] *)
Definition range (n : Z) : list Z := range3 0 n 1.

(** [l[i]] with Python's negative indices; [None] stands for
    [IndexError]. *)
Definition index {A} (l : list A) (i : Z) : option A :=
  if 0 <=? i then l !! Z.to_nat i
  else if 0 <=? len l + i then l !! Z.to_nat (len l + i)
  else None.

(** The digits of a natural number in base 10 or 16, upper case. *)
Definition digit_char (d : N) : ascii :=
  if (d <? 10)%N then ascii_of_N (48 + d) else ascii_of_N (55 + d).

Fixpoint digits_go (base : N) (fuel : nat) (n : N) (acc : str) : str :=
  match fuel with
  | O => acc
  | S fuel' =>
      let acc' := digit_char (n mod base) :: acc in
      if (n / base =? 0)%N then acc' else digits_go base fuel' (n / base) acc'
  end.

Definition digits (base : N) (n : N) : str :=
  digits_go base (S (N.to_nat (N.log2 n))) n [].

Definition hex_digits (n : N) : str := digits 16 n.

(** [str(v)] for an [int]. *)
Definition str_int (v : Z) : str :=
  let d := digits 10 (Z.to_N (Z.abs v)) in
  if v <? 0 then "-"%char :: d else d.

(** [sep.join(parts)] *)
Fixpoint join (sep : str) (parts : list str) : str :=
  match parts with
  | [] => []
  | [p] => p
  | p :: rest => p ++ sep ++ join sep rest
  end.

(** [format(v, "0wX")], the [f"{v:0wX}"] of the source: upper-case
    hexadecimal, sign first, zero-padded to [width] characters in all. *)
Definition format_0X (width : nat) (v : Z) : str :=
  let d := hex_digits (Z.to_N (Z.abs v)) in
  if v <? 0
  then "-"%char :: repeat "0"%char (width - 1 - length d) ++ d
  else repeat "0"%char (width - length d) ++ d.

End Py.

Notation "'py' s" := (Py.lit s%string) (at level 1, only parsing).

(** ** CRC16 *)

(** One pass of the inner loop of [modbus_crc16]. *)
Definition crc_shift (crc : Z) : Z :=
  if Z.land crc 0x01 =? 0
  then Z.shiftr crc 1
  else Z.lxor (Z.shiftr crc 1) 0xA001.

(** The body of the outer loop: [crc ^= byte], then eight shifts. *)
Definition crc_update (crc byte : Z) : Z :=
  fold_left (fun crc _ => crc_shift crc) (Py.range 8) (Z.lxor crc byte).

(** The value of [crc] when the outer loop ends. *)
Definition crc_loop (data : list Z) : Z := fold_left crc_update data 0xFFFF.

(** [modbus_crc16(self, data)] *)
Definition modbus_crc16 (data : list Z) : Z :=
  let crc := crc_loop data in
  Z.lor (Z.shiftr crc 8) (Z.shiftl crc 8).


(** ** The frame logger *)

(** [cmd_type == "..."] *)
Definition is_cmd (cmd_type : Py.str) (name : string) : bool :=
  bool_decide (cmd_type = py name).

(** [(v >> 8) & 0xFF] and [v & 0xFF] *)
Definition high_byte (v : Z) : Z := Z.land (Z.shiftr v 8) 0xFF.
Definition low_byte (v : Z) : Z := Z.land v 0xFF.

(** One pass of the loop [for j in range(8)] of the Write Coils branch.
    A Python [bool] is the [int] 0 or 1 and a value is true when it is
    not 0. [values[i + j]] is evaluated only when [i + j < length]; it
    raises when [values] is [None] or too short. *)
Definition coil_bit (length i : Z) (values : option (list Z))
    (byte_val : option Z) (j : Z) : option Z :=
  byte_val ← byte_val;
  if i + j <? length
  then vs ← values;
       v ← Py.index vs (i + j);
       Some (if v =? 0 then byte_val else Z.lor byte_val (Z.shiftl 1 j))
  else Some byte_val.

(** The body of the loop [for i in range(0, length, 8)]: the byte
    appended to [coil_bytes]. *)
Definition coil_byte (length : Z) (values : option (list Z)) (i : Z) : option Z :=
  fold_left (coil_bit length i values) (Py.range 8) (Some 0).

(** The list [frame_bytes] that [log_modbus_frame] builds for a command;
    [None] when building it raises (an unknown [cmd_type] leaves
    [frame_bytes] unbound, a write without usable [values]). *)
Definition frame_bytes (cmd_type : Py.str) (start_idx length slave_id : Z)
    (values : option (list Z)) : option (list Z) :=
  if is_cmd cmd_type "Read Holding Registers" then
    Some [slave_id; 0x03; high_byte start_idx; low_byte start_idx;
          high_byte length; low_byte length]
  else if is_cmd cmd_type "Write Holding Registers" then
    let byte_count := length * 2 in
    vs ← values;
    Some ([slave_id; 0x10; high_byte start_idx; low_byte start_idx;
           high_byte length; low_byte length; byte_count]
          ++ flat_map (fun value => [high_byte value; low_byte value]) vs)
  else if is_cmd cmd_type "Write Single Register" then
    vs ← values;
    v0 ← Py.index vs 0;
    Some [slave_id; 0x06; high_byte start_idx; low_byte start_idx;
          high_byte v0; low_byte v0]
  else if is_cmd cmd_type "Read Input Registers" then
    Some [slave_id; 0x04; high_byte start_idx; low_byte start_idx;
          high_byte length; low_byte length]
  else if is_cmd cmd_type "Read Coils" then
    Some [slave_id; 0x01; high_byte start_idx; low_byte start_idx;
          high_byte length; low_byte length]
  else if is_cmd cmd_type "Write Coils" then
    let byte_count := (length + 7) / 8 in
    coil_bytes ← mapM (coil_byte length values) (Py.range3 0 length 8);
    Some ([slave_id; 0x0F; high_byte start_idx; low_byte start_idx;
           high_byte length; low_byte length; byte_count]
          ++ coil_bytes)
  else None.

(** The pair [(crc_low, crc_high)] as [log_modbus_frame] names them. *)
Definition builder_crc (frame : list Z) : Z * Z :=
  let crc := modbus_crc16 frame in
  let crc_high := Z.land crc 0xFF in
  let crc_low := Z.land (Z.shiftr crc 8) 0xFF in
  (crc_low, crc_high).

(** [complete_frame] of [log_modbus_frame]. *)
Definition builder_complete_frame (frame : list Z) : list Z :=
  let '(crc_low, crc_high) := builder_crc frame in
  frame ++ [crc_low; crc_high].

(** [' '.join([f"{b:02X}" for b in complete_frame])] *)
Definition hex_frame (complete_frame : list Z) : Py.str :=
  Py.join (py " ") (map (Py.format_0X 2) complete_frame).

(** *** Log records

    A record of the log queue is its level and its message. Messages are
    kept as the template and the values substituted into it; the time
    stamp that [log_message] adds is not modelled. *)

Inductive Level := INFO | SUCCESS | ERROR | WARNING.

Inductive Message :=
  | ModbusFrame (hex : Py.str) (crc_low crc_high : Z)
      (* Modbus Frame: {hex_frame} (CRC: {crc_low:02X} {crc_high:02X}) *)
  | FrameDisplayError
      (* Error generating frame display: {e} *)
  | SendingRead (cmd_type : Py.str) (start_idx length slave_id : Z)
      (* Sending {cmd}: Start=.., Count=.., Device ID=.. *)
  | SendingWrite (cmd_type : Py.str) (start_idx : Z) (values : list Z) (slave_id : Z)
      (* Sending {cmd}: Start=.., Values=.., Device ID=.. *)
  | ErrorExecuting (cmd_type : Py.str) (error_msg : Py.str)
      (* Error executing {cmd_type}: {error_msg} *)
  | ExceptionDetails (exception : Py.str)
      (* Exception details: {result.exception} *)
  | ExpectedResponse
      (* Expected Response: Device should echo back the same frame *)
  | ActualResponse
      (* Actual Response: No response received (timeout or communication error) *)
  | CommandDone (cmd_type : Py.str) (first last : Z) (values : option (list Z))
        (response_time : Z)
      (* {cmd_type} {start_idx}-{start_idx+length-1}: {values}, Response Time: ..ms *)
  | ResponseData (read_values : list Z)
      (* Response Data: {read_values} (PyModbus processed response) *)
  | WriteResponse (values : list Z)
      (* Write Response: Echo back values {values} (Write operation confirmed) *)
  | ErrorExecutingCommand (e : Py.str)
      (* Error executing command: {e} *)
  | RegistersCleared
      (* All register values cleared *)
  | SendingRaw (hex : Py.str) (crc_low crc_high : Z)
      (* Sending Raw Command: {hex_frame} (CRC: {crc_low:02X} {crc_high:02X}) *)
  | RawSent (hex : Py.str) (response_time : Z)
      (* Raw Command Sent: {hex_frame}, Response Time: ..ms *)
  | RawNote
      (* Note: Raw command sent successfully. Response parsing not implemented ... *)
  | RawNoConnection
      (* Raw Command Error: No active serial connection *)
  | RawError (e : Py.str)
      (* Raw Command Error: {e} *).

Definition LogEntry : Type := Level * Message.

(** [log_modbus_frame(self, cmd_type, start_idx, length, slave_id, values)]:
    the record it puts on the log queue. *)
Definition log_modbus_frame (cmd_type : Py.str) (start_idx length slave_id : Z)
    (values : option (list Z)) : LogEntry :=
  match frame_bytes cmd_type start_idx length slave_id values with
  | Some frame =>
      let '(crc_low, crc_high) := builder_crc frame in
      (INFO, ModbusFrame (hex_frame (builder_complete_frame frame)) crc_low crc_high)
  | None => (ERROR, FrameDisplayError)
  end.

(** ** The state of the application *)

(** The error dialogs ([messagebox.showerror]) of the modelled methods,
    each with the values its text names. *)
Inductive ErrorBox :=
  | NotConnected                         (* Not connected to Modbus device *)
  | InvalidNumbers                       (* Please enter valid numbers for start index and length *)
  | StartIndexRange                      (* Start index must be between 0 and 63 *)
  | InvalidLengthOrRange                 (* Invalid length or range exceeds register limit *)
  | RegisterNot4Digits (reg_addr : Z)    (* Register {reg_addr}: Please enter 4-digit hex value ... *)
  | RegisterInvalidHex (reg_addr : Z)    (* Register {reg_addr}: Invalid hex value. ... *)
  | RegisterNotFound (start_idx : Z)     (* Register {start_idx} not found *)
  | CoilNot0Or1 (reg_addr : Z)           (* Coil value in register {reg_addr} must be 0 or 1. *)
  | CoilInvalid (reg_addr : Z)           (* Invalid value in register {reg_addr}. ... *)
  | EnterRawBytes                        (* Please enter raw bytes *)
  | CommandTooShort                      (* Command too short. Minimum 2 bytes required ... *)
  | InvalidHexByte (part : Py.str)       (* Invalid hex byte: {part}. Each byte must be 2 hex digits ... *)
  | InvalidHexValue (part : Py.str)      (* Invalid hex value: {part} *)
  | InvalidSlaveId (slave_id : Z)        (* Invalid slave ID: {slave_id}. Must be 1-247 *)
  | InvalidFunctionCode (function_code : Z)  (* Invalid function code: {function_code}. Must be 1-127 *).

(** The calls the program makes on [self.client]. *)
Inductive Call :=
  | read_holding_registers (address count device_id : Z)
  | write_registers (address : Z) (values : list Z) (device_id : Z)
  | write_register (address value device_id : Z)
  | read_input_registers (address count device_id : Z)
  | read_coils (address count device_id : Z)
  | write_coils (address : Z) (values : list Z) (device_id : Z)
  | socket_write (data : list Z).

(** What the program reads of a result object of the client library:
    [isError()], [.registers], [.bits], [str(result)] and, when the
    attribute is there, [.exception]. *)
Record Result := {
  isError : bool;
  registers : list Z;
  bits : list bool;
  text : Py.str;
  exception : option Py.str
}.

(** The outcome of one call on the client: a result, or an exception
    ([ValueError] has a handler of its own in the dispatcher). *)
Inductive Reply :=
  | Returns (result : Result)
  | RaisesValueError (e : Py.str)
  | Raises (e : Py.str).

(** What an invocation takes from outside: the clock and the client. *)
Record Env := {
  timestamp : Py.str;   (* datetime.now().isoformat() *)
  start_time : Z;       (* time.time() before the call *)
  end_time : Z;         (* time.time() after the call *)
  reply : Reply
}.

(** The dictionaries appended to [self.command_history]. A list of
    booleans is kept as a list of 0 and 1. *)
Inductive HistoryEntry :=
  | CommandEntry (timestamp command : Py.str) (address count : Z)
      (values : option (list Z)) (response_time_ms : Z) (success : bool)
  | RawEntry (timestamp command raw_bytes : Py.str) (response_time_ms : Z)
      (success : bool).

Record GUI := {
  is_connected : bool;
  socket_open : bool;   (* hasattr(self.client, 'socket') and self.client.socket *)
  port_var : Py.str;
  baud_var : Py.str;
  slave_id_var : Py.str;
  cmd_type_var : Py.str;
  start_idx_var : Py.str;
  length_var : Py.str;
  raw_bytes_var : Py.str;
  register_vars : gmap Z Py.str;
  command_history : list HistoryEntry;
  log_queue : list LogEntry;
  message_boxes : list ErrorBox;   (* dialogs shown, oldest first *)
  client_calls : list Call         (* calls made on the client, oldest first *)
}.

Definition set_register_vars (vars : gmap Z Py.str) (g : GUI) : GUI :=
  {| is_connected := is_connected g; socket_open := socket_open g;
     port_var := port_var g; baud_var := baud_var g;
     slave_id_var := slave_id_var g; cmd_type_var := cmd_type_var g;
     start_idx_var := start_idx_var g; length_var := length_var g;
     raw_bytes_var := raw_bytes_var g;
     register_vars := vars;
     command_history := command_history g; log_queue := log_queue g;
     message_boxes := message_boxes g; client_calls := client_calls g |}.

(** [self.command_history.append(entry)] *)
Definition history_append (entry : HistoryEntry) (g : GUI) : GUI :=
  {| is_connected := is_connected g; socket_open := socket_open g;
     port_var := port_var g; baud_var := baud_var g;
     slave_id_var := slave_id_var g; cmd_type_var := cmd_type_var g;
     start_idx_var := start_idx_var g; length_var := length_var g;
     raw_bytes_var := raw_bytes_var g;
     register_vars := register_vars g;
     command_history := command_history g ++ [entry];
     log_queue := log_queue g;
     message_boxes := message_boxes g; client_calls := client_calls g |}.

(** Putting a record on the log queue. *)
Definition put_log (entry : LogEntry) (g : GUI) : GUI :=
  {| is_connected := is_connected g; socket_open := socket_open g;
     port_var := port_var g; baud_var := baud_var g;
     slave_id_var := slave_id_var g; cmd_type_var := cmd_type_var g;
     start_idx_var := start_idx_var g; length_var := length_var g;
     raw_bytes_var := raw_bytes_var g;
     register_vars := register_vars g;
     command_history := command_history g;
     log_queue := log_queue g ++ [entry];
     message_boxes := message_boxes g; client_calls := client_calls g |}.

(** [log_message(self, message, level)] *)
Definition log_message (message : Message) (level : Level) (g : GUI) : GUI :=
  put_log (level, message) g.

(** [messagebox.showerror("Error", ...)] *)
Definition showerror (e : ErrorBox) (g : GUI) : GUI :=
  {| is_connected := is_connected g; socket_open := socket_open g;
     port_var := port_var g; baud_var := baud_var g;
     slave_id_var := slave_id_var g; cmd_type_var := cmd_type_var g;
     start_idx_var := start_idx_var g; length_var := length_var g;
     raw_bytes_var := raw_bytes_var g;
     register_vars := register_vars g;
     command_history := command_history g; log_queue := log_queue g;
     message_boxes := message_boxes g ++ [e];
     client_calls := client_calls g |}.

(** A call on [self.client] is recorded before its outcome is known. *)
Definition client_call (c : Call) (g : GUI) : GUI :=
  {| is_connected := is_connected g; socket_open := socket_open g;
     port_var := port_var g; baud_var := baud_var g;
     slave_id_var := slave_id_var g; cmd_type_var := cmd_type_var g;
     start_idx_var := start_idx_var g; length_var := length_var g;
     raw_bytes_var := raw_bytes_var g;
     register_vars := register_vars g;
     command_history := command_history g; log_queue := log_queue g;
     message_boxes := message_boxes g;
     client_calls := client_calls g ++ [c] |}.

(** The register dictionary that [create_register_display] builds: keys
    0..63, every text 0x0000. *)
Definition fresh_register_vars : gmap Z Py.str :=
  list_to_map (map (fun i => (i, py "0x0000")) (Py.range 64)).

(** The state after [__init__] when no settings file is found. *)
Definition startup : GUI :=
  {| is_connected := false; socket_open := false;
     port_var := []; baud_var := py "115200";
     slave_id_var := py "1"; cmd_type_var := py "Read Holding Registers";
     start_idx_var := py "0"; length_var := py "1";
     raw_bytes_var := [];
     register_vars := fresh_register_vars;
     command_history := []; log_queue := [];
     message_boxes := []; client_calls := [] |}.

(** ** The register bank and its text rules *)

Definition is_hex_upper (c : ascii) : bool :=
  Py.between 48 57 c || Py.between 65 70 c.

(** The text [pad_hex_input] stores for the text it finds in a slot. *)
Definition padded_hex (text : Py.str) : Py.str :=
  let current_value := Py.upper text in
  let current_value :=
    if Py.startswith (py "0X") current_value
    then Py.slice_from 2 current_value else current_value in
  let hex_chars := filter (fun c => is_hex_upper c = true) current_value in
  if Py.len hex_chars =? 0 then py "0x0000"
  else if Py.len hex_chars <=? 4 then py "0x" ++ Py.zfill 4 hex_chars
  else py "0x" ++ Py.slice_to 4 hex_chars.

(** [pad_hex_input(self, reg_index)], bound to FocusOut of a slot. *)
Definition pad_hex_input (reg_index : Z) (g : GUI) : GUI :=
  match register_vars g !! reg_index with
  | None => g
  | Some text => set_register_vars (<[reg_index := padded_hex text]> (register_vars g)) g
  end.

(** [clear_all_registers(self)] *)
Definition clear_all_registers (g : GUI) : GUI :=
  log_message RegistersCleared INFO
    (set_register_vars ((fun _ => py "0x0000") <$> register_vars g) g).

(** ** The command dispatcher *)

(** [f"0x{value:04X}"] *)
Definition hex_text (value : Z) : Py.str := py "0x" ++ Py.format_0X 4 value.

(** The loop [for i, value in enumerate(read_values)] of
    [handle_register_result], from index [i] on: a value is shown in the
    slot [start_idx + i] when the dictionary has that key. *)
Fixpoint show_values (start_idx i : Z) (read_values : list Z)
    (vars : gmap Z Py.str) : gmap Z Py.str :=
  match read_values with
  | [] => vars
  | value :: rest =>
      let reg_addr := start_idx + i in
      let vars' :=
        match vars !! reg_addr with
        | Some _ => <[reg_addr := hex_text value]> vars
        | None => vars
        end in
      show_values start_idx (i + 1) rest vars'
  end.

(** [f"{cmd_type} {start_idx}-{start_idx+length-1}"] *)
Definition command_text (cmd_type : Py.str) (start_idx length : Z) : Py.str :=
  cmd_type ++ py " " ++ Py.str_int start_idx ++ py "-"
    ++ Py.str_int (start_idx + length - 1).

(** [read_values] of the read branch: [result.registers] when the
    command names registers, [result.bits] otherwise. *)
Definition read_values_of (cmd_type : Py.str) (result : Result) : list Z :=
  if Py.contains (py "Register") cmd_type
  then registers result else map Z.b2z (bits result).

(** [handle_register_result(self, result, cmd_type, start_idx, length,
    timestamp, start_time, is_read, values)]; [now] is the reading of
    [time.time()] it takes. *)
Definition handle_register_result (result : Result) (cmd_type : Py.str)
    (start_idx length : Z) (timestamp : Py.str) (start_time : Z)
    (is_read : bool) (values : option (list Z)) (now : Z) (g : GUI) : GUI :=
  let response_time := (now - start_time) * 1000 in
  if isError result then
    let g := log_message (ErrorExecuting cmd_type (text result)) ERROR g in
    let g := match exception result with
             | Some e => log_message (ExceptionDetails e) ERROR g
             | None => g
             end in
    let g := log_message ExpectedResponse INFO g in
    log_message ActualResponse ERROR g
  else if is_read then
    let read_values := read_values_of cmd_type result in
    let g := set_register_vars
               (show_values start_idx 0 read_values (register_vars g)) g in
    let g := log_message
               (CommandDone cmd_type start_idx (start_idx + length - 1)
                  (Some read_values) response_time) SUCCESS g in
    let g := log_message (ResponseData read_values) INFO g in
    history_append
      (CommandEntry timestamp (command_text cmd_type start_idx length)
         start_idx length (Some read_values) response_time true) g
  else
    let g := log_message
               (CommandDone cmd_type start_idx (start_idx + length - 1)
                  values response_time) SUCCESS g in
    let g := match values with
             | Some (v :: vs) => log_message (WriteResponse (v :: vs)) INFO g
             | _ => g
             end in
    history_append
      (CommandEntry timestamp (command_text cmd_type start_idx length)
         start_idx length values response_time true) g.

(** The two lines that end every branch of [execute_register_command]:
    the call on the client and the handling of its result. An exception
    of the call goes to the handlers at the end of the method. *)
Definition transact (env : Env) (c : Call) (cmd_type : Py.str)
    (start_idx length : Z) (is_read : bool) (values : option (list Z))
    (g : GUI) : GUI :=
  let g := client_call c g in
  match reply env with
  | Returns result =>
      handle_register_result result cmd_type start_idx length
        (timestamp env) (start_time env) is_read values (end_time env) g
  | RaisesValueError _ => showerror InvalidNumbers g
  | Raises e => log_message (ErrorExecutingCommand e) ERROR g
  end.

(** The reading of one slot for the two register writes. *)
Definition read_hex_slot (reg_addr : Z) (slot_text : Py.str) : ErrorBox + Z :=
  let hex_value := Py.strip slot_text in
  let hex_value :=
    if Py.startswith (py "0x") hex_value || Py.startswith (py "0X") hex_value
    then Py.slice_from 2 hex_value else hex_value in
  if negb (Py.len hex_value =? 4) then inl (RegisterNot4Digits reg_addr)
  else match Py.int 16 hex_value with
       | Some value => inr value
       | None => inl (RegisterInvalidHex reg_addr)
       end.

(** The loop that collects [values] for Write Holding Registers; the
    first slot that does not read ends the method with its dialog. *)
Fixpoint collect_registers (vars : gmap Z Py.str) (addrs : list Z)
    (values : list Z) : ErrorBox + list Z :=
  match addrs with
  | [] => inr values
  | reg_addr :: rest =>
      match vars !! reg_addr with
      | Some slot_text =>
          match read_hex_slot reg_addr slot_text with
          | inr value => collect_registers vars rest (values ++ [value])
          | inl e => inl e
          end
      | None => collect_registers vars rest values
      end
  end.

(** The reading of one slot for Write Coils: [int(text)], then the test
    [value not in [0, 1]]; the value kept is [bool(value)]. *)
Definition read_coil_slot (reg_addr : Z) (slot_text : Py.str) : ErrorBox + Z :=
  match Py.int 10 slot_text with
  | Some value =>
      if negb ((value =? 0) || (value =? 1)) then inl (CoilNot0Or1 reg_addr)
      else inr (Z.b2z (negb (value =? 0)))
  | None => inl (CoilInvalid reg_addr)
  end.

(** The loop that collects [values] for Write Coils. *)
Fixpoint collect_coils (vars : gmap Z Py.str) (addrs : list Z)
    (values : list Z) : ErrorBox + list Z :=
  match addrs with
  | [] => inr values
  | reg_addr :: rest =>
      match vars !! reg_addr with
      | Some slot_text =>
          match read_coil_slot reg_addr slot_text with
          | inr value => collect_coils vars rest (values ++ [value])
          | inl e => inl e
          end
      | None => collect_coils vars rest values
      end
  end.

(** The addresses [start_idx + i for i in range(length)]. *)
Definition slot_range (start_idx length : Z) : list Z :=
  map (fun i => start_idx + i) (Py.range length).

(** [execute_register_command(self)] *)
Definition execute_register_command (env : Env) (g : GUI) : GUI :=
  if negb (is_connected g) then showerror NotConnected g else
  match Py.int 10 (slave_id_var g), Py.int 10 (start_idx_var g),
        Py.int 10 (length_var g) with
  | Some slave_id, Some start_idx, Some length =>
    let cmd_type := cmd_type_var g in
    if (start_idx <? 0) || (63 <? start_idx) then showerror StartIndexRange g
    else if (length <? 1) || (64 <? length) || (64 <? start_idx + length)
    then showerror InvalidLengthOrRange g
    else if is_cmd cmd_type "Read Holding Registers" then
      let g := log_message (SendingRead cmd_type start_idx length slave_id) INFO g in
      let g := put_log (log_modbus_frame cmd_type start_idx length slave_id None) g in
      transact env (read_holding_registers start_idx length slave_id)
        cmd_type start_idx length true None g
    else if is_cmd cmd_type "Write Holding Registers" then
      match collect_registers (register_vars g) (slot_range start_idx length) [] with
      | inl e => showerror e g
      | inr values =>
          let g := log_message (SendingWrite cmd_type start_idx values slave_id) INFO g in
          let g := put_log (log_modbus_frame cmd_type start_idx length slave_id
                              (Some values)) g in
          transact env (write_registers start_idx values slave_id)
            cmd_type start_idx length false (Some values) g
      end
    else if is_cmd cmd_type "Write Single Register" then
      match register_vars g !! start_idx with
      | None => showerror (RegisterNotFound start_idx) g
      | Some slot_text =>
          match read_hex_slot start_idx slot_text with
          | inl e => showerror e g
          | inr value =>
              let g := log_message (SendingWrite cmd_type start_idx [value] slave_id)
                         INFO g in
              let g := put_log (log_modbus_frame cmd_type start_idx 1 slave_id
                                  (Some [value])) g in
              transact env (write_register start_idx value slave_id)
                cmd_type start_idx 1 false (Some [value]) g
          end
      end
    else if is_cmd cmd_type "Read Input Registers" then
      let g := log_message (SendingRead cmd_type start_idx length slave_id) INFO g in
      let g := put_log (log_modbus_frame cmd_type start_idx length slave_id None) g in
      transact env (read_input_registers start_idx length slave_id)
        cmd_type start_idx length true None g
    else if is_cmd cmd_type "Read Coils" then
      let g := log_message (SendingRead cmd_type start_idx length slave_id) INFO g in
      let g := put_log (log_modbus_frame cmd_type start_idx length slave_id None) g in
      transact env (read_coils start_idx length slave_id)
        cmd_type start_idx length true None g
    else if is_cmd cmd_type "Write Coils" then
      match collect_coils (register_vars g) (slot_range start_idx length) [] with
      | inl e => showerror e g
      | inr values =>
          let g := log_message (SendingWrite cmd_type start_idx values slave_id) INFO g in
          let g := put_log (log_modbus_frame cmd_type start_idx length slave_id
                              (Some values)) g in
          transact env (write_coils start_idx values slave_id)
            cmd_type start_idx length false (Some values) g
      end
    else g
  | _, _, _ => showerror InvalidNumbers g
  end.

(** ** The raw command path *)

(** The loop over [hex_parts] of [send_raw_command]. *)
Fixpoint parse_hex_parts (hex_parts : list Py.str) (frame_bytes : list Z)
  : ErrorBox + list Z :=
  match hex_parts with
  | [] => inr frame_bytes
  | part :: rest =>
      if negb (Py.len part =? 2) then inl (InvalidHexByte part)
      else match Py.int 16 part with
           | Some byte_val => parse_hex_parts rest (frame_bytes ++ [byte_val])
           | None => inl (InvalidHexValue part)
           end
  end.

(** The pair [(crc_low, crc_high)] as [send_raw_command] names them. *)
Definition raw_crc (frame : list Z) : Z * Z :=
  let crc := modbus_crc16 frame in
  let crc_low := Z.land crc 0xFF in
  let crc_high := Z.land (Z.shiftr crc 8) 0xFF in
  (crc_low, crc_high).

(** [complete_frame] of [send_raw_command]. *)
Definition raw_complete_frame (frame : list Z) : list Z :=
  let '(crc_low, crc_high) := raw_crc frame in
  frame ++ [crc_high; crc_low].

(** [bytes(complete_frame)] raises unless every item is in range(256). *)
Definition is_bytes (l : list Z) : bool :=
  forallb (fun b => (0 <=? b) && (b <? 256)) l.

(** [send_raw_command(self)] *)
Definition send_raw_command (env : Env) (g : GUI) : GUI :=
  if negb (is_connected g) then showerror NotConnected g else
  let raw_input := Py.strip (raw_bytes_var g) in
  match raw_input with
  | [] => showerror EnterRawBytes g
  | _ :: _ =>
    let hex_parts := Py.split raw_input in
    if Py.len hex_parts <? 2 then showerror CommandTooShort g else
    match parse_hex_parts hex_parts [] with
    | inl e => showerror e g
    | inr frame_bytes =>
      match Py.index frame_bytes 0, Py.index frame_bytes 1 with
      | Some slave_id, Some function_code =>
        if (slave_id <? 1) || (247 <? slave_id)
        then showerror (InvalidSlaveId slave_id) g
        else if (function_code <? 1) || (127 <? function_code)
        then showerror (InvalidFunctionCode function_code) g
        else
          let '(crc_low, crc_high) := raw_crc frame_bytes in
          let complete_frame := raw_complete_frame frame_bytes in
          let hex := hex_frame complete_frame in
          let g := log_message (SendingRaw hex crc_low crc_high) INFO g in
          if socket_open g then
            if is_bytes complete_frame then
              let g := client_call (socket_write complete_frame) g in
              match reply env with
              | Returns _ =>
                  let response_time := (end_time env - start_time env) * 1000 in
                  let g := log_message (RawSent hex response_time) SUCCESS g in
                  let g := log_message RawNote INFO g in
                  history_append
                    (RawEntry (timestamp env) (py "Raw Command: " ++ hex) hex
                       response_time true) g
              | RaisesValueError e | Raises e => log_message (RawError e) ERROR g
              end
            else log_message (RawError (py "bytes must be in range(0, 256)")) ERROR g
          else log_message RawNoConnection ERROR g
      | _, _ => log_message (RawError (py "list index out of range")) ERROR g
      end
    end
  end.

(** ** Saving the settings *)

(** The attributes of [self] that hold a [tk.StringVar], by name. The
    class assigns [port_var], [baud_var], [slave_id_var], [status_var],
    [cmd_type_var], [start_idx_var], [length_var] and [raw_bytes_var]
    (in [create_widgets] and [create_register_display]); no method
    assigns any other, so reading one raises [AttributeError]. The text of
    [status_var] is not part of the state. *)
Definition getattr (g : GUI) (name : string) : option Py.str :=
  if String.eqb name "port_var" then Some (port_var g)
  else if String.eqb name "baud_var" then Some (baud_var g)
  else if String.eqb name "slave_id_var" then Some (slave_id_var g)
  else if String.eqb name "cmd_type_var" then Some (cmd_type_var g)
  else if String.eqb name "start_idx_var" then Some (start_idx_var g)
  else if String.eqb name "length_var" then Some (length_var g)
  else if String.eqb name "raw_bytes_var" then Some (raw_bytes_var g)
  else None.

(** How a press of Save Settings ends. *)
Inductive SaveOutcome :=
  | AttributeError (name : string)   (* raised out of the handler *)
  | NoFileChosen                     (* the dialog was cancelled *)
  | SettingsWritten (filename : Py.str) (settings : list (string * Py.str))
  | SaveFailed (e : Py.str)          (* dialog: Failed to save settings: {e} *).

(** The dictionary [settings] of [save_settings], keys in order; the
    name of the first missing attribute when building it raises. *)
Fixpoint build_settings (g : GUI) (fields : list (string * string))
  : string + list (string * Py.str) :=
  match fields with
  | [] => inr []
  | (key, attr) :: rest =>
      match getattr g attr with
      | None => inl attr
      | Some value =>
          match build_settings g rest with
          | inl a => inl a
          | inr l => inr ((key, value) :: l)
          end
      end
  end.

Definition settings_fields : list (string * string) :=
  [("port", "port_var"); ("baudrate", "baud_var"); ("slave_id", "slave_id_var");
   ("command_type", "cmd_type_var"); ("address", "address_var");
   ("count", "count_var")]%string.

(** [save_settings(self)]; [filename] is the answer of the file dialog
    and [write_error] the exception, if any, of writing the file. *)
Definition save_settings (filename : option Py.str) (write_error : option Py.str)
    (g : GUI) : SaveOutcome :=
  match build_settings g settings_fields with
  | inl name => AttributeError name
  | inr settings =>
      match filename with
      | Some (c :: f) =>
          match write_error with
          | None => SettingsWritten (c :: f) settings
          | Some e => SaveFailed e
          end
      | _ => NoFileChosen
      end
  end.

(** ** What the operator does between commands *)

(** A successful [connect()]: the client is there and its port is open. *)
Definition connect (g : GUI) : GUI :=
  {| is_connected := true; socket_open := true;
     port_var := port_var g; baud_var := baud_var g;
     slave_id_var := slave_id_var g; cmd_type_var := cmd_type_var g;
     start_idx_var := start_idx_var g; length_var := length_var g;
     raw_bytes_var := raw_bytes_var g;
     register_vars := register_vars g;
     command_history := command_history g; log_queue := log_queue g;
     message_boxes := message_boxes g; client_calls := client_calls g |}.

(** Choosing an entry of the Command box. *)
Definition select_command (cmd_type : Py.str) (g : GUI) : GUI :=
  {| is_connected := is_connected g; socket_open := socket_open g;
     port_var := port_var g; baud_var := baud_var g;
     slave_id_var := slave_id_var g; cmd_type_var := cmd_type;
     start_idx_var := start_idx_var g; length_var := length_var g;
     raw_bytes_var := raw_bytes_var g;
     register_vars := register_vars g;
     command_history := command_history g; log_queue := log_queue g;
     message_boxes := message_boxes g; client_calls := client_calls g |}.

(** Choosing entries of the Start Index and Length boxes. *)
Definition select_range (start_idx length : Py.str) (g : GUI) : GUI :=
  {| is_connected := is_connected g; socket_open := socket_open g;
     port_var := port_var g; baud_var := baud_var g;
     slave_id_var := slave_id_var g; cmd_type_var := cmd_type_var g;
     start_idx_var := start_idx; length_var := length;
     raw_bytes_var := raw_bytes_var g;
     register_vars := register_vars g;
     command_history := command_history g; log_queue := log_queue g;
     message_boxes := message_boxes g; client_calls := client_calls g |}.

(** Typing into the Raw Bytes field. *)
Definition enter_raw (raw : Py.str) (g : GUI) : GUI :=
  {| is_connected := is_connected g; socket_open := socket_open g;
     port_var := port_var g; baud_var := baud_var g;
     slave_id_var := slave_id_var g; cmd_type_var := cmd_type_var g;
     start_idx_var := start_idx_var g; length_var := length_var g;
     raw_bytes_var := raw;
     register_vars := register_vars g;
     command_history := command_history g; log_queue := log_queue g;
     message_boxes := message_boxes g; client_calls := client_calls g |}.

(** A result of the client library that is not an error. *)
Definition response (regs : list Z) (coils : list bool) : Result :=
  {| isError := false; registers := regs; bits := coils;
     text := py "response"; exception := None |}.

(** An error result, such as the one a timeout gives. *)
Definition error_response : Result :=
  {| isError := true; registers := []; bits := [];
     text := py "Modbus Error: [Input/Output] No response received";
     exception := None |}.

(** An environment whose client answers with [r]. *)
Definition answering (r : Result) : Env :=
  {| timestamp := py "2025-01-01T00:00:00"; start_time := 0; end_time := 1;
     reply := Returns r |}.

(** ** Notions used to state the properties *)

(** Whether coil [n] of a Write Coils command is set: [n] is below
    [length] and [values[n]] is true. *)
Definition coil_set (length : Z) (values : list Z) (n : Z) : bool :=
  (n <? length) &&
  match values !! Z.to_nat n with
  | Some v => negb (v =? 0)
  | None => false
  end.

(** The byte whose bit j is [bj]. *)
Definition byte_of (b0 b1 b2 b3 b4 b5 b6 b7 : bool) : Z :=
  let set (b : bool) (j acc : Z) := if b then Z.lor acc (Z.shiftl 1 j) else acc in
  set b7 7 (set b6 6 (set b5 5 (set b4 4 (set b3 3 (set b2 2 (set b1 1 (set b0 0 0))))))).

(** The byte that the pass [i] of the outer loop of Write Coils appends. *)
Definition packed (length : Z) (values : list Z) (i : Z) : Z :=
  byte_of (coil_set length values (i + 0)) (coil_set length values (i + 1))
    (coil_set length values (i + 2)) (coil_set length values (i + 3))
    (coil_set length values (i + 4)) (coil_set length values (i + 5))
    (coil_set length values (i + 6)) (coil_set length values (i + 7)).

(** A hexadecimal digit, either case. *)
Definition is_hex_digit (c : ascii) : bool :=
  Py.between 48 57 c || Py.between 97 102 c || Py.between 65 70 c.

(** A hex input: one or more hexadecimal digits. *)
Definition hex_input (text : Py.str) : bool :=
  negb (Py.len text =? 0) && forallb is_hex_digit text.

(** The number that a string of hexadecimal digits writes. *)
Definition hex_value (digits : Py.str) : Z :=
  fold_left (fun acc c => acc * 16 + default 0 (Py.digit_value c)) digits 0.

(** A token that is exactly two hexadecimal digits. *)
Definition two_hex_digits (part : Py.str) : bool :=
  (Py.len part =? 2) && forallb is_hex_digit part.

(** A token that is a sign followed by one hexadecimal digit. *)
Definition signed_digit (part : Py.str) : bool :=
  match part with
  | [s; d] => (Ascii.eqb s "+" || Ascii.eqb s "-") && is_hex_digit d
  | _ => false
  end.

(** The dialog of [send_raw_command] for a token it does not read. *)
Definition malformed (part : Py.str) : ErrorBox :=
  if Py.len part =? 2 then InvalidHexValue part else InvalidHexByte part.

(** Every character below 256. *)
Definition all_ascii : list ascii := map ascii_of_nat (seq 0 256).

(** The bank has its 64 slots, as [create_register_display] makes them. *)
Definition has_slots (g : GUI) : Prop :=
  forall k, 0 <= k <= 63 -> is_Some (register_vars g !! k).

(** The boxes of the command row hold a slave id and a range that
    [execute_register_command] lets through. *)
Definition valid_inputs (g : GUI) (slave_id start_idx length : Z) : Prop :=
  Py.int 10 (slave_id_var g) = Some slave_id
  /\ Py.int 10 (start_idx_var g) = Some start_idx
  /\ Py.int 10 (length_var g) = Some length
  /\ 0 <= start_idx <= 63
  /\ 1 <= length <= 64
  /\ start_idx + length <= 64.

(** ** States and answers used as examples *)

(** The bank after a register read that left 0xABCD in slot 1. *)
Definition after_register_read : GUI :=
  execute_register_command (answering (response [0x1111; 0xABCD] []))
    (select_range (py "0") (py "2") (connect startup)).

(** The answer of the client library to a read of one coil: the bits of a
    whole byte. *)
Definition one_coil_reply : Result :=
  response [] [true; false; false; false; false; false; false; false].


(** ** The key handlers of the text fields *)

(** The text that [validate_hex_input] leaves in a slot. The comparison
    with the upper-cased text comes out the same for the characters that
    [Py.upper] leaves alone: they are not hexadecimal digits before or
    after upper-casing. *)
Definition validated_hex (slot_text : Py.str) : Py.str :=
  let current_value := Py.upper slot_text in
  let current_value :=
    if Py.startswith (py "0X") current_value
    then Py.slice_from 2 current_value else current_value in
  let hex_chars := filter (fun c => is_hex_upper c = true) current_value in
  let hex_chars :=
    if 4 <? Py.len hex_chars then Py.slice_to 4 hex_chars else hex_chars in
  if negb (bool_decide (hex_chars = current_value))
     && negb (bool_decide (hex_chars = []))
  then hex_chars else slot_text.

(** [validate_hex_input(self, reg_index)], bound to KeyRelease of a slot. *)
Definition validate_hex_input (reg_index : Z) (g : GUI) : GUI :=
  match register_vars g !! reg_index with
  | None => g
  | Some slot_text =>
      set_register_vars (<[reg_index := validated_hex slot_text]> (register_vars g)) g
  end.

(** [s[i:i+2]] for a non-negative [i]. *)
Definition pair_at (s : Py.str) (i : Z) : Py.str :=
  firstn 2 (skipn (Z.to_nat i) s).

(** [' '.join([hex_chars[i:i+2] for i in range(0, len(hex_chars), 2)])] *)
Definition spaced_pairs (hex_chars : Py.str) : Py.str :=
  Py.join (py " ") (map (pair_at hex_chars) (Py.range3 0 (Py.len hex_chars) 2)).

(** The hexadecimal digits that [validate_raw_input] finds in a text:
    [cleaned.replace(' ', '')]. *)
Definition raw_hex_chars (raw : Py.str) : Py.str :=
  let current_value := Py.upper raw in
  let cleaned :=
    filter (fun c => is_hex_upper c || Ascii.eqb c " " = true) current_value in
  filter (fun c => Ascii.eqb c " " = false) cleaned.

(** The text that [validate_raw_input] leaves in the Raw Bytes field. *)
Definition validated_raw (raw : Py.str) : Py.str :=
  let current_value := Py.upper raw in
  let hex_chars := raw_hex_chars raw in
  if 0 <? Py.len hex_chars then
    let spaced := spaced_pairs hex_chars in
    if negb (bool_decide (spaced = current_value)) then spaced else raw
  else raw.

(** [validate_raw_input(self)], bound to KeyRelease of the Raw Bytes
    field. *)
Definition validate_raw_input (g : GUI) : GUI :=
  enter_raw (validated_raw (raw_bytes_var g)) g.

(** ** Loading the settings *)

(** What [load_settings] finds: no file, a file that does not give a
    JSON object ([e] is the text of the exception), or the object, each
    value as the text a variable would show for it. *)
Inductive SettingsFile :=
  | NoSettingsFile
  | BadSettingsFile (e : Py.str)
  | Settings (settings : gmap string Py.str).

(** [settings.get(key, default)] *)
Definition settings_get (settings : gmap string Py.str) (key : string)
    (default : string) : Py.str :=
  match settings !! key with
  | Some value => value
  | None => py default
  end.

(** The four variables that [load_settings] sets before it reaches
    [self.address_var]. *)
Definition set_connection_vars (port baud slave_id cmd_type : Py.str) (g : GUI) : GUI :=
  {| is_connected := is_connected g; socket_open := socket_open g;
     port_var := port; baud_var := baud;
     slave_id_var := slave_id; cmd_type_var := cmd_type;
     start_idx_var := start_idx_var g; length_var := length_var g;
     raw_bytes_var := raw_bytes_var g;
     register_vars := register_vars g;
     command_history := command_history g; log_queue := log_queue g;
     message_boxes := message_boxes g; client_calls := client_calls g |}.

(** [load_settings(self)]: the state it leaves and the text of the
    WARNING record Failed to load settings, if it logs one. The method
    reads [self.address_var] and [self.count_var] like [save_settings]. *)
Definition load_settings (file : SettingsFile) (g : GUI) : GUI * option Py.str :=
  match file with
  | NoSettingsFile => (g, None)
  | BadSettingsFile e => (g, Some e)
  | Settings settings =>
      let g := set_connection_vars
                 (settings_get settings "port" "")
                 (settings_get settings "baudrate" "115200")
                 (settings_get settings "slave_id" "1")
                 (settings_get settings "command_type" "Read Holding Registers")
                 g in
      match getattr g "address_var", getattr g "count_var" with
      | Some _, Some _ => (g, None)
      | None, _ =>
          (g, Some (py "'ModbusSimulatorGUI' object has no attribute 'address_var'"))
      | _, None =>
          (g, Some (py "'ModbusSimulatorGUI' object has no attribute 'count_var'"))
      end
  end.

(** ** More notions used to state the properties *)

(** A byte. *)
Definition is_byte (b : Z) : Prop := 0 <= b < 256.

(** A 16-bit value. *)
Definition is_u16 (v : Z) : Prop := 0 <= v <= 65535.

(** The 16-bit values that a list of bytes writes, high byte first. *)
Fixpoint decode_be16 (payload : list Z) : list Z :=
  match payload with
  | hi :: lo :: rest => (hi * 256 + lo) :: decode_be16 rest
  | _ => []
  end.

(** The bank has exactly the keys 0..63. *)
Definition bank_keys (g : GUI) : Prop :=
  forall k, is_Some (register_vars g !! k) <-> 0 <= k <= 63.

(** The three read commands. *)
Definition is_read_command (cmd_type : Py.str) : bool :=
  is_cmd cmd_type "Read Holding Registers"
  || is_cmd cmd_type "Read Input Registers"
  || is_cmd cmd_type "Read Coils".

(** A text cut into pairs of characters, the last one alone when the
    length is odd. *)
Fixpoint pairs (s : Py.str) : list Py.str :=
  match s with
  | a :: b :: rest => [a; b] :: pairs rest
  | [a] => [[a]]
  | [] => []
  end.

(** * Properties *)

(** ** CRC16 *)

Lemma crc_loop_canonical : crc_loop [1; 3; 0; 0; 0; 1] = 0x0A84.
Proof. reflexivity. Qed.

Lemma range_8 : Py.range 8 = [0; 1; 2; 3; 4; 5; 6; 7].
Proof. reflexivity. Qed.

(** C1, as stated, fails: neither path appends 0A then 84 to
    01 03 00 00 00 01. *)
Lemma canonical_frame_not_0A_84 :
  frame_bytes (py "Read Holding Registers") 0 1 1 None = Some [1; 3; 0; 0; 0; 1]
  /\ builder_complete_frame [1; 3; 0; 0; 0; 1] <> [1; 3; 0; 0; 0; 1; 0x0A; 0x84]
  /\ raw_complete_frame [1; 3; 0; 0; 0; 1] <> [1; 3; 0; 0; 0; 1; 0x0A; 0x84].
Proof. split; [reflexivity | split; vm_compute; discriminate]. Qed.

(** C1 (amended): for the bytes 01 03 00 00 00 01 both paths append the
    low byte 0x84 of the CRC word 0x0A84 and then its high byte 0x0A: the
    frame is 01 03 00 00 00 01 84 0A, in the frame logger (its list and
    the text it logs) and in the raw path (its list and the bytes handed
    to the serial port). *)
Theorem canonical_frame_84_0A :
  crc_loop [1; 3; 0; 0; 0; 1] = 0x0A84
  /\ frame_bytes (py "Read Holding Registers") 0 1 1 None = Some [1; 3; 0; 0; 0; 1]
  /\ builder_complete_frame [1; 3; 0; 0; 0; 1] = [1; 3; 0; 0; 0; 1; 0x84; 0x0A]
  /\ log_modbus_frame (py "Read Holding Registers") 0 1 1 None
     = (INFO, ModbusFrame (py "01 03 00 00 00 01 84 0A") 0x84 0x0A)
  /\ raw_complete_frame [1; 3; 0; 0; 0; 1] = [1; 3; 0; 0; 0; 1; 0x84; 0x0A]
  /\ forall r,
       client_calls
         (send_raw_command (answering r)
            (enter_raw (py "01 03 00 00 00 01") (connect startup)))
       = [socket_write [1; 3; 0; 0; 0; 1; 0x84; 0x0A]].
Proof. repeat split; reflexivity. Qed.

(** *** The width of the result *)

Lemma lxor_below (n a b : Z) :
  0 <= a < 2 ^ n -> 0 <= b < 2 ^ n -> 0 <= Z.lxor a b < 2 ^ n.
Proof.
  intros Ha Hb. split; [apply Z.lxor_nonneg; lia|].
  destruct (Z.eq_dec (Z.lxor a b) 0) as [->|Hne]; [lia|].
  assert (Hpos : 0 < Z.lxor a b).
  { assert (0 <= Z.lxor a b) by (apply Z.lxor_nonneg; lia). lia. }
  assert (Hn : 0 < n).
  { destruct (Z_lt_le_dec 0 n) as [|Hle]; [done|].
    assert (2 ^ n <= 1).
    { destruct (Z.eq_dec n 0) as [->|]; [simpl; lia|].
      rewrite Z.pow_neg_r by lia. lia. }
    assert (a = 0) by lia. assert (b = 0) by lia. subst. by simpl in Hne. }
  apply Z.log2_lt_pow2; [exact Hpos|].
  pose proof (Z.log2_lxor a b ltac:(lia) ltac:(lia)) as Hlog.
  assert (Z.log2 a < n).
  { destruct (Z.eq_dec a 0) as [->|]; [simpl; lia|].
    apply Z.log2_lt_pow2; lia. }
  assert (Z.log2 b < n).
  { destruct (Z.eq_dec b 0) as [->|]; [simpl; lia|].
    apply Z.log2_lt_pow2; lia. }
  lia.
Qed.

Lemma crc_shift_16_bits (crc : Z) :
  0 <= crc < 2 ^ 16 -> 0 <= crc_shift crc < 2 ^ 16.
Proof.
  intros Hcrc. unfold crc_shift.
  assert (Hhalf : 0 <= Z.shiftr crc 1 < 2 ^ 15).
  { rewrite Z.shiftr_div_pow2 by lia. change (2 ^ 1) with 2.
    change (2 ^ 16) with 65536 in Hcrc. change (2 ^ 15) with 32768.
    split; [apply Z.div_pos; lia | apply Z.div_lt_upper_bound; lia]. }
  change (2 ^ 15) with 32768 in Hhalf.
  destruct (Z.land crc 1 =? 0).
  - change (2 ^ 16) with 65536. lia.
  - apply lxor_below; change (2 ^ 16) with 65536; lia.
Qed.

Lemma crc_update_16_bits (crc byte : Z) :
  0 <= crc < 2 ^ 16 -> 0 <= byte < 256 -> 0 <= crc_update crc byte < 2 ^ 16.
Proof.
  intros Hcrc Hbyte. unfold crc_update. rewrite range_8. cbn [fold_left].
  do 8 apply crc_shift_16_bits.
  apply lxor_below; change (2 ^ 16) with 65536 in *; lia.
Qed.

(** On bytes the loop keeps [crc] within 16 bits. *)
Lemma crc_loop_16_bits (data : list Z) :
  Forall (fun byte => 0 <= byte < 256) data -> 0 <= crc_loop data < 2 ^ 16.
Proof.
  unfold crc_loop. assert (H : 0 <= 0xFFFF < 2 ^ 16) by (simpl; lia).
  revert H. generalize 0xFFFF.
  induction data as [|byte data IH]; intros crc Hcrc Hdata; [exact Hcrc|].
  apply Forall_cons in Hdata as [Hbyte Hdata]. simpl.
  apply IH; [by apply crc_update_16_bits | exact Hdata].
Qed.

(** The swap keeps the high byte of [crc] in place as well: the result
    is [crc >> 8] plus [crc] shifted left by 8, a number below 2^24. *)
Lemma modbus_crc16_value (data : list Z) :
  Forall (fun byte => 0 <= byte < 256) data ->
  modbus_crc16 data = crc_loop data * 256 + crc_loop data / 256
  /\ 0 <= modbus_crc16 data < 2 ^ 24.
Proof.
  intros Hdata. pose proof (crc_loop_16_bits data Hdata) as Hcrc.
  unfold modbus_crc16. cbv zeta.
  change (2 ^ 16) with 65536 in Hcrc. change (2 ^ 24) with 16777216.
  set (crc := crc_loop data) in *.
  assert (Hhigh : 0 <= crc / 256 < 256).
  { split; [apply Z.div_pos; lia | apply Z.div_lt_upper_bound; lia]. }
  assert (Hsum : Z.lor (Z.shiftr crc 8) (Z.shiftl crc 8) = crc * 256 + crc / 256).
  { rewrite Z.shiftr_div_pow2, Z.shiftl_mul_pow2 by lia. change (2 ^ 8) with 256.
    assert (Hland : Z.land (crc * 256) (crc / 256) = 0).
    { apply Z.bits_inj'. intros n Hn. rewrite Z.land_spec, Z.bits_0.
      destruct (Z_lt_le_dec n 8).
      - replace (crc * 256) with (crc * 2 ^ 8) by reflexivity.
        rewrite Z.mul_pow2_bits_low by lia. reflexivity.
      - rewrite (Z.bits_above_log2 (crc / 256) n); [apply andb_false_r | lia |].
        destruct (Z.eq_dec (crc / 256) 0) as [->|]; [simpl; lia|].
        apply Z.lt_le_trans with 8; [|lia].
        apply Z.log2_lt_pow2; [lia|]. change (2 ^ 8) with 256. lia. }
    rewrite Z.lor_comm, <- Z.lxor_lor by exact Hland.
    symmetry. apply Z.add_nocarry_lxor. exact Hland. }
  rewrite Hsum. lia.
Qed.

(** C2: the value that [modbus_crc16] returns for 01 03 00 00 00 01 is
    0x0A840A, which does not fit in 16 bits: the left shift of the swap
    is not masked. *)
Theorem modbus_crc16_exceeds_16_bits :
  modbus_crc16 [1; 3; 0; 0; 0; 1] = 0x0A840A
  /\ ~ (0 <= modbus_crc16 [1; 3; 0; 0; 0; 1] <= 65535).
Proof. split; [reflexivity | vm_compute; intros [_ H]; apply H; reflexivity]. Qed.

(** ** Saving the settings *)

(** C10: whatever the state, the file chosen and the outcome of the
    write would be, [save_settings] ends with [AttributeError] on
    [address_var]: no settings are written. *)
Theorem save_settings_raises :
  forall filename write_error g,
    save_settings filename write_error g = AttributeError "address_var".
Proof. intros filename write_error g. reflexivity. Qed.

(** ** The dispatcher: results of the client *)

Section Dispatcher.

Implicit Types (g : GUI) (result : Result) (env : Env).

(** What the read branch shows, slot by slot. *)
Lemma show_values_lookup (read_values : list Z) :
  forall (start_idx i : Z) (vars : gmap Z Py.str) (k : Z),
    show_values start_idx i read_values vars !! k =
    match vars !! k with
    | None => None
    | Some old =>
        if decide (start_idx + i <= k < start_idx + i + Py.len read_values)
        then hex_text <$> read_values !! Z.to_nat (k - start_idx - i)
        else Some old
    end.
Proof.
  unfold Py.len.
  induction read_values as [|value rest IH]; intros start_idx i vars k; simpl.
  - destruct (vars !! k); [|done]. case_decide; [lia | done].
  - rewrite IH. destruct (decide (k = start_idx + i)) as [->|Hne].
    + replace (start_idx + i - start_idx - i) with 0 by lia. simpl.
      destruct (vars !! (start_idx + i)) eqn:Hk.
      * rewrite lookup_insert_eq. repeat case_decide; try lia; done.
      * rewrite Hk. done.
    + assert (Hsame :
        match vars !! (start_idx + i) with
        | Some _ => <[start_idx + i := hex_text value]> vars
        | None => vars
        end !! k = vars !! k).
      { destruct (vars !! (start_idx + i)); [|done].
        by rewrite lookup_insert_ne. }
      rewrite Hsame. destruct (vars !! k); [|done].
      repeat case_decide; try lia; try done.
      replace (Z.to_nat (k - start_idx - i))
        with (S (Z.to_nat (k - start_idx - (i + 1)))) by lia.
      done.
Qed.

Lemma handle_read_bank result cmd_type start_idx length timestamp start_time
    values now g :
  isError result = false ->
  register_vars
    (handle_register_result result cmd_type start_idx length timestamp
       start_time true values now g)
  = show_values start_idx 0 (read_values_of cmd_type result) (register_vars g).
Proof. intros Hok. unfold handle_register_result. rewrite Hok. reflexivity. Qed.

End Dispatcher.

(** C3, as stated, fails: a successful Read Coils of the range [0, 1)
    whose result carries eight bits overwrites slot 1, outside the
    range. *)
Lemma read_overwrites_beyond_length :
  isError one_coil_reply = false
  /\ register_vars after_register_read !! 1 = Some (py "0xABCD")
  /\ register_vars
       (execute_register_command (answering one_coil_reply)
          (select_range (py "0") (py "1")
             (select_command (py "Read Coils") after_register_read))) !! 1
     = Some (py "0x0000")
  /\ ~ (0 <= 1 < 0 + 1).
Proof. repeat split; try reflexivity. lia. Qed.

(** C3 (amended): on a successful read the slots that receive a value are
    exactly the existing slots in [start_idx, start_idx + n), where n is
    the number of values in the result; slot start_idx + i shows value i
    as 0x and four upper-case hex digits, and every other slot keeps its
    text. When the result carries exactly [length] values this is the
    range [start_idx, start_idx + length). *)
Theorem read_fills_returned_range :
  forall result cmd_type start_idx length timestamp start_time values now g,
    isError result = false ->
    let read_values := read_values_of cmd_type result in
    let g' := handle_register_result result cmd_type start_idx length
                timestamp start_time true values now g in
    (forall k,
       register_vars g' !! k =
       match register_vars g !! k with
       | None => None
       | Some old =>
           if decide (start_idx <= k < start_idx + Py.len read_values)
           then hex_text <$> read_values !! Z.to_nat (k - start_idx)
           else Some old
       end)
    /\ (Py.len read_values = length ->
        forall k, ~ (start_idx <= k < start_idx + length) ->
                  register_vars g' !! k = register_vars g !! k).
Proof.
  intros result cmd_type start_idx length timestamp start_time values now g
    Hok read_values g'.
  assert (Hall : forall k,
       register_vars g' !! k =
       match register_vars g !! k with
       | None => None
       | Some old =>
           if decide (start_idx <= k < start_idx + Py.len read_values)
           then hex_text <$> read_values !! Z.to_nat (k - start_idx)
           else Some old
       end).
  { intros k. unfold g'. rewrite handle_read_bank by done.
    rewrite show_values_lookup. fold read_values.
    replace (start_idx + 0) with start_idx by lia.
    replace (k - start_idx - 0) with (k - start_idx) by lia. done. }
  split; [done|].
  intros Hlen k Hout. rewrite Hall, Hlen.
  destruct (register_vars g !! k); [|done]. by case_decide.
Qed.

Lemma read_fills_returned_range_witness :
  isError (response [0x1111; 0xABCD] []) = false
  /\ register_vars
       (handle_register_result (response [0x1111; 0xABCD] [])
          (py "Read Holding Registers") 0 2 (py "t") 0 true None 1
          (connect startup)) !! 1
     = Some (py "0xABCD").
Proof.
  split; [reflexivity|].
  destruct (read_fills_returned_range (response [0x1111; 0xABCD] [])
              (py "Read Holding Registers") 0 2 (py "t") 0 None 1
              (connect startup) eq_refl) as [H _].
  rewrite (H 1). reflexivity.
Defined.

(** C7: when the client reports an error result, no entry is added to
    the command history and no slot of the bank changes; this holds for
    [handle_register_result] and for a whole [execute_register_command]
    whose call gets that result. *)
Theorem error_result_keeps_bank_and_history :
  forall result,
    isError result = true ->
    (forall cmd_type start_idx length timestamp start_time is_read values now g,
       let g' := handle_register_result result cmd_type start_idx length
                   timestamp start_time is_read values now g in
       command_history g' = command_history g
       /\ register_vars g' = register_vars g)
    /\ (forall env g,
         reply env = Returns result ->
         command_history (execute_register_command env g) = command_history g
         /\ register_vars (execute_register_command env g) = register_vars g).
Proof.
  intros result Herr.
  assert (Hhandle :
    forall cmd_type start_idx length timestamp start_time is_read values now g,
      command_history
        (handle_register_result result cmd_type start_idx length timestamp
           start_time is_read values now g) = command_history g
      /\ register_vars
          (handle_register_result result cmd_type start_idx length timestamp
             start_time is_read values now g) = register_vars g).
  { intros. unfold handle_register_result. rewrite Herr.
    destruct (exception result); split; reflexivity. }
  split; [exact Hhandle|].
  intros env g Hreply.
  assert (Htransact : forall c cmd_type start_idx length is_read values g0,
    command_history (transact env c cmd_type start_idx length is_read values g0)
      = command_history g0
    /\ register_vars (transact env c cmd_type start_idx length is_read values g0)
      = register_vars g0).
  { intros c cmd_type start_idx len is_read values g0.
    unfold transact. rewrite Hreply.
    destruct (Hhandle cmd_type start_idx len (timestamp env) (start_time env)
                is_read values (end_time env) (client_call c g0)) as [-> ->].
    split; reflexivity. }
  unfold execute_register_command.
  repeat case_match; try (split; reflexivity);
    match goal with
    | |- context [transact env ?c ?t ?s ?l ?r ?v ?g0] =>
        destruct (Htransact c t s l r v g0) as [-> ->]; split; reflexivity
    end.
Qed.

Lemma error_result_keeps_bank_and_history_witness :
  isError error_response = true
  /\ command_history
       (execute_register_command (answering error_response) (connect startup))
     = []
  /\ register_vars
       (execute_register_command (answering error_response) (connect startup))
     = fresh_register_vars.
Proof.
  split; [reflexivity|].
  destruct (error_result_keeps_bank_and_history error_response eq_refl)
    as [_ H].
  exact (H (answering error_response) (connect startup) eq_refl).
Defined.

(** Decides the tests [cmd_type == "..."] on a known command. *)
Ltac eval_cmd :=
  repeat match goal with
         | |- context [is_cmd ?c ?n] =>
             let b := eval vm_compute in (is_cmd c n) in
             change (is_cmd c n) with b
         end;
  cbv iota.

(** ** Write Coils: the packing of the coils *)

Section CoilPacking.

Variables (length : Z) (values : list Z).
Hypothesis values_cover : length <= Py.len values.

Lemma coil_bit_step (i j byte_val : Z) :
  0 <= i -> 0 <= j ->
  coil_bit length i (Some values) (Some byte_val) j
  = Some (if coil_set length values (i + j)
          then Z.lor byte_val (Z.shiftl 1 j) else byte_val).
Proof using values_cover.
  intros Hi Hj. unfold coil_bit, coil_set. simpl.
  destruct (i + j <? length) eqn:Hlt; [|reflexivity].
  apply Z.ltb_lt in Hlt.
  unfold Py.index. destruct (0 <=? i + j) eqn:Hnn; [|lia].
  unfold Py.len in values_cover.
  destruct (values !! Z.to_nat (i + j)) as [v|] eqn:Hv.
  - simpl. destruct (v =? 0); reflexivity.
  - apply lookup_ge_None in Hv. lia.
Qed.

Lemma coil_byte_value (i : Z) :
  0 <= i -> coil_byte length (Some values) i = Some (packed length values i).
Proof using values_cover.
  intros Hi. unfold coil_byte. rewrite range_8. cbn [fold_left].
  rewrite !coil_bit_step by lia. reflexivity.
Qed.

Lemma range3_lookup (stop : Z) (k : nat) (i : Z) :
  Py.range3 0 stop 8 !! k = Some i -> i = 8 * Z.of_nat k.
Proof.
  unfold Py.range3. rewrite list_lookup_fmap.
  destruct (seq 0 _ !! k) as [n|] eqn:Hn; [|discriminate].
  apply lookup_seq in Hn as [-> _]. simpl. intros [= <-]. lia.
Qed.

Lemma range3_length (stop : Z) :
  Py.len (Py.range3 0 stop 8) = Z.max 0 ((stop + 7) / 8).
Proof.
  unfold Py.len, Py.range3. rewrite length_map, length_seq.
  replace (stop - 0 + 8 - 1) with (stop + 7) by lia. lia.
Qed.

Lemma coil_bytes_value :
  mapM (coil_byte length (Some values)) (Py.range3 0 length 8)
  = Some (map (packed length values) (Py.range3 0 length 8)).
Proof using values_cover.
  apply mapM_Some. apply Forall2_fmap_r, Forall_Forall2_diag.
  apply Forall_lookup. intros k i Hk.
  apply range3_lookup in Hk as ->. apply coil_byte_value. lia.
Qed.

End CoilPacking.

Lemma byte_of_range b0 b1 b2 b3 b4 b5 b6 b7 :
  0 <= byte_of b0 b1 b2 b3 b4 b5 b6 b7 < 256.
Proof.
  destruct b0, b1, b2, b3, b4, b5, b6, b7; vm_compute; split; congruence.
Qed.

Lemma byte_of_testbit b0 b1 b2 b3 b4 b5 b6 b7 (j : nat) :
  (j < 8)%nat ->
  Z.testbit (byte_of b0 b1 b2 b3 b4 b5 b6 b7) (Z.of_nat j)
  = nth j [b0; b1; b2; b3; b4; b5; b6; b7] false.
Proof.
  intros Hj.
  do 8 (destruct j as [|j]; [destruct b0, b1, b2, b3, b4, b5, b6, b7; reflexivity|]).
  lia.
Qed.

Lemma coil_set_bool (coils : list bool) (n : nat) :
  coil_set (Py.len coils) (map Z.b2z coils) (Z.of_nat n)
  = default false (coils !! n).
Proof.
  unfold coil_set, Py.len. rewrite Nat2Z.id.
  change (map Z.b2z coils) with (Z.b2z <$> coils). rewrite list_lookup_fmap.
  destruct (coils !! n) as [b|] eqn:Hn; simpl.
  - apply lookup_lt_Some in Hn.
    destruct (Z.of_nat n <? Z.of_nat (List.length coils)) eqn:Hlt;
      [|apply Z.ltb_ge in Hlt; lia].
    destruct b; reflexivity.
  - apply andb_false_r.
Qed.

Lemma packed_testbit (coils : list bool) (k j : nat) :
  (j < 8)%nat ->
  Z.testbit (packed (Py.len coils) (map Z.b2z coils) (8 * Z.of_nat k)) (Z.of_nat j)
  = default false (coils !! (8 * k + j)%nat).
Proof.
  intros Hj. unfold packed. rewrite byte_of_testbit by done.
  replace (8 * Z.of_nat k + 0) with (Z.of_nat (8 * k + 0)) by lia.
  replace (8 * Z.of_nat k + 1) with (Z.of_nat (8 * k + 1)) by lia.
  replace (8 * Z.of_nat k + 2) with (Z.of_nat (8 * k + 2)) by lia.
  replace (8 * Z.of_nat k + 3) with (Z.of_nat (8 * k + 3)) by lia.
  replace (8 * Z.of_nat k + 4) with (Z.of_nat (8 * k + 4)) by lia.
  replace (8 * Z.of_nat k + 5) with (Z.of_nat (8 * k + 5)) by lia.
  replace (8 * Z.of_nat k + 6) with (Z.of_nat (8 * k + 6)) by lia.
  replace (8 * Z.of_nat k + 7) with (Z.of_nat (8 * k + 7)) by lia.
  rewrite !coil_set_bool.
  do 8 (destruct j as [|j]; [reflexivity|]). lia.
Qed.

(** C6: for a length in [1, 64] and booleans [coils] of that length, the
    Write Coils frame is the seven header bytes, whose last is the byte
    count ceil(length / 8), followed by that many bytes; bit j of byte k
    is coil 8k + j, and a bit with no coil is 0 (every byte is below 256).
    The frame that is logged is this list and the two CRC bytes. The
    coils 1 0 1 1 0 0 0 0 pack into the single byte 0x0D. *)
Theorem write_coils_packing :
  forall slave_id start_idx length (coils : list bool),
    1 <= length <= 64 ->
    Py.len coils = length ->
    exists coil_bytes,
      frame_bytes (py "Write Coils") start_idx length slave_id
        (Some (map Z.b2z coils))
      = Some ([slave_id; 0x0F; high_byte start_idx; low_byte start_idx;
               high_byte length; low_byte length; (length + 7) / 8]
              ++ coil_bytes)
      /\ 8 * ((length + 7) / 8 - 1) < length <= 8 * ((length + 7) / 8)
      /\ Py.len coil_bytes = (length + 7) / 8
      /\ (forall (k : nat) byte,
            coil_bytes !! k = Some byte ->
            0 <= byte < 256
            /\ forall j : nat, (j < 8)%nat ->
                 Z.testbit byte (Z.of_nat j)
                 = default false (coils !! (8 * k + j)%nat))
      /\ (let frame := [slave_id; 0x0F; high_byte start_idx; low_byte start_idx;
                         high_byte length; low_byte length; (length + 7) / 8]
                        ++ coil_bytes in
          log_modbus_frame (py "Write Coils") start_idx length slave_id
            (Some (map Z.b2z coils))
          = (INFO,
             ModbusFrame
               (hex_frame (frame ++ [fst (builder_crc frame); snd (builder_crc frame)]))
               (fst (builder_crc frame)) (snd (builder_crc frame))))
      /\ frame_bytes (py "Write Coils") 0 8 1
           (Some (map Z.b2z [true; false; true; true; false; false; false; false]))
         = Some [1; 0x0F; 0; 0; 0; 8; 1; 0x0D].
Proof.
  intros slave_id start_idx length coils Hrange Hlen.
  exists (map (packed length (map Z.b2z coils)) (Py.range3 0 length 8)).
  assert (Hcover : length <= Py.len (map Z.b2z coils)).
  { unfold Py.len in *. rewrite length_map. lia. }
  assert (Hframe :
    frame_bytes (py "Write Coils") start_idx length slave_id
      (Some (map Z.b2z coils))
    = Some ([slave_id; 0x0F; high_byte start_idx; low_byte start_idx;
             high_byte length; low_byte length; (length + 7) / 8]
            ++ map (packed length (map Z.b2z coils)) (Py.range3 0 length 8))).
  { unfold frame_bytes. eval_cmd.
    rewrite coil_bytes_value by exact Hcover. reflexivity. }
  split; [|split; [|split; [|split; [|split]]]].
  - exact Hframe.
  - pose proof (Z.div_mod (length + 7) 8 ltac:(lia)).
    pose proof (Z.mod_pos_bound (length + 7) 8 ltac:(lia)). lia.
  - pose proof (range3_length length) as Hl. unfold Py.len in *.
    rewrite length_map. rewrite Hl.
    pose proof (Z.div_pos (length + 7) 8 ltac:(lia) ltac:(lia)). lia.
  - intros k byte Hk.
    change (map (packed length (map Z.b2z coils)) (Py.range3 0 length 8))
      with (packed length (map Z.b2z coils) <$> Py.range3 0 length 8) in Hk.
    rewrite list_lookup_fmap in Hk.
    destruct (Py.range3 0 length 8 !! k) as [i|] eqn:Hi; [|discriminate].
    apply range3_lookup in Hi as ->. simpl in Hk. injection Hk as <-.
    split; [apply byte_of_range|].
    intros j Hj. rewrite <- Hlen. apply packed_testbit. exact Hj.
  - cbv zeta. unfold log_modbus_frame, builder_complete_frame.
    rewrite Hframe. destruct (builder_crc _) as [crc_low crc_high]. reflexivity.
  - reflexivity.
Qed.

Lemma write_coils_packing_witness :
  exists coil_bytes,
    frame_bytes (py "Write Coils") 3 10 17
      (Some (map Z.b2z [true; true; false; false; false; false; false; true;
                        false; true]))
    = Some ([17; 0x0F; 0; 3; 0; 10; 2] ++ coil_bytes)
    /\ Py.len coil_bytes = 2.
Proof.
  destruct (write_coils_packing 17 3 10
              [true; true; false; false; false; false; false; true; false; true]
              ltac:(lia) eq_refl) as (coil_bytes & Hframe & _ & Hcount & _).
  exists coil_bytes. split; [exact Hframe | exact Hcount].
Defined.

(** ** The hex text of a slot *)

Lemma hex_digit_facts (c : ascii) :
  is_hex_digit c = true ->
  Py.int_isspace c = false /\ Py.isspace c = false
  /\ Ascii.eqb c "+" = false /\ Ascii.eqb c "-" = false
  /\ Py.is_underscore c = false
  /\ Ascii.eqb c "x" = false /\ Ascii.eqb c "X" = false
  /\ (exists d, Py.digit_value c = Some d /\ 0 <= d < 16)
  /\ is_hex_upper (Py.upper_char c) = true
  /\ is_hex_digit (Py.upper_char c) = true
  /\ Py.digit_value (Py.upper_char c) = Py.digit_value c.
Proof.
  destruct c as [b0 b1 b2 b3 b4 b5 b6 b7].
  destruct b0, b1, b2, b3, b4, b5, b6, b7; intros H; vm_compute in H;
    try discriminate H;
    repeat match goal with |- _ /\ _ => split end;
    try reflexivity; eexists; (split; [reflexivity | vm_compute; split; easy]).
Qed.

Lemma hex_upper_is_digit (c : ascii) : is_hex_upper c = true -> is_hex_digit c = true.
Proof.
  unfold is_hex_upper, is_hex_digit. intros H.
  apply orb_true_iff in H as [->| ->]; [reflexivity|].
  rewrite orb_true_r. reflexivity.
Qed.

Lemma scan_hex_digits (s : Py.str) :
  forall acc n,
    forallb is_hex_digit s = true ->
    Py.scan_digits 16 false acc n s
    = Some (fold_left (fun acc c => acc * 16 + default 0 (Py.digit_value c)) s acc,
            (n + List.length s)%nat, []).
Proof.
  induction s as [|c s IH]; intros acc n Hs; simpl.
  - rewrite Nat.add_0_r. reflexivity.
  - simpl in Hs. apply andb_true_iff in Hs as [Hc Hs].
    destruct (hex_digit_facts c Hc)
      as (_ & _ & _ & _ & Hus & _ & _ & (d & Hd & Hd16) & _).
    rewrite Hus, Hd. simpl.
    destruct (d <? 16) eqn:Hlt; [|apply Z.ltb_ge in Hlt; lia].
    rewrite IH by exact Hs.
    replace (S n + List.length s)%nat with (n + S (List.length s))%nat by lia.
    reflexivity.
Qed.

Lemma int_digits_hex (sign : Z) (s : Py.str) :
  hex_input s = true -> Py.int_digits 16 sign s = Some (sign * hex_value s).
Proof.
  unfold hex_input. intros H. apply andb_true_iff in H as [Hne Hs].
  destruct s as [|c s]; [discriminate|]. clear Hne.
  pose proof Hs as Hall. simpl in Hs. apply andb_true_iff in Hs as [Hc Hs].
  destruct (hex_digit_facts c Hc) as (_ & _ & _ & _ & Hus & _).
  unfold Py.int_digits. rewrite Hus, (scan_hex_digits (c :: s) 0 0%nat Hall).
  reflexivity.
Qed.

(** [int(s, 16)] on hexadecimal digits. *)
Lemma int16_digits (s : Py.str) :
  hex_input s = true -> Py.int 16 s = Some (hex_value s).
Proof.
  intros H. pose proof (int_digits_hex 1 s H) as Hd.
  unfold hex_input in H. apply andb_true_iff in H as [Hne Hs].
  destruct s as [|c s]; [discriminate|]. clear Hne.
  simpl in Hs. apply andb_true_iff in Hs as [Hc Hs].
  destruct (hex_digit_facts c Hc) as (Hsp & _ & Hplus & Hminus & _).
  unfold Py.int. cbn [Py.skip_int_space]. rewrite Hsp.
  unfold Py.take_sign. rewrite Hplus, Hminus.
  assert (Hprefix : Py.take_prefix 16 (c :: s) = c :: s).
  { destruct s as [|x s']; [reflexivity|].
    simpl in Hs. apply andb_true_iff in Hs as [Hx _].
    destruct (hex_digit_facts x Hx) as (_ & _ & _ & _ & _ & Hx1 & Hx2 & _).
    unfold Py.take_prefix. rewrite Hx1, Hx2, andb_false_r. reflexivity. }
  rewrite Hprefix, Hd. f_equal. lia.
Qed.

(** [int(s, 16)] on 0x followed by hexadecimal digits. *)
Lemma int16_prefixed (d : Py.str) :
  hex_input d = true -> Py.int 16 (py "0x" ++ d) = Some (hex_value d).
Proof.
  intros H. pose proof (int_digits_hex 1 d H) as Hd.
  unfold hex_input in H. apply andb_true_iff in H as [Hne Hs].
  destruct d as [|c d]; [discriminate|]. clear Hne.
  simpl in Hs. apply andb_true_iff in Hs as [Hc Hs].
  destruct (hex_digit_facts c Hc) as (_ & _ & _ & _ & Hus & _).
  change (py "0x" ++ c :: d) with ("0"%char :: "x"%char :: c :: d).
  unfold Py.int.
  change (Py.skip_int_space ("0"%char :: "x"%char :: c :: d))
    with ("0"%char :: "x"%char :: c :: d).
  change (Py.take_sign ("0"%char :: "x"%char :: c :: d))
    with (1, "0"%char :: "x"%char :: c :: d).
  cbv beta iota.
  change (Py.take_prefix 16 ("0"%char :: "x"%char :: c :: d))
    with (if Py.is_underscore c then d else c :: d).
  rewrite Hus, Hd. f_equal. lia.
Qed.

Lemma upper_hex (s : Py.str) :
  forallb is_hex_digit s = true ->
  forallb is_hex_upper (Py.upper s) = true
  /\ forallb is_hex_digit (Py.upper s) = true
  /\ filter (fun c => is_hex_upper c = true) (Py.upper s) = Py.upper s
  /\ List.length (Py.upper s) = List.length s.
Proof.
  induction s as [|c s IH]; intros Hs; [done|].
  simpl in Hs. apply andb_true_iff in Hs as [Hc Hs].
  destruct (IH Hs) as (IH1 & IH2 & IH3 & IH4).
  destruct (hex_digit_facts c Hc) as (_ & _ & _ & _ & _ & _ & _ & _ & Hu & Hd & _).
  unfold Py.upper in *. simpl. rewrite Hu, Hd, IH1, IH2, IH4.
  repeat split. rewrite filter_cons_True by exact Hu. by rewrite IH3.
Qed.

Lemma upper_hex_no_prefix (s : Py.str) :
  forallb is_hex_digit s = true -> Py.startswith (py "0X") (Py.upper s) = false.
Proof.
  intros Hs. destruct s as [|a [|b s]]; [reflexivity| |].
  - simpl. apply andb_false_r.
  - simpl in Hs. apply andb_true_iff in Hs as [_ Hs].
    apply andb_true_iff in Hs as [Hb _].
    destruct (hex_digit_facts b Hb) as (_ & _ & _ & _ & _ & _ & _ & _ & _ & Hd & _).
    destruct (hex_digit_facts _ Hd) as (_ & _ & _ & _ & _ & _ & HX & _).
    change (Py.startswith (py "0X") (Py.upper (a :: b :: s)))
      with (Ascii.eqb "0" (Py.upper_char a)
            && (Ascii.eqb "X" (Py.upper_char b) && true)).
    rewrite (Ascii.eqb_sym "X"), HX. apply andb_false_r.
Qed.

Lemma hex_value_zeros (n : nat) (s : Py.str) :
  hex_value (repeat "0"%char n ++ s) = hex_value s.
Proof.
  unfold hex_value. rewrite fold_left_app. f_equal.
  induction n as [|n IH]; [reflexivity | exact IH].
Qed.

Lemma hex_value_upper (s : Py.str) :
  forallb is_hex_digit s = true -> hex_value (Py.upper s) = hex_value s.
Proof.
  unfold hex_value. generalize 0 at 2 4.
  induction s as [|c s IH]; intros acc Hs; [done|].
  simpl in Hs. apply andb_true_iff in Hs as [Hc Hs].
  destruct (hex_digit_facts c Hc) as (_ & _ & _ & _ & _ & _ & _ & _ & _ & _ & Hv).
  unfold Py.upper in *. simpl. rewrite Hv. apply IH, Hs.
Qed.

Lemma zfill_hex (h : Py.str) :
  forallb is_hex_upper h = true ->
  Py.zfill 4 h = repeat "0"%char (4 - List.length h) ++ h.
Proof.
  destruct h as [|c h]; intros Hh.
  - unfold Py.zfill. by rewrite app_nil_r.
  - simpl in Hh. apply andb_true_iff in Hh as [Hc _].
    destruct (hex_digit_facts c (hex_upper_is_digit c Hc))
      as (_ & _ & Hplus & Hminus & _).
    unfold Py.zfill. rewrite Hplus, Hminus. reflexivity.
Qed.

Lemma forallb_filter_hex (s : Py.str) :
  forallb is_hex_upper (filter (fun c => is_hex_upper c = true) s) = true.
Proof.
  induction s as [|c s IH]; [done|].
  destruct (is_hex_upper c) eqn:Hc.
  - rewrite filter_cons_True by done. simpl. by rewrite Hc.
  - rewrite filter_cons_False by (rewrite Hc; done). exact IH.
Qed.

Lemma forallb_firstn (f : ascii -> bool) (n : nat) (s : Py.str) :
  forallb f s = true -> forallb f (firstn n s) = true.
Proof.
  revert n. induction s as [|c s IH]; intros [|n] Hs; try done.
  simpl in *. apply andb_true_iff in Hs as [-> Hs]. by apply IH.
Qed.

(** The text that [pad_hex_input] stores, in terms of the hexadecimal
    digits it finds. *)
Lemma padded_hex_shape (text : Py.str) :
  exists d,
    padded_hex text = py "0x" ++ d
    /\ List.length d = 4%nat
    /\ forallb is_hex_upper d = true.
Proof.
  unfold padded_hex.
  set (h := filter _ _).
  assert (Hh : forallb is_hex_upper h = true) by apply forallb_filter_hex.
  clearbody h. unfold Py.len.
  destruct (Z.of_nat (List.length h) =? 0) eqn:H0.
  { exists (py "0000"). done. }
  destruct (Z.of_nat (List.length h) <=? 4) eqn:H4.
  - exists (Py.zfill 4 h). split; [done|].
    rewrite zfill_hex by done. apply Z.leb_le in H4. split.
    + rewrite length_app, repeat_length. lia.
    + rewrite forallb_app, Hh, andb_true_r. by induction (4 - List.length h)%nat.
  - exists (Py.slice_to 4 h). apply Z.leb_gt in H4. split; [done|]. split.
    + unfold Py.slice_to. rewrite length_take. lia.
    + by apply forallb_firstn.
Qed.

Lemma padded_hex_short (text : Py.str) :
  hex_input text = true ->
  Py.len text <= 4 ->
  padded_hex text
  = py "0x" ++ repeat "0"%char (4 - List.length text) ++ Py.upper text.
Proof.
  unfold hex_input, Py.len. intros H Hlen.
  apply andb_true_iff in H as [Hne Hs].
  destruct (upper_hex text Hs) as (Hu & _ & Hf & Hl).
  unfold padded_hex. rewrite upper_hex_no_prefix by done. rewrite Hf.
  unfold Py.len. rewrite Hl.
  destruct (Z.of_nat (List.length text) =? 0) eqn:H0; [discriminate|].
  destruct (Z.of_nat (List.length text) <=? 4) eqn:H4;
    [|apply Z.leb_gt in H4; lia].
  rewrite zfill_hex by done. by rewrite Hl.
Qed.

Lemma padded_hex_long (text : Py.str) :
  hex_input text = true ->
  4 < Py.len text ->
  padded_hex text = py "0x" ++ Py.upper (firstn 4 text).
Proof.
  unfold hex_input, Py.len. intros H Hlen.
  apply andb_true_iff in H as [Hne Hs].
  destruct (upper_hex text Hs) as (Hu & _ & Hf & Hl).
  unfold padded_hex. rewrite upper_hex_no_prefix by done. rewrite Hf.
  unfold Py.len. rewrite Hl.
  destruct (Z.of_nat (List.length text) =? 0) eqn:H0;
    [apply Z.eqb_eq in H0; lia|].
  destruct (Z.of_nat (List.length text) <=? 4) eqn:H4;
    [apply Z.leb_le in H4; lia|].
  unfold Py.slice_to, Py.upper. by rewrite firstn_map.
Qed.

(** C8, as stated, fails: committing the hex input 12345 stores 0x1234,
    which re-parses to 0x1234 and not to 0x12345. *)
Lemma commit_changes_long_input :
  hex_input (py "12345") = true
  /\ padded_hex (py "12345") = py "0x1234"
  /\ Py.int 16 (py "12345") = Some 0x12345
  /\ Py.int 16 (padded_hex (py "12345")) = Some 0x1234
  /\ Py.int 16 (padded_hex (py "12345")) <> Py.int 16 (py "12345").
Proof. repeat split; try reflexivity. vm_compute. discriminate. Qed.

(** C8 (amended): committing a slot stores 0x followed by exactly four
    upper-case hexadecimal digits, whatever the text was; an empty field
    becomes 0x0000; a hex input of more than four digits is cut to its
    first four. For a hex input of at most four digits the round trip
    holds: re-parsing the committed text as hex gives the value of the
    input; 1a becomes 0x001A, which re-parses to 0x1A. *)
Theorem commit_normalizes :
  (forall reg_index text g,
     register_vars g !! reg_index = Some text ->
     register_vars (pad_hex_input reg_index g) !! reg_index
     = Some (padded_hex text))
  /\ (forall text, exists d,
        padded_hex text = py "0x" ++ d
        /\ List.length d = 4%nat
        /\ forallb is_hex_upper d = true)
  /\ padded_hex [] = py "0x0000"
  /\ (forall text,
        hex_input text = true -> 4 < Py.len text ->
        padded_hex text = py "0x" ++ Py.upper (firstn 4 text))
  /\ (forall text,
        hex_input text = true -> Py.len text <= 4 ->
        Py.int 16 text = Some (hex_value text)
        /\ Py.int 16 (padded_hex text) = Py.int 16 text)
  /\ padded_hex (py "1a") = py "0x001A"
  /\ Py.int 16 (py "0x001A") = Some 0x1A.
Proof.
  split; [|split; [|split; [|split; [|split; [|split]]]]]; try reflexivity.
  - intros reg_index text g Hslot. unfold pad_hex_input. rewrite Hslot.
    simpl. apply lookup_insert_eq.
  - apply padded_hex_shape.
  - apply padded_hex_long.
  - intros text Hhex Hlen. rewrite (int16_digits text Hhex). split; [done|].
    rewrite padded_hex_short by done.
    pose proof Hhex as H. unfold hex_input in H.
    apply andb_true_iff in H as [Hne Hs].
    destruct (upper_hex text Hs) as (_ & Hd & _ & Hl).
    rewrite int16_prefixed.
    + by rewrite hex_value_zeros, hex_value_upper.
    + unfold hex_input. apply andb_true_iff. split.
      * unfold Py.len in *. rewrite length_app, Hl.
        destruct (Z.of_nat (List.length text) =? 0) eqn:H0; [discriminate|].
        apply Z.eqb_neq in H0. apply negb_true_iff, Z.eqb_neq. lia.
      * rewrite forallb_app, Hd, andb_true_r.
        by induction (4 - List.length text)%nat.
Qed.

Lemma commit_normalizes_witness :
  hex_input (py "beef") = true
  /\ Py.len (py "beef") <= 4
  /\ Py.int 16 (padded_hex (py "beef")) = Py.int 16 (py "beef").
Proof.
  split; [reflexivity|]. split; [vm_compute; discriminate|].
  destruct commit_normalizes as (_ & _ & _ & _ & H & _).
  destruct (H (py "beef") eq_refl ltac:(vm_compute; discriminate)) as [_ Hrt].
  exact Hrt.
Defined.

(** ** The raw command path *)

Lemma all_ascii_complete (c : ascii) : In c all_ascii.
Proof.
  unfold all_ascii. rewrite <- (ascii_nat_embedding c).
  apply in_map, in_seq. pose proof (nat_ascii_bounded c). lia.
Qed.

(** Which tokens of two characters [int(part, 16)] reads; a token has no
    white space. *)
Lemma int16_two_chars (a b : ascii) :
  Py.isspace a = false -> Py.isspace b = false ->
  match Py.int 16 [a; b] with Some _ => true | None => false end
  = two_hex_digits [a; b] || signed_digit [a; b].
Proof.
  assert (Hall :
    forallb (fun a => forallb (fun b =>
      Py.isspace a || Py.isspace b ||
      Bool.eqb match Py.int 16 [a; b] with Some _ => true | None => false end
               (two_hex_digits [a; b] || signed_digit [a; b]))
      all_ascii) all_ascii = true) by (vm_compute; reflexivity).
  intros Ha Hb.
  rewrite forallb_forall in Hall.
  specialize (Hall a (all_ascii_complete a)).
  rewrite forallb_forall in Hall.
  specialize (Hall b (all_ascii_complete b)).
  rewrite Ha, Hb in Hall. apply Bool.eqb_prop in Hall. exact Hall.
Qed.

Lemma two_hex_digits_read (part : Py.str) :
  two_hex_digits part = true ->
  Py.len part = 2 /\ Py.int 16 part = Some (hex_value part).
Proof.
  unfold two_hex_digits. intros H. apply andb_true_iff in H as [Hlen Hs].
  apply Z.eqb_eq in Hlen. split; [exact Hlen|].
  apply int16_digits. unfold hex_input. rewrite Hlen, Hs. reflexivity.
Qed.

(** A token that is neither two hexadecimal digits nor a signed digit
    gets the dialog that names it. *)
Lemma bad_part_rejected (part : Py.str) (rest : list Py.str) (acc : list Z) :
  Forall (fun c => Py.isspace c = false) part ->
  two_hex_digits part = false ->
  signed_digit part = false ->
  parse_hex_parts (part :: rest) acc = inl (malformed part).
Proof.
  intros Hns Htwo Hsigned. unfold malformed. simpl.
  destruct (Py.len part =? 2) eqn:Hlen; [|reflexivity]. simpl.
  apply Z.eqb_eq in Hlen. unfold Py.len in Hlen.
  destruct part as [|a [|b [|c part]]]; simpl in Hlen; try lia.
  apply Forall_cons in Hns as [Ha Hns]. apply Forall_cons in Hns as [Hb _].
  pose proof (int16_two_chars a b Ha Hb) as H. rewrite Htwo, Hsigned in H.
  destruct (Py.int 16 [a; b]); [discriminate | reflexivity].
Qed.

Lemma parse_hex_parts_good (good : list Py.str) :
  forall rest acc,
    forallb two_hex_digits good = true ->
    parse_hex_parts (good ++ rest) acc
    = parse_hex_parts rest (acc ++ map hex_value good).
Proof.
  induction good as [|part good IH]; intros rest acc Hgood; simpl.
  - by rewrite app_nil_r.
  - simpl in Hgood. apply andb_true_iff in Hgood as [Hpart Hgood].
    destruct (two_hex_digits_read part Hpart) as [Hlen Hint].
    rewrite Hlen, Hint. simpl. rewrite IH by exact Hgood.
    by rewrite <- app_assoc.
Qed.

Lemma parse_hex_parts_length (parts : list Py.str) :
  forall acc frame,
    parse_hex_parts parts acc = inr frame ->
    List.length frame = (List.length acc + List.length parts)%nat.
Proof.
  induction parts as [|part parts IH]; intros acc frame H; simpl in H.
  - injection H as <-. simpl. lia.
  - destruct (negb (Py.len part =? 2)); [discriminate|].
    destruct (Py.int 16 part); [|discriminate].
    apply IH in H. rewrite H, length_app. simpl. lia.
Qed.

(** *** Blank text and the empty list of tokens *)

Lemma lstrip_head (s : Py.str) (c : ascii) (t : Py.str) :
  Py.lstrip s = c :: t -> Py.isspace c = false.
Proof.
  induction s as [|a s IH]; simpl; [discriminate|].
  destruct (Py.isspace a) eqn:Ha; [exact IH|].
  intros [= <- _]. exact Ha.
Qed.

Lemma lstrip_suffix (s : Py.str) : exists p, s = p ++ Py.lstrip s.
Proof.
  induction s as [|a s [p IH]]; simpl; [by exists []|].
  destruct (Py.isspace a).
  - exists (a :: p). simpl. by f_equal.
  - by exists [].
Qed.

Lemma strip_head (s : Py.str) (c : ascii) (t : Py.str) :
  Py.strip s = c :: t -> Py.isspace c = false.
Proof.
  unfold Py.strip. intros H.
  destruct (lstrip_suffix (rev (Py.lstrip s))) as [p Hp].
  apply (f_equal (@rev ascii)) in Hp.
  rewrite rev_involutive, rev_app_distr, H in Hp.
  simpl in Hp. exact (lstrip_head s c _ Hp).
Qed.

Lemma split_go_nonempty (s : Py.str) :
  forall c cur, Py.split_go (c :: cur) s <> [].
Proof.
  induction s as [|a s IH]; intros c cur; simpl; [discriminate|].
  destruct (Py.isspace a); [discriminate | apply IH].
Qed.

Lemma split_strip_nil (s : Py.str) :
  Py.split (Py.strip s) = [] <-> Py.strip s = [].
Proof.
  split; [|intros ->; reflexivity].
  destruct (Py.strip s) as [|c t] eqn:Hs; [done|].
  apply strip_head in Hs. unfold Py.split. simpl. rewrite Hs.
  intros H. by apply split_go_nonempty in H.
Qed.

(** A token of [split] has no white space in it. *)
Lemma split_go_tokens (s : Py.str) :
  forall cur,
    Forall (fun c => Py.isspace c = false) cur ->
    Forall (Forall (fun c => Py.isspace c = false)) (Py.split_go cur s).
Proof.
  induction s as [|a s IH]; intros cur Hcur; simpl.
  - destruct cur; [constructor|].
    constructor; [|constructor]. by apply Forall_rev.
  - destruct (Py.isspace a) eqn:Ha.
    + destruct cur; [by apply IH|].
      constructor; [by apply Forall_rev | by apply IH].
    + apply IH. by constructor.
Qed.

Lemma split_tokens (s : Py.str) :
  Forall (Forall (fun c => Py.isspace c = false)) (Py.split s).
Proof. apply split_go_tokens. constructor. Qed.

Section RawPath.

Variables (env : Env) (g : GUI).
Hypothesis connected : is_connected g = true.

Local Abbreviation parts := (Py.split (Py.strip (raw_bytes_var g))).

Lemma send_raw_blank :
  parts = [] -> send_raw_command env g = showerror EnterRawBytes g.
Proof using connected.
  intros H. apply split_strip_nil in H.
  unfold send_raw_command. rewrite connected, H. reflexivity.
Qed.

Lemma send_raw_one_token (part : Py.str) :
  parts = [part] -> send_raw_command env g = showerror CommandTooShort g.
Proof using connected.
  intros H. unfold send_raw_command. rewrite connected. simpl negb. cbv iota.
  destruct (Py.strip (raw_bytes_var g)) eqn:Hs; [discriminate|].
  rewrite H. reflexivity.
Qed.

Lemma send_raw_unread (e : ErrorBox) :
  2 <= Py.len parts ->
  parse_hex_parts parts [] = inl e ->
  send_raw_command env g = showerror e g.
Proof using connected.
  intros Hlen Hparse. unfold send_raw_command. rewrite connected.
  simpl negb. cbv iota.
  destruct (Py.strip (raw_bytes_var g)) eqn:Hs.
  - vm_compute in Hlen. by destruct Hlen.
  - destruct (Py.len (Py.split (_ :: _)) <? 2) eqn:Hlt;
      [apply Z.ltb_lt in Hlt; lia|].
    rewrite Hparse. reflexivity.
Qed.

Lemma send_raw_read (slave_id function_code : Z) (rest : list Z) :
  parse_hex_parts parts [] = inr (slave_id :: function_code :: rest) ->
  send_raw_command env g =
  if (slave_id <? 1) || (247 <? slave_id)
  then showerror (InvalidSlaveId slave_id) g
  else if (function_code <? 1) || (127 <? function_code)
  then showerror (InvalidFunctionCode function_code) g
  else send_raw_command env g.
Proof using connected.
  intros Hparse.
  destruct ((slave_id <? 1) || (247 <? slave_id)) eqn:Hslave;
    [|destruct ((function_code <? 1) || (127 <? function_code)) eqn:Hfn;
      [|reflexivity]].
  all: pose proof (parse_hex_parts_length _ _ _ Hparse) as Hlen; simpl in Hlen.
  all: unfold send_raw_command; rewrite connected; simpl negb; cbv iota.
  all: destruct (Py.strip (raw_bytes_var g)) eqn:Hs;
       [simpl in Hlen; lia|].
  all: destruct (Py.len (Py.split (_ :: _)) <? 2) eqn:Hlt;
       [apply Z.ltb_lt in Hlt; unfold Py.len in Hlt; lia|].
  all: rewrite Hparse; change (Py.index (slave_id :: function_code :: rest) 0)
         with (Some slave_id);
       change (Py.index (slave_id :: function_code :: rest) 1)
         with (Some function_code); cbv iota.
  - rewrite Hslave. reflexivity.
  - rewrite Hslave, Hfn. reflexivity.
Qed.

End RawPath.

(** C4, as stated, fails: with 00 as first byte the raw path shows the
    slave ID dialog and hands nothing to the serial port. *)
Lemma raw_slave_zero_is_rejected :
  message_boxes
    (send_raw_command (answering (response [] []))
       (enter_raw (py "00 03 00 00 00 01") (connect startup)))
  = [InvalidSlaveId 0]
  /\ client_calls
       (send_raw_command (answering (response [] []))
          (enter_raw (py "00 03 00 00 00 01") (connect startup)))
     = [].
Proof. split; reflexivity. Qed.

(** C4 (amended): the raw path rejects a first byte of 0. When the
    tokens are read and the first byte is 0, the command ends with the
    dialog Invalid slave ID: 0 and nothing else changes: nothing is
    transmitted and no history entry is added. *)
Theorem raw_rejects_slave_zero :
  forall env g function_code rest,
    is_connected g = true ->
    parse_hex_parts (Py.split (Py.strip (raw_bytes_var g))) []
    = inr (0 :: function_code :: rest) ->
    send_raw_command env g = showerror (InvalidSlaveId 0) g
    /\ client_calls (send_raw_command env g) = client_calls g
    /\ command_history (send_raw_command env g) = command_history g.
Proof.
  intros env g function_code rest Hconn Hparse.
  rewrite (send_raw_read env g Hconn 0 function_code rest Hparse).
  repeat split.
Qed.

Lemma raw_rejects_slave_zero_witness :
  send_raw_command (answering (response [] []))
    (enter_raw (py "00 0F") (connect startup))
  = showerror (InvalidSlaveId 0) (enter_raw (py "00 0F") (connect startup)).
Proof.
  exact (proj1 (raw_rejects_slave_zero (answering (response [] []))
                  (enter_raw (py "00 0F") (connect startup)) 15 []
                  eq_refl eq_refl)).
Defined.

(** C5, as stated, fails in two places. Blank text has fewer than two
    tokens and gets the dialog Please enter raw bytes, not the one for a
    short command. The token +1 is not two hexadecimal digits, yet it is
    read as the byte 1 and the frame is transmitted. *)
Lemma raw_blank_and_signed_tokens :
  Py.split (Py.strip (py "  ")) = []
  /\ message_boxes
       (send_raw_command (answering (response [] []))
          (enter_raw (py "  ") (connect startup)))
     = [EnterRawBytes]
  /\ [EnterRawBytes] <> [CommandTooShort]
  /\ two_hex_digits (py "+1") = false
  /\ message_boxes
       (send_raw_command (answering (response [] []))
          (enter_raw (py "+1 03") (connect startup)))
     = []
  /\ client_calls
       (send_raw_command (answering (response [] []))
          (enter_raw (py "+1 03") (connect startup)))
     = [socket_write [1; 3; 0x40; 0x21]].
Proof. repeat split; try reflexivity. discriminate. Qed.

(** C5 (amended): for every raw text of characters with code points
    below 256, the texts of this development, on a connected application
    the raw path ends with one dialog, and with no other change of the
    state (nothing transmitted, no history entry), in each of these
    cases:
    - no token at all: Please enter raw bytes;
    - exactly one token: Command too short;
    - two tokens or more, the first token that is not two hexadecimal
      digits is not a sign followed by a hexadecimal digit either: Invalid
      hex byte (its length is not 2) or Invalid hex value (its length is
      2), naming that token;
    - all tokens read and the first byte outside [1, 247]: Invalid slave
      ID, naming the value;
    - all tokens read, the first byte in [1, 247] and the second outside
      [1, 127]: Invalid function code, naming the value.
    Tokens that are two hexadecimal digits are read as their value. The
    text 1 gets Command too short; the text GG 03 gets Invalid hex value:
    GG. Among the characters below 256 the only decimal digits that
    [int(part, 16)] knows are 0..9; the decimal digits of other scripts,
    which it reads too, lie above and are not covered. *)
Theorem raw_validation :
  forall env g,
    is_connected g = true ->
    let parts := Py.split (Py.strip (raw_bytes_var g)) in
    (parts = [] -> send_raw_command env g = showerror EnterRawBytes g)
    /\ (forall part, parts = [part] ->
          send_raw_command env g = showerror CommandTooShort g)
    /\ (forall good part rest,
          parts = good ++ part :: rest ->
          2 <= Py.len parts ->
          forallb two_hex_digits good = true ->
          two_hex_digits part = false ->
          signed_digit part = false ->
          send_raw_command env g = showerror (malformed part) g)
    /\ (forallb two_hex_digits parts = true ->
          parse_hex_parts parts [] = inr (map hex_value parts))
    /\ (forall slave_id function_code rest,
          parse_hex_parts parts [] = inr (slave_id :: function_code :: rest) ->
          (slave_id < 1 \/ 247 < slave_id ->
           send_raw_command env g = showerror (InvalidSlaveId slave_id) g)
          /\ (1 <= slave_id <= 247 ->
              function_code < 1 \/ 127 < function_code ->
              send_raw_command env g
              = showerror (InvalidFunctionCode function_code) g))
    /\ (forall e,
          client_calls (showerror e g) = client_calls g
          /\ command_history (showerror e g) = command_history g
          /\ register_vars (showerror e g) = register_vars g)
    /\ send_raw_command env (enter_raw (py "1") g)
       = showerror CommandTooShort (enter_raw (py "1") g)
    /\ send_raw_command env (enter_raw (py "GG 03") g)
       = showerror (InvalidHexValue (py "GG")) (enter_raw (py "GG 03") g).
Proof.
  intros env g Hconn parts.
  split; [|split; [|split; [|split; [|split; [|split; [|split]]]]]].
  - apply send_raw_blank, Hconn.
  - apply send_raw_one_token, Hconn.
  - intros good part rest Hparts Hlen Hgood Htwo Hsigned.
    apply send_raw_unread; [exact Hconn | exact Hlen |].
    fold parts. rewrite Hparts. rewrite parse_hex_parts_good by exact Hgood.
    apply bad_part_rejected; [|exact Htwo | exact Hsigned].
    pose proof (split_tokens (Py.strip (raw_bytes_var g))) as Htok.
    fold parts in Htok. rewrite Hparts in Htok.
    apply Forall_app in Htok as [_ Htok]. by apply Forall_cons in Htok as [? _].
  - intros Hall.
    rewrite <- (app_nil_r parts) at 1.
    rewrite parse_hex_parts_good by exact Hall. reflexivity.
  - intros slave_id function_code rest Hparse.
    pose proof (send_raw_read env g Hconn slave_id function_code rest Hparse) as H.
    split.
    + intros Hout. rewrite H.
      destruct ((slave_id <? 1) || (247 <? slave_id)) eqn:Hb; [reflexivity|].
      apply orb_false_iff in Hb as [H1 H2].
      apply Z.ltb_ge in H1. apply Z.ltb_ge in H2. lia.
    + intros Hin Hout. rewrite H.
      destruct ((slave_id <? 1) || (247 <? slave_id)) eqn:Hb.
      { apply orb_true_iff in Hb as [Hb|Hb]; apply Z.ltb_lt in Hb; lia. }
      destruct ((function_code <? 1) || (127 <? function_code)) eqn:Hf;
        [reflexivity|].
      apply orb_false_iff in Hf as [H1 H2].
      apply Z.ltb_ge in H1. apply Z.ltb_ge in H2. lia.
  - intros e. repeat split.
  - apply (send_raw_one_token env (enter_raw (py "1") g) Hconn (py "1")).
    reflexivity.
  - apply (send_raw_unread env (enter_raw (py "GG 03") g) Hconn);
      [vm_compute; discriminate | reflexivity].
Qed.

Lemma raw_validation_witness :
  send_raw_command (answering (response [] []))
    (enter_raw (py "01 3 00") (connect startup))
  = showerror (InvalidHexByte (py "3"))
      (enter_raw (py "01 3 00") (connect startup)).
Proof.
  destruct (raw_validation (answering (response [] []))
              (enter_raw (py "01 3 00") (connect startup)) eq_refl)
    as (_ & _ & H & _).
  exact (H [py "01"] (py "3") [py "00"] eq_refl
           ltac:(vm_compute; discriminate) eq_refl eq_refl eq_refl).
Defined.

(** ** Write Coils and the text of the slots *)

Lemma startup_has_slots : has_slots startup.
Proof.
  intros k Hk.
  assert (Hcases : In k (Py.range 64)).
  { unfold Py.range, Py.range3. apply in_map_iff. exists (Z.to_nat k).
    split; [lia|]. apply in_seq. change (Z.to_nat ((64 - 0 + 1 - 1) / 1)) with 64%nat. lia. }
  vm_compute in Hcases.
  repeat (destruct Hcases as [<-|Hcases]; [vm_compute; eauto|]).
  destruct Hcases.
Qed.

Lemma execute_keeps_inputs (env : Env) (g : GUI) :
  is_connected (execute_register_command env g) = is_connected g
  /\ slave_id_var (execute_register_command env g) = slave_id_var g
  /\ start_idx_var (execute_register_command env g) = start_idx_var g
  /\ length_var (execute_register_command env g) = length_var g.
Proof.
  unfold execute_register_command, transact, handle_register_result.
  repeat case_match; repeat split.
Qed.

Lemma slot_range_head (start_idx length : Z) :
  1 <= length -> exists rest, slot_range start_idx length = start_idx :: rest.
Proof.
  intros Hlen. unfold slot_range, Py.range, Py.range3.
  replace ((length - 0 + 1 - 1) / 1) with length by (rewrite Z.div_1_r; lia).
  destruct (Z.to_nat length) as [|n] eqn:Hn; [lia|].
  simpl. rewrite Z.add_0_r. eauto.
Qed.

Section WriteCoils.

Variables (env : Env) (g : GUI) (slave_id start_idx length : Z).
Hypothesis connected : is_connected g = true.
Hypothesis inputs : valid_inputs g slave_id start_idx length.

Lemma range_tests_pass :
  (start_idx <? 0) || (63 <? start_idx) = false
  /\ (length <? 1) || (64 <? length) || (64 <? start_idx + length) = false.
Proof using inputs.
  destruct inputs as (_ & _ & _ & Hs & Hl & Hsl).
  split; repeat (apply orb_false_iff; split); apply Z.ltb_ge; lia.
Qed.

(** The Write Coils branch, once the inputs are let through. *)
Lemma execute_write_coils :
  cmd_type_var g = py "Write Coils" ->
  execute_register_command env g =
  match collect_coils (register_vars g) (slot_range start_idx length) [] with
  | inl e => showerror e g
  | inr values =>
      transact env (write_coils start_idx values slave_id) (py "Write Coils")
        start_idx length false (Some values)
        (put_log
           (log_modbus_frame (py "Write Coils") start_idx length slave_id
              (Some values))
           (log_message
              (SendingWrite (py "Write Coils") start_idx values slave_id)
              INFO g))
  end.
Proof using connected inputs.
  intros Hcmd. destruct range_tests_pass as [Hr1 Hr2].
  destruct inputs as (Hslave & Hstart & Hlength & _).
  unfold execute_register_command.
  rewrite connected, Hslave, Hstart, Hlength, Hr1, Hr2, Hcmd.
  simpl negb. cbv iota. eval_cmd. reflexivity.
Qed.

(** A first slot that does not read as 0 or 1 ends the command with the
    dialog of that slot. *)
Lemma write_coils_first_slot (slot_text : Py.str) (e : ErrorBox) :
  cmd_type_var g = py "Write Coils" ->
  register_vars g !! start_idx = Some slot_text ->
  read_coil_slot start_idx slot_text = inl e ->
  execute_register_command env g = showerror e g.
Proof using connected inputs.
  intros Hcmd Hslot Hread. rewrite execute_write_coils by exact Hcmd.
  destruct inputs as (_ & _ & _ & _ & Hl & _).
  destruct (slot_range_head start_idx length) as [rest ->]; [lia|].
  simpl. rewrite Hslot, Hread. reflexivity.
Qed.


End WriteCoils.




Lemma cleared_slot (g : GUI) (k : Z) :
  has_slots g -> 0 <= k <= 63 ->
  register_vars (clear_all_registers g) !! k = Some (py "0x0000").
Proof.
  intros Hslots Hk. destruct (Hslots k Hk) as [old Hold].
  unfold clear_all_registers. simpl. rewrite lookup_fmap, Hold. reflexivity.
Qed.






Lemma valid_inputs_after (env : Env) (g : GUI) (cmd_type : Py.str)
    (slave_id start_idx length : Z) :
  valid_inputs (select_command cmd_type (execute_register_command env g))
    slave_id start_idx length
  <-> valid_inputs g slave_id start_idx length.
Proof.
  destruct (execute_keeps_inputs env g) as (_ & H1 & H2 & H3).
  unfold valid_inputs. simpl. rewrite H1, H2, H3. reflexivity.
Qed.




(** * Further properties *)

(** ** CRC16 on the wire *)

Lemma land_255 (v : Z) : Z.land v 0xFF = v mod 256.
Proof. change 0xFF with (Z.ones 8). rewrite Z.land_ones by lia. reflexivity. Qed.

Lemma shiftr_8 (v : Z) : Z.shiftr v 8 = v / 256.
Proof. rewrite Z.shiftr_div_pow2 by lia. reflexivity. Qed.

Lemma high_low_byte (v : Z) :
  high_byte v = (v / 256) mod 256 /\ low_byte v = v mod 256.
Proof. unfold high_byte, low_byte. rewrite !land_255, shiftr_8. done. Qed.

Lemma byte_mod (v : Z) : is_byte (v mod 256).
Proof. unfold is_byte. apply Z.mod_pos_bound. lia. Qed.

(** The two bytes both paths take from the result of [modbus_crc16]. *)
Lemma crc_bytes (data : list Z) :
  Forall is_byte data ->
  Z.land (Z.shiftr (modbus_crc16 data) 8) 0xFF = crc_loop data mod 256
  /\ Z.land (modbus_crc16 data) 0xFF = crc_loop data / 256.
Proof.
  intros Hdata.
  destruct (modbus_crc16_value data Hdata) as [Hvalue _].
  pose proof (crc_loop_16_bits data Hdata) as Hcrc.
  change (2 ^ 16) with 65536 in Hcrc.
  rewrite !land_255, shiftr_8, Hvalue. split.
  - rewrite Z.add_comm, Z.div_add by lia.
    rewrite (Z.div_small (crc_loop data / 256)); [f_equal; lia|].
    split; [apply Z.div_pos; lia | apply Z.div_lt_upper_bound; lia].
  - rewrite Z.add_comm, Z.mod_add by lia. apply Z.mod_small.
    split; [apply Z.div_pos; lia | apply Z.div_lt_upper_bound; lia].
Qed.

(** X1: for every list of bytes the frame logger and the raw path build
    the same complete frame: the bytes, then the low byte of the 16-bit
    CRC word, then its high byte. *)
Theorem crc_appended_low_byte_first :
  forall frame,
    Forall is_byte frame ->
    0 <= crc_loop frame < 65536
    /\ builder_complete_frame frame
       = frame ++ [crc_loop frame mod 256; crc_loop frame / 256]
    /\ raw_complete_frame frame
       = frame ++ [crc_loop frame mod 256; crc_loop frame / 256].
Proof.
  intros frame Hframe. destruct (crc_bytes frame Hframe) as [Hlow Hhigh].
  split; [exact (crc_loop_16_bits frame Hframe)|].
  unfold builder_complete_frame, builder_crc, raw_complete_frame, raw_crc.
  cbv zeta iota beta. rewrite Hlow, Hhigh. done.
Qed.

Lemma crc_appended_low_byte_first_witness :
  raw_complete_frame [17; 6; 0; 5; 0; 255]
  = [17; 6; 0; 5; 0; 255] ++ [crc_loop [17; 6; 0; 5; 0; 255] mod 256;
                               crc_loop [17; 6; 0; 5; 0; 255] / 256].
Proof.
  refine (proj2 (proj2 (crc_appended_low_byte_first [17; 6; 0; 5; 0; 255] _))).
  repeat constructor; unfold is_byte; lia.
Defined.

Lemma land_disjoint_byte (h l : Z) : 0 <= l < 256 -> Z.land (h * 256) l = 0.
Proof.
  intros Hl. apply Z.bits_inj'. intros n Hn. rewrite Z.land_spec, Z.bits_0.
  destruct (Z_lt_le_dec n 8).
  - replace (h * 256) with (h * 2 ^ 8) by reflexivity.
    rewrite Z.mul_pow2_bits_low by lia. reflexivity.
  - rewrite (Z.bits_above_log2 l n); [apply andb_false_r | lia |].
    destruct (Z.eq_dec l 0) as [->|]; [simpl; lia|].
    apply Z.lt_le_trans with 8; [|lia].
    apply Z.log2_lt_pow2; [lia|]. change (2 ^ 8) with 256. lia.
Qed.

Lemma crc_shift_even (m : Z) : crc_shift (2 * m) = m.
Proof.
  unfold crc_shift.
  assert (Hbit : Z.land (2 * m) 1 = 0).
  { change 1 with (Z.ones 1). rewrite Z.land_ones by lia.
    change (2 ^ 1) with 2. rewrite Z.mul_comm. apply Z.mod_mul. lia. }
  assert (Hhalf : Z.shiftr (2 * m) 1 = m).
  { rewrite Z.shiftr_div_pow2 by lia. change (2 ^ 1) with 2.
    rewrite Z.mul_comm. apply Z.div_mul. lia. }
  rewrite Hbit, Hhalf. reflexivity.
Qed.

(** Feeding a 16-bit [crc] its own low byte and then its own high byte
    brings it to 0. *)
Lemma crc_consumes_itself (crc : Z) :
  0 <= crc < 65536 ->
  crc_update (crc_update crc (crc mod 256)) (crc / 256) = 0.
Proof.
  intros Hcrc.
  assert (Hlow : 0 <= crc mod 256 < 256) by (apply Z.mod_pos_bound; lia).
  assert (Hfirst : crc_update crc (crc mod 256) = crc / 256).
  { unfold crc_update. rewrite range_8. cbn [fold_left].
    assert (Hclear : Z.lxor crc (crc mod 256) = 256 * (crc / 256)).
    { rewrite (Z.div_mod crc 256) at 1 by lia.
      rewrite (Z.mul_comm 256), Z.add_nocarry_lxor
        by (apply land_disjoint_byte; exact Hlow).
      rewrite Z.lxor_assoc, Z.lxor_nilpotent, Z.lxor_0_r. lia. }
    rewrite Hclear.
    replace (256 * (crc / 256))
      with (2 * (2 * (2 * (2 * (2 * (2 * (2 * (2 * (crc / 256))))))))) by lia.
    rewrite !crc_shift_even. reflexivity. }
  rewrite Hfirst. unfold crc_update. rewrite Z.lxor_nilpotent. reflexivity.
Qed.

(** X2: the CRC loop run over a complete frame, CRC bytes included, ends
    at 0: this is the test by which a Modbus device accepts a frame. *)
Theorem complete_frame_has_zero_crc :
  forall frame,
    Forall is_byte frame ->
    crc_loop (builder_complete_frame frame) = 0
    /\ crc_loop (raw_complete_frame frame) = 0.
Proof.
  intros frame Hframe.
  assert (Hzero :
    crc_loop (frame ++ [crc_loop frame mod 256; crc_loop frame / 256]) = 0).
  { unfold crc_loop at 1. rewrite fold_left_app. simpl.
    apply crc_consumes_itself. change 65536 with (2 ^ 16).
    apply crc_loop_16_bits, Hframe. }
  destruct (crc_bytes frame Hframe) as [Hlow Hhigh].
  unfold builder_complete_frame, builder_crc, raw_complete_frame, raw_crc.
  cbv zeta iota beta. rewrite Hlow, Hhigh. done.
Qed.

Lemma complete_frame_has_zero_crc_witness :
  crc_loop (builder_complete_frame [1; 16; 0; 2; 0; 1; 2; 18; 52]) = 0.
Proof.
  refine (proj1 (complete_frame_has_zero_crc [1; 16; 0; 2; 0; 1; 2; 18; 52] _)).
  repeat constructor; unfold is_byte; lia.
Defined.

(** ** Register values and their text *)

Lemma digit_char_hex (d : N) :
  (d < 16)%N ->
  Py.digit_value (Py.digit_char d) = Some (Z.of_N d)
  /\ is_hex_upper (Py.digit_char d) = true.
Proof.
  intros Hd. rewrite <- (N2Nat.id d).
  assert (Hn : (N.to_nat d < 16)%nat) by lia.
  revert Hn. generalize (N.to_nat d). clear. intros n Hn.
  do 16 (destruct n as [|n]; [split; reflexivity|]). lia.
Qed.

Lemma digits_go_value (fuel : nat) :
  forall (n : N) (acc : Py.str),
    (n < 16 ^ N.of_nat fuel)%N ->
    fold_left (fun a c => a * 16 + default 0 (Py.digit_value c))
      (Py.digits_go 16 fuel n acc) 0
    = fold_left (fun a c => a * 16 + default 0 (Py.digit_value c)) acc (Z.of_N n).
Proof.
  induction fuel as [|fuel IH]; intros n acc Hn.
  - simpl in *. assert (n = 0%N) as -> by lia. reflexivity.
  - rewrite Nat2N.inj_succ, N.pow_succ_r' in Hn.
    assert (Hmod : (n mod 16 < 16)%N) by (apply N.mod_lt; lia).
    destruct (digit_char_hex _ Hmod) as [Hdigit _].
    simpl. destruct (n / 16 =? 0)%N eqn:Hq.
    + apply N.eqb_eq in Hq. simpl. rewrite Hdigit. simpl.
      f_equal. rewrite N.mod_small; [lia|].
      apply N.div_small_iff in Hq; lia.
    + rewrite IH by (apply N.Div0.div_lt_upper_bound; lia).
      simpl. rewrite Hdigit. simpl. f_equal.
      rewrite (N.div_mod n 16) at 3 by lia. lia.
Qed.

Lemma digits_go_hex (fuel : nat) :
  forall (n : N) (acc : Py.str),
    forallb is_hex_upper acc = true ->
    forallb is_hex_upper (Py.digits_go 16 fuel n acc) = true.
Proof.
  induction fuel as [|fuel IH]; intros n acc Hacc; [exact Hacc|].
  assert (Hmod : (n mod 16 < 16)%N) by (apply N.mod_lt; lia).
  destruct (digit_char_hex _ Hmod) as [_ Hhex].
  simpl. destruct (n / 16 =? 0)%N.
  - simpl. by rewrite Hhex.
  - apply IH. simpl. by rewrite Hhex.
Qed.

Lemma digits_go_short (k : nat) :
  forall (fuel : nat) (n : N) (acc : Py.str),
    (n < 16 ^ N.of_nat (S k))%N ->
    (List.length (Py.digits_go 16 fuel n acc) <= List.length acc + S k)%nat.
Proof.
  induction k as [|k IH]; intros fuel n acc Hn.
  - destruct fuel as [|fuel]; simpl; [lia|].
    assert (Hq : (n / 16 = 0)%N) by (apply N.div_small; simpl in Hn; lia).
    rewrite Hq. simpl. lia.
  - destruct fuel as [|fuel]; simpl; [lia|].
    destruct (n / 16 =? 0)%N; [simpl; lia|].
    rewrite Nat2N.inj_succ, N.pow_succ_r' in Hn.
    pose proof (IH fuel (n / 16)%N (Py.digit_char (n mod 16) :: acc)
                  ltac:(apply N.Div0.div_lt_upper_bound; lia)) as Hlen.
    simpl in Hlen. lia.
Qed.

Lemma digits_go_long (k : nat) :
  forall (fuel : nat) (n : N) (acc : Py.str),
    (16 ^ N.of_nat k <= n)%N ->
    (k < fuel)%nat ->
    (List.length acc + S k <= List.length (Py.digits_go 16 fuel n acc))%nat.
Proof.
  induction k as [|k IH]; intros fuel n acc Hn Hfuel.
  - destruct fuel as [|fuel]; [lia|]. simpl.
    destruct (n / 16 =? 0)%N; [simpl; lia|].
    destruct fuel as [|fuel]; [simpl; lia|].
    assert (Hnonempty : forall f m a,
      (List.length a <= List.length (Py.digits_go 16 f m a))%nat).
    { clear. induction f as [|f IHf]; intros m a; simpl; [lia|].
      destruct (m / 16 =? 0)%N; [simpl; lia|].
      pose proof (IHf (m / 16)%N (Py.digit_char (m mod 16) :: a)) as H.
      simpl in H. lia. }
    pose proof (Hnonempty (S fuel) (n / 16)%N (Py.digit_char (n mod 16) :: acc)) as H.
    simpl in H. simpl. lia.
  - destruct fuel as [|fuel]; [lia|]. simpl.
    rewrite Nat2N.inj_succ, N.pow_succ_r' in Hn.
    assert (Hq : (16 ^ N.of_nat k <= n / 16)%N)
      by (apply N.div_le_lower_bound; lia).
    destruct (n / 16 =? 0)%N eqn:Hz.
    + apply N.eqb_eq in Hz.
      assert (0 < 16 ^ N.of_nat k)%N by (apply N.neq_0_lt_0, N.pow_nonzero; lia).
      lia.
    + pose proof (IH fuel (n / 16)%N (Py.digit_char (n mod 16) :: acc) Hq
                    ltac:(lia)) as H.
      simpl in H. lia.
Qed.

Lemma digits_fuel (n : N) : (n < 16 ^ N.of_nat (S (N.to_nat (N.log2 n))))%N.
Proof.
  rewrite Nat2N.inj_succ, N2Nat.id.
  destruct (N.eq_dec n 0%N) as [->|Hn]; [simpl; lia|].
  pose proof (N.log2_spec n ltac:(lia)) as [_ Hlt].
  apply N.lt_le_trans with (2 ^ N.succ (N.log2 n))%N; [exact Hlt|].
  apply N.pow_le_mono_l. lia.
Qed.

Lemma digits_fuel_long (k : nat) (n : N) :
  (16 ^ N.of_nat k <= n)%N -> (k < S (N.to_nat (N.log2 n)))%nat.
Proof.
  intros Hn.
  assert (Hpos : (0 < n)%N).
  { assert (0 < 16 ^ N.of_nat k)%N by (apply N.neq_0_lt_0, N.pow_nonzero; lia).
    lia. }
  assert (H2 : (2 ^ N.of_nat k <= n)%N).
  { apply N.le_trans with (16 ^ N.of_nat k)%N; [|exact Hn].
    apply N.pow_le_mono_l. lia. }
  apply N.log2_le_pow2 in H2; lia.
Qed.

(** The digits of [f"{v:04X}"] for a value that is not negative. *)
Lemma format_0X_digits (v : Z) :
  0 <= v ->
  exists d,
    Py.format_0X 4 v = repeat "0"%char (4 - List.length d) ++ d
    /\ forallb is_hex_upper d = true
    /\ (1 <= List.length d)%nat
    /\ hex_value d = v
    /\ (v <= 65535 -> (List.length d <= 4)%nat)
    /\ (65536 <= v -> (5 <= List.length d)%nat).
Proof.
  intros Hv. exists (Py.hex_digits (Z.to_N (Z.abs v))).
  unfold Py.format_0X. destruct (v <? 0) eqn:Hneg; [apply Z.ltb_lt in Hneg; lia|].
  rewrite Z.abs_eq by exact Hv. unfold Py.hex_digits, Py.digits.
  set (n := Z.to_N v).
  split; [reflexivity|]. split; [by apply digits_go_hex|].
  split.
  { destruct (N.eq_dec n 0%N) as [Hn|Hn]; [rewrite Hn; simpl; lia|].
    pose proof (digits_go_long 0 (S (N.to_nat (N.log2 n))) n []
                  ltac:(simpl; lia) ltac:(lia)) as H.
    simpl in H. simpl. lia. }
  split.
  { unfold hex_value. rewrite digits_go_value by apply digits_fuel.
    simpl. lia. }
  split.
  - intros Hle.
    pose proof (digits_go_short 3 (S (N.to_nat (N.log2 n))) n []
                  ltac:(simpl; lia)) as H.
    simpl in H. simpl. lia.
  - intros Hge.
    pose proof (digits_go_long 4 (S (N.to_nat (N.log2 n))) n []
                  ltac:(simpl; lia)
                  (digits_fuel_long 4 n ltac:(simpl; lia))) as H.
    simpl in H. simpl. lia.
Qed.

Lemma strip_nospace (s : Py.str) :
  Forall (fun c => Py.isspace c = false) s -> Py.strip s = s.
Proof.
  assert (Hl : forall t, Forall (fun c => Py.isspace c = false) t -> Py.lstrip t = t).
  { intros [|c t] Ht; [reflexivity|]. apply Forall_cons in Ht as [Hc _].
    simpl. by rewrite Hc. }
  intros Hs. unfold Py.strip. rewrite (Hl s Hs).
  rewrite Hl by (by apply Forall_rev). apply rev_involutive.
Qed.

Lemma hex_upper_nospace (d : Py.str) :
  forallb is_hex_upper d = true -> Forall (fun c => Py.isspace c = false) d.
Proof.
  intros Hd. apply Forall_forall. intros c Hc.
  rewrite forallb_forall in Hd. apply list_elem_of_In in Hc.
  destruct (hex_digit_facts c (hex_upper_is_digit c (Hd c Hc))) as (_ & H & _).
  exact H.
Qed.

Lemma hex_upper_digits (d : Py.str) :
  forallb is_hex_upper d = true -> forallb is_hex_digit d = true.
Proof.
  intros Hd. apply forallb_forall. intros c Hc.
  rewrite forallb_forall in Hd. by apply hex_upper_is_digit, Hd.
Qed.

(** A slot that holds 0x and four upper-case digits reads as their
    value. *)
Lemma read_canonical_slot (reg_addr : Z) (d : Py.str) :
  List.length d = 4%nat ->
  forallb is_hex_upper d = true ->
  read_hex_slot reg_addr (py "0x" ++ d) = inr (hex_value d).
Proof.
  intros Hlen Hd. unfold read_hex_slot.
  rewrite strip_nospace.
  2:{ change (py "0x" ++ d) with ("0"%char :: "x"%char :: d).
      repeat (constructor; [reflexivity|]). by apply hex_upper_nospace. }
  change (Py.startswith (py "0x") (py "0x" ++ d)) with true.
  change (Py.slice_from 2 (py "0x" ++ d)) with d.
  cbv iota. simpl orb. cbv iota. unfold Py.len. rewrite Hlen. simpl.
  rewrite int16_digits; [reflexivity|].
  unfold hex_input, Py.len. rewrite Hlen. simpl. by apply hex_upper_digits.
Qed.

Lemma repeat_zero_hex (n : nat) : forallb is_hex_upper (repeat "0"%char n) = true.
Proof. by induction n. Qed.

(** X3: a 16-bit value shown in a slot as [f"0x{value:04X}"] is read back
    by the register writes as the same value; a value above 0xFFFF gets
    more than four digits and is refused with the four-digit dialog. *)
Theorem shown_value_reads_back :
  forall reg_addr v,
    0 <= v ->
    (v <= 65535 -> read_hex_slot reg_addr (hex_text v) = inr v)
    /\ (65536 <= v ->
        read_hex_slot reg_addr (hex_text v) = inl (RegisterNot4Digits reg_addr)).
Proof.
  intros reg_addr v Hv.
  destruct (format_0X_digits v Hv) as (d & Hfmt & Hhex & Hne & Hval & Hshort & Hlong).
  unfold hex_text. rewrite Hfmt. split.
  - intros Hle. specialize (Hshort Hle).
    rewrite read_canonical_slot.
    + rewrite hex_value_zeros, Hval. reflexivity.
    + rewrite length_app, repeat_length. lia.
    + by rewrite forallb_app, repeat_zero_hex, Hhex.
  - intros Hge. specialize (Hlong Hge).
    replace (4 - List.length d)%nat with 0%nat by lia. simpl repeat.
    rewrite app_nil_l. unfold read_hex_slot.
    rewrite strip_nospace.
    2:{ change (py "0x" ++ d) with ("0"%char :: "x"%char :: d).
        repeat (constructor; [reflexivity|]). by apply hex_upper_nospace. }
    change (Py.startswith (py "0x") (py "0x" ++ d)) with true.
    change (Py.slice_from 2 (py "0x" ++ d)) with d.
    simpl orb. cbv iota. unfold Py.len.
    destruct (Z.of_nat (List.length d) =? 4) eqn:H4; [apply Z.eqb_eq in H4; lia|].
    reflexivity.
Qed.

Lemma shown_value_reads_back_witness :
  read_hex_slot 7 (hex_text 0xBEEF) = inr 0xBEEF.
Proof.
  exact (proj1 (shown_value_reads_back 7 0xBEEF ltac:(lia)) ltac:(lia)).
Defined.

Lemma hex_value_fold_bound (d : Py.str) :
  forall acc,
    forallb is_hex_digit d = true ->
    0 <= acc ->
    0 <= fold_left (fun a c => a * 16 + default 0 (Py.digit_value c)) d acc
      < (acc + 1) * 16 ^ Z.of_nat (List.length d).
Proof.
  induction d as [|c d IH]; intros acc Hd Hacc.
  - simpl. lia.
  - simpl in Hd. apply andb_true_iff in Hd as [Hc Hd].
    destruct (hex_digit_facts c Hc)
      as (_ & _ & _ & _ & _ & _ & _ & (v & Hv & Hv16) & _).
    cbn [fold_left List.length]. rewrite Hv. simpl default.
    specialize (IH (acc * 16 + v) Hd ltac:(lia)).
    rewrite Nat2Z.inj_succ, Z.pow_succ_r by lia.
    assert (0 < 16 ^ Z.of_nat (List.length d)) by (apply Z.pow_pos_nonneg; lia).
    nia.
Qed.

Lemma hex_value_u16 (d : Py.str) :
  List.length d = 4%nat -> forallb is_hex_upper d = true -> is_u16 (hex_value d).
Proof.
  intros Hlen Hd.
  pose proof (hex_value_fold_bound d 0 (hex_upper_digits d Hd) ltac:(lia)) as H.
  rewrite Hlen in H. unfold is_u16, hex_value. simpl in H. lia.
Qed.

(** X4: whatever text a slot holds, once [pad_hex_input] has committed
    it, the register writes read the slot as a 16-bit value: a committed
    slot is never refused. *)
Theorem committed_slot_reads :
  forall reg_index slot_text g,
    register_vars g !! reg_index = Some slot_text ->
    exists committed v,
      register_vars (pad_hex_input reg_index g) !! reg_index = Some committed
      /\ read_hex_slot reg_index committed = inr v
      /\ is_u16 v.
Proof.
  intros reg_index slot_text g Hslot.
  destruct (padded_hex_shape slot_text) as (d & Hpad & Hlen & Hd).
  exists (padded_hex slot_text), (hex_value d).
  split; [|split].
  - unfold pad_hex_input. rewrite Hslot. simpl. apply lookup_insert_eq.
  - rewrite Hpad. by apply read_canonical_slot.
  - by apply hex_value_u16.
Qed.

Lemma committed_slot_reads_witness :
  exists committed v,
    register_vars
      (pad_hex_input 3 (set_register_vars (<[3 := py "7f"]> fresh_register_vars)
                          startup)) !! 3 = Some committed
    /\ read_hex_slot 3 committed = inr v
    /\ is_u16 v.
Proof.
  apply (committed_slot_reads 3 (py "7f")). reflexivity.
Defined.

(** ** Whole commands *)

Lemma handle_keeps_calls result cmd_type start_idx length timestamp start_time
    is_read values now g :
  client_calls
    (handle_register_result result cmd_type start_idx length timestamp
       start_time is_read values now g) = client_calls g.
Proof.
  unfold handle_register_result. repeat case_match; reflexivity.
Qed.

Lemma transact_calls env c cmd_type start_idx length is_read values g :
  client_calls (transact env c cmd_type start_idx length is_read values g)
  = client_calls g ++ [c].
Proof.
  unfold transact. destruct (reply env); [|reflexivity..].
  rewrite handle_keeps_calls. reflexivity.
Qed.

Lemma slot_range_lookup (start_idx length : Z) (i : nat) (a : Z) :
  slot_range start_idx length !! i = Some a -> a = start_idx + Z.of_nat i.
Proof.
  unfold slot_range, Py.range, Py.range3. rewrite !list_lookup_fmap.
  destruct (seq 0 _ !! i) as [n|] eqn:Hn; [|discriminate].
  apply lookup_seq in Hn as [-> _]. simpl. intros [= <-]. lia.
Qed.

Lemma slot_range_length (start_idx length : Z) :
  List.length (slot_range start_idx length) = Z.to_nat length.
Proof.
  unfold slot_range, Py.range, Py.range3. rewrite !length_map, length_seq.
  f_equal. rewrite Z.div_1_r. lia.
Qed.

Lemma shown_value_reads_back_aux (reg_addr v : Z) :
  is_u16 v -> read_hex_slot reg_addr (hex_text v) = inr v.
Proof.
  intros [Hlo Hhi].
  destruct (format_0X_digits v Hlo) as (d & Hfmt & Hhex & Hne & Hval & Hshort & _).
  specialize (Hshort Hhi). unfold hex_text. rewrite Hfmt.
  rewrite read_canonical_slot.
  - rewrite hex_value_zeros, Hval. reflexivity.
  - rewrite length_app, repeat_length. lia.
  - by rewrite forallb_app, repeat_zero_hex, Hhex.
Qed.

(** The loop of Write Holding Registers over slots that show values. *)
Lemma collect_shown_values (vars : gmap Z Py.str) (addrs : list Z) :
  forall shown values,
    Forall2 (fun a v => vars !! a = Some (hex_text v) /\ is_u16 v) addrs shown ->
    collect_registers vars addrs values = inr (values ++ shown).
Proof.
  induction addrs as [|a addrs IH]; intros shown values Hall.
  - apply Forall2_nil_inv_l in Hall as ->. simpl. by rewrite app_nil_r.
  - apply Forall2_cons_inv_l in Hall as (v & shown' & [Hslot Hv] & Hall & ->).
    simpl. rewrite Hslot.
    rewrite (shown_value_reads_back_aux a v Hv).
    rewrite IH with (shown := shown') by exact Hall.
    by rewrite <- app_assoc.
Qed.

Section ValidCommand.

Variables (env : Env) (g : GUI) (slave_id start_idx length : Z).
Hypothesis connected : is_connected g = true.
Hypothesis inputs : valid_inputs g slave_id start_idx length.

Lemma execute_read_holding (result : Result) :
  cmd_type_var g = py "Read Holding Registers" ->
  reply env = Returns result ->
  execute_register_command env g =
  handle_register_result result (py "Read Holding Registers") start_idx length
    (timestamp env) (start_time env) true None (end_time env)
    (client_call (read_holding_registers start_idx length slave_id)
       (put_log
          (log_modbus_frame (py "Read Holding Registers") start_idx length
             slave_id None)
          (log_message
             (SendingRead (py "Read Holding Registers") start_idx length slave_id)
             INFO g))).
Proof using connected inputs.
  intros Hcmd Hreply.
  destruct (range_tests_pass g slave_id start_idx length inputs) as [Hr1 Hr2].
  destruct inputs as (Hslave & Hstart & Hlength & _).
  unfold execute_register_command.
  rewrite connected, Hslave, Hstart, Hlength, Hr1, Hr2, Hcmd.
  simpl negb. cbv iota. eval_cmd. unfold transact. rewrite Hreply. reflexivity.
Qed.

Lemma execute_write_holding :
  cmd_type_var g = py "Write Holding Registers" ->
  execute_register_command env g =
  match collect_registers (register_vars g) (slot_range start_idx length) [] with
  | inl e => showerror e g
  | inr values =>
      transact env (write_registers start_idx values slave_id)
        (py "Write Holding Registers") start_idx length false (Some values)
        (put_log
           (log_modbus_frame (py "Write Holding Registers") start_idx length
              slave_id (Some values))
           (log_message
              (SendingWrite (py "Write Holding Registers") start_idx values
                 slave_id) INFO g))
  end.
Proof using connected inputs.
  intros Hcmd.
  destruct (range_tests_pass g slave_id start_idx length inputs) as [Hr1 Hr2].
  destruct inputs as (Hslave & Hstart & Hlength & _).
  unfold execute_register_command.
  rewrite connected, Hslave, Hstart, Hlength, Hr1, Hr2, Hcmd.
  simpl negb. cbv iota. eval_cmd. reflexivity.
Qed.

Lemma execute_write_single :
  cmd_type_var g = py "Write Single Register" ->
  execute_register_command env g =
  match register_vars g !! start_idx with
  | None => showerror (RegisterNotFound start_idx) g
  | Some slot_text =>
      match read_hex_slot start_idx slot_text with
      | inl e => showerror e g
      | inr value =>
          transact env (write_register start_idx value slave_id)
            (py "Write Single Register") start_idx 1 false (Some [value])
            (put_log
               (log_modbus_frame (py "Write Single Register") start_idx 1
                  slave_id (Some [value]))
               (log_message
                  (SendingWrite (py "Write Single Register") start_idx [value]
                     slave_id) INFO g))
      end
  end.
Proof using connected inputs.
  intros Hcmd.
  destruct (range_tests_pass g slave_id start_idx length inputs) as [Hr1 Hr2].
  destruct inputs as (Hslave & Hstart & Hlength & _).
  unfold execute_register_command.
  rewrite connected, Hslave, Hstart, Hlength, Hr1, Hr2, Hcmd.
  simpl negb. cbv iota. eval_cmd. reflexivity.
Qed.

End ValidCommand.

Lemma selected_connected (env : Env) (g : GUI) (cmd_type : Py.str) :
  is_connected (select_command cmd_type (execute_register_command env g))
  = is_connected g.
Proof. destruct (execute_keeps_inputs env g) as (H & _). simpl. exact H. Qed.

(** X5: after a successful Read Holding Registers that returned exactly
    [length] 16-bit values, a Write Holding Registers over the same range
    sends those very values back: the texts the read stored are read as
    the numbers that were received. *)
Theorem read_then_write_sends_values_read :
  forall env_r env_w g slave_id start_idx length result,
    is_connected g = true ->
    cmd_type_var g = py "Read Holding Registers" ->
    valid_inputs g slave_id start_idx length ->
    has_slots g ->
    reply env_r = Returns result ->
    isError result = false ->
    Py.len (registers result) = length ->
    Forall is_u16 (registers result) ->
    let g1 := select_command (py "Write Holding Registers")
                (execute_register_command env_r g) in
    client_calls (execute_register_command env_w g1)
    = client_calls g1 ++ [write_registers start_idx (registers result) slave_id].
Proof.
  intros env_r env_w g slave_id start_idx length result
    Hconn Hcmd Hvalid Hslots Hreply Hok Hlen Hu16 g1.
  assert (Hconn1 : is_connected g1 = true)
    by (unfold g1; rewrite selected_connected; exact Hconn).
  assert (Hvalid1 : valid_inputs g1 slave_id start_idx length)
    by (apply valid_inputs_after; exact Hvalid).
  rewrite (execute_write_holding env_w g1 slave_id start_idx length Hconn1 Hvalid1)
    by reflexivity.
  assert (Hbank : register_vars g1
                  = show_values start_idx 0 (registers result) (register_vars g)).
  { change (register_vars g1)
      with (register_vars (execute_register_command env_r g)).
    rewrite (execute_read_holding env_r g slave_id start_idx length Hconn Hvalid
               result Hcmd Hreply).
    rewrite handle_read_bank by exact Hok. reflexivity. }
  rewrite (collect_shown_values _ _ (registers result) []).
  { rewrite transact_calls. reflexivity. }
  apply Forall2_same_length_lookup_2.
  { rewrite slot_range_length. unfold Py.len in Hlen. lia. }
  intros i a v Ha Hv. apply slot_range_lookup in Ha as ->.
  split; [|by eapply Forall_lookup_1 in Hu16].
  rewrite Hbank, show_values_lookup.
  pose proof (lookup_lt_Some _ _ _ Hv) as Hi.
  destruct Hvalid as (_ & _ & _ & Hs & Hl & Hsl). unfold Py.len in Hlen.
  destruct (Hslots (start_idx + Z.of_nat i) ltac:(lia)) as [old ->].
  unfold Py.len. case_decide; [|lia].
  replace (Z.to_nat (start_idx + Z.of_nat i - start_idx - 0)) with i by lia.
  rewrite Hv. reflexivity.
Qed.

Lemma read_then_write_sends_values_read_witness :
  client_calls
    (execute_register_command (answering (response [] []))
       (select_command (py "Write Holding Registers")
          (execute_register_command (answering (response [0x1234; 0xFFFF] []))
             (select_range (py "10") (py "2") (connect startup)))))
  = client_calls
      (select_command (py "Write Holding Registers")
         (execute_register_command (answering (response [0x1234; 0xFFFF] []))
            (select_range (py "10") (py "2") (connect startup))))
    ++ [write_registers 10 [0x1234; 0xFFFF] 1].
Proof.
  apply (read_then_write_sends_values_read
           (answering (response [0x1234; 0xFFFF] []))
           (answering (response [] []))
           (select_range (py "10") (py "2") (connect startup))
           1 10 2 (response [0x1234; 0xFFFF] []));
    try reflexivity.
  - repeat split; try reflexivity; lia.
  - exact startup_has_slots.
  - repeat constructor; unfold is_u16; lia.
Defined.

(** X6: right after Clear, a Write Holding Registers over any valid range
    is accepted and sends a zero for every register of the range. *)
Theorem clear_then_write_sends_zeros :
  forall env g slave_id start_idx length,
    is_connected g = true ->
    cmd_type_var g = py "Write Holding Registers" ->
    valid_inputs g slave_id start_idx length ->
    has_slots g ->
    let g1 := clear_all_registers g in
    client_calls (execute_register_command env g1)
    = client_calls g
      ++ [write_registers start_idx (repeat 0 (Z.to_nat length)) slave_id].
Proof.
  intros env g slave_id start_idx length Hconn Hcmd Hvalid Hslots g1.
  rewrite (execute_write_holding env g1 slave_id start_idx length Hconn Hvalid Hcmd).
  rewrite (collect_shown_values _ _ (repeat 0 (Z.to_nat length)) []).
  { rewrite transact_calls. reflexivity. }
  apply Forall2_same_length_lookup_2.
  { rewrite slot_range_length, repeat_length. reflexivity. }
  intros i a v Ha Hv. apply slot_range_lookup in Ha as ->.
  pose proof (lookup_lt_Some _ _ _ Hv) as Hi. rewrite repeat_length in Hi.
  apply list_elem_of_lookup_2, list_elem_of_In, repeat_spec in Hv as ->.
  split; [|unfold is_u16; lia].
  destruct Hvalid as (_ & _ & _ & Hs & Hl & Hsl).
  apply cleared_slot; [exact Hslots | lia].
Qed.

Lemma clear_then_write_sends_zeros_witness :
  client_calls
    (execute_register_command (answering (response [] []))
       (clear_all_registers
          (select_range (py "61") (py "3")
             (select_command (py "Write Holding Registers") (connect startup)))))
  = [write_registers 61 [0; 0; 0] 1].
Proof.
  apply (clear_then_write_sends_zeros (answering (response [] []))
           (select_range (py "61") (py "3")
              (select_command (py "Write Holding Registers") (connect startup)))
           1 61 3 eq_refl eq_refl).
  - repeat split; try reflexivity; lia.
  - exact startup_has_slots.
Defined.

(** X7: a Write Single Register whose slot reads as [value] and whose
    call does not fail makes one call [write_register(start, value,
    slave)], adds one history entry for the range start-start with count 1
    and the value sent, whatever the Length box holds, and leaves every
    slot of the bank as it was. *)
Theorem write_single_register_effect :
  forall env g slave_id start_idx length slot_text value result,
    is_connected g = true ->
    cmd_type_var g = py "Write Single Register" ->
    valid_inputs g slave_id start_idx length ->
    register_vars g !! start_idx = Some slot_text ->
    read_hex_slot start_idx slot_text = inr value ->
    reply env = Returns result ->
    isError result = false ->
    let g' := execute_register_command env g in
    client_calls g' = client_calls g ++ [write_register start_idx value slave_id]
    /\ command_history g'
       = command_history g
         ++ [CommandEntry (timestamp env)
               (command_text (py "Write Single Register") start_idx 1)
               start_idx 1 (Some [value])
               ((end_time env - start_time env) * 1000) true]
    /\ register_vars g' = register_vars g.
Proof.
  intros env g slave_id start_idx length slot_text value result
    Hconn Hcmd Hvalid Hslot Hread Hreply Hok g'.
  unfold g'.
  rewrite (execute_write_single env g slave_id start_idx length Hconn Hvalid Hcmd).
  rewrite Hslot, Hread. unfold transact. rewrite Hreply.
  unfold handle_register_result. rewrite Hok. repeat split.
Qed.

Lemma write_single_register_effect_witness :
  command_history
    (execute_register_command (answering (response [] []))
       (set_register_vars (<[5 := py "0x00FF"]> fresh_register_vars)
          (select_range (py "5") (py "1")
             (select_command (py "Write Single Register") (connect startup)))))
  = [CommandEntry (py "2025-01-01T00:00:00") (py "Write Single Register 5-5")
       5 1 (Some [255]) 1000 true].
Proof.
  destruct (write_single_register_effect (answering (response [] []))
              (set_register_vars (<[5 := py "0x00FF"]> fresh_register_vars)
                 (select_range (py "5") (py "1")
                    (select_command (py "Write Single Register") (connect startup))))
              1 5 1 (py "0x00FF") 255 (response [] [])
              eq_refl eq_refl
              ltac:(repeat split; try reflexivity; lia)
              eq_refl eq_refl eq_refl eq_refl) as (_ & H & _).
  exact H.
Defined.

(** X8: [execute_register_command] refuses, with one dialog and no
    other change of the state, when the application is not connected,
    when a box of the command row is not a number, when the start index
    is outside 0..63, and when the length is outside 1..64 or the range
    ends beyond slot 63. The range test uses the Length box for every
    command, Write Single Register included. *)
Theorem execute_refuses_bad_inputs :
  forall env g,
    (is_connected g = false ->
     execute_register_command env g = showerror NotConnected g)
    /\ (is_connected g = true ->
        Py.int 10 (slave_id_var g) = None
        \/ Py.int 10 (start_idx_var g) = None
        \/ Py.int 10 (length_var g) = None ->
        execute_register_command env g = showerror InvalidNumbers g)
    /\ (forall slave_id start_idx length,
          is_connected g = true ->
          Py.int 10 (slave_id_var g) = Some slave_id ->
          Py.int 10 (start_idx_var g) = Some start_idx ->
          Py.int 10 (length_var g) = Some length ->
          (start_idx < 0 \/ 63 < start_idx ->
           execute_register_command env g = showerror StartIndexRange g)
          /\ (0 <= start_idx <= 63 ->
              length < 1 \/ 64 < length \/ 64 < start_idx + length ->
              execute_register_command env g
              = showerror InvalidLengthOrRange g)).
Proof.
  intros env g. split; [|split].
  - intros Hconn. unfold execute_register_command. by rewrite Hconn.
  - intros Hconn Hbad. unfold execute_register_command. rewrite Hconn. simpl.
    destruct Hbad as [H|[H|H]]; rewrite H; repeat case_match; reflexivity.
  - intros slave_id start_idx length Hconn Hslave Hstart Hlength.
    unfold execute_register_command. rewrite Hconn, Hslave, Hstart, Hlength.
    simpl negb. cbv iota. split.
    + intros Hout.
      destruct ((start_idx <? 0) || (63 <? start_idx)) eqn:Hb; [reflexivity|].
      apply orb_false_iff in Hb as [H1 H2]. apply Z.ltb_ge in H1, H2. lia.
    + intros Hin Hout.
      destruct ((start_idx <? 0) || (63 <? start_idx)) eqn:Hb.
      { apply orb_true_iff in Hb as [Hb|Hb]; apply Z.ltb_lt in Hb; lia. }
      destruct ((length <? 1) || (64 <? length) || (64 <? start_idx + length))
        eqn:Hl; [reflexivity|].
      apply orb_false_iff in Hl as [Hl H3]. apply orb_false_iff in Hl as [H1 H2].
      apply Z.ltb_ge in H1, H2, H3. lia.
Qed.

Lemma execute_refuses_bad_inputs_witness :
  execute_register_command (answering (response [] []))
    (select_range (py "63") (py "2")
       (select_command (py "Write Single Register") (connect startup)))
  = showerror InvalidLengthOrRange
      (select_range (py "63") (py "2")
         (select_command (py "Write Single Register") (connect startup))).
Proof.
  destruct (execute_refuses_bad_inputs (answering (response [] []))
              (select_range (py "63") (py "2")
                 (select_command (py "Write Single Register") (connect startup))))
    as (_ & _ & H).
  destruct (H 1 63 2 eq_refl eq_refl eq_refl eq_refl) as [_ Hrange].
  apply Hrange; lia.
Defined.

(** X9: one run of [execute_register_command] makes at most one call on
    the client; without a call the history and the bank are as before;
    with a call the history gains at most one entry, and that entry is
    marked as a success. *)
Theorem execute_makes_at_most_one_call :
  forall env g,
    let g' := execute_register_command env g in
    (client_calls g' = client_calls g
     /\ command_history g' = command_history g
     /\ register_vars g' = register_vars g)
    \/ (exists c,
          client_calls g' = client_calls g ++ [c]
          /\ (command_history g' = command_history g
              \/ exists timestamp command address count values response_time,
                   command_history g'
                   = command_history g
                     ++ [CommandEntry timestamp command address count values
                           response_time true])).
Proof.
  intros env g. cbv zeta.
  unfold execute_register_command, transact, handle_register_result.
  repeat case_match;
    first [ left; repeat split; reflexivity
          | right; eexists; split; [reflexivity|];
            first [ left; reflexivity | right; repeat eexists ] ].
Qed.

(** X10: one run of [send_raw_command] never changes the bank; it hands
    at most one frame to the serial port, and adds a history entry,
    marked as a success, only when it has done so. *)
Theorem raw_command_effects :
  forall env g,
    let g' := send_raw_command env g in
    register_vars g' = register_vars g
    /\ ((client_calls g' = client_calls g
         /\ command_history g' = command_history g)
        \/ exists frame,
             client_calls g' = client_calls g ++ [socket_write frame]
             /\ (command_history g' = command_history g
                 \/ exists timestamp command raw_bytes response_time,
                      command_history g'
                      = command_history g
                        ++ [RawEntry timestamp command raw_bytes response_time
                              true])).
Proof.
  intros env g. cbv zeta. unfold send_raw_command.
  repeat case_match; (split; [reflexivity|]);
    first [ left; split; reflexivity
          | right; eexists; split; [reflexivity|];
            first [ left; reflexivity | right; repeat eexists ] ].
Qed.

(** X11: only the three read commands change the bank: with any other
    command selected, [execute_register_command] leaves every slot as it
    was, whatever the client answers. *)
Theorem only_reads_change_the_bank :
  forall env g,
    is_read_command (cmd_type_var g) = false ->
    register_vars (execute_register_command env g) = register_vars g.
Proof.
  intros env g Hcmd. unfold is_read_command in Hcmd.
  apply orb_false_iff in Hcmd as [Hcmd Hcoils].
  apply orb_false_iff in Hcmd as [Hholding Hinput].
  unfold execute_register_command. rewrite Hholding, Hinput, Hcoils.
  unfold transact, handle_register_result.
  repeat case_match; reflexivity.
Qed.

Lemma only_reads_change_the_bank_witness :
  register_vars
    (execute_register_command (answering (response [7] [true]))
       (select_command (py "Write Holding Registers") (connect startup)))
  = fresh_register_vars.
Proof.
  exact (only_reads_change_the_bank (answering (response [7] [true]))
           (select_command (py "Write Holding Registers") (connect startup))
           eq_refl).
Defined.

(** ** The keys of the bank *)

Lemma show_values_keys (read_values : list Z) (start_idx i : Z)
    (vars : gmap Z Py.str) (k : Z) :
  is_Some (show_values start_idx i read_values vars !! k) <-> is_Some (vars !! k).
Proof.
  rewrite show_values_lookup. destruct (vars !! k) as [old|]; [|done].
  split; [eauto|]. intros _. case_decide as Hk; [|eauto].
  unfold Py.len in Hk.
  destruct (lookup_lt_is_Some_2 read_values (Z.to_nat (k - start_idx - i))
              ltac:(lia)) as [v ->].
  simpl. eauto.
Qed.

Lemma execute_bank (env : Env) (g : GUI) :
  register_vars (execute_register_command env g) = register_vars g
  \/ exists start_idx read_values,
       register_vars (execute_register_command env g)
       = show_values start_idx 0 read_values (register_vars g).
Proof.
  unfold execute_register_command, transact, handle_register_result.
  repeat case_match; first [ left; reflexivity | right; eexists _, _; reflexivity ].
Qed.

Lemma insert_keys (vars : gmap Z Py.str) (i k : Z) (new : Py.str) :
  is_Some (vars !! i) -> (is_Some (<[i := new]> vars !! k) <-> is_Some (vars !! k)).
Proof.
  intros Hi. destruct (decide (i = k)) as [->|Hne].
  - rewrite lookup_insert_eq. split; eauto.
  - by rewrite lookup_insert_ne.
Qed.

Lemma fresh_register_vars_keys (k : Z) :
  is_Some (fresh_register_vars !! k) <-> 0 <= k <= 63.
Proof.
  unfold fresh_register_vars.
  rewrite <- elem_of_dom, dom_list_to_map_L, elem_of_list_to_set.
  rewrite <- list_fmap_compose, list_elem_of_fmap.
  unfold Py.range, Py.range3. split.
  - intros (i & -> & Hi). simpl. apply list_elem_of_fmap in Hi as (n & -> & Hn).
    apply elem_of_seq in Hn. change (Z.to_nat ((64 - 0 + 1 - 1) / 1)) with 64%nat in Hn.
    lia.
  - intros Hk. exists k. split; [reflexivity|].
    apply list_elem_of_fmap. exists (Z.to_nat k). split; [lia|].
    apply elem_of_seq. change (Z.to_nat ((64 - 0 + 1 - 1) / 1)) with 64%nat. lia.
Qed.

Lemma same_keys (g g' : GUI) :
  (forall k, is_Some (register_vars g' !! k) <-> is_Some (register_vars g !! k)) ->
  bank_keys g -> bank_keys g'.
Proof. intros Hsame Hkeys k. rewrite Hsame. apply Hkeys. Qed.

(** X12: the bank starts with exactly the keys 0..63 and every handler
    keeps exactly these keys: commands, raw commands, Clear, and the key
    and focus handlers of the slots and of the Raw Bytes field. *)
Theorem bank_keys_are_kept :
  bank_keys startup
  /\ forall g,
       bank_keys g ->
       (forall env, bank_keys (execute_register_command env g))
       /\ (forall env, bank_keys (send_raw_command env g))
       /\ bank_keys (clear_all_registers g)
       /\ (forall reg_index, bank_keys (pad_hex_input reg_index g))
       /\ (forall reg_index, bank_keys (validate_hex_input reg_index g))
       /\ bank_keys (validate_raw_input g).
Proof.
  split; [exact fresh_register_vars_keys|].
  intros g Hkeys.
  split; [|split; [|split; [|split; [|split]]]].
  - intros env. apply (same_keys g); [|exact Hkeys]. intros k.
    destruct (execute_bank env g) as [->|(s & vals & ->)];
      [done | apply show_values_keys].
  - intros env. apply (same_keys g); [|exact Hkeys]. intros k.
    assert (Hraw : register_vars (send_raw_command env g) = register_vars g).
    { unfold send_raw_command. repeat case_match; reflexivity. }
    by rewrite Hraw.
  - apply (same_keys g); [|exact Hkeys]. intros k.
    unfold clear_all_registers. simpl. by rewrite lookup_fmap, fmap_is_Some.
  - intros reg_index. apply (same_keys g); [|exact Hkeys]. intros k.
    unfold pad_hex_input. destruct (register_vars g !! reg_index) eqn:Hslot;
      [|done]. simpl. apply insert_keys. eauto.
  - intros reg_index. apply (same_keys g); [|exact Hkeys]. intros k.
    unfold validate_hex_input. destruct (register_vars g !! reg_index) eqn:Hslot;
      [|done]. simpl. apply insert_keys. eauto.
  - exact Hkeys.
Qed.

Lemma bank_keys_are_kept_witness :
  bank_keys
    (execute_register_command (answering (response [1; 2; 3] []))
       (select_range (py "62") (py "2") (connect startup))).
Proof.
  destruct bank_keys_are_kept as [Hstart Hkept].
  assert (Hkeys : bank_keys (select_range (py "62") (py "2") (connect startup)))
    by exact Hstart.
  destruct (Hkept _ Hkeys) as [Hexec _]. apply Hexec.
Defined.

(** ** The key handler of a slot *)

Lemma upper_char_fixed (c : ascii) : is_hex_upper c = true -> Py.upper_char c = c.
Proof.
  destruct c as [b0 b1 b2 b3 b4 b5 b6 b7].
  destruct b0, b1, b2, b3, b4, b5, b6, b7; intros H; vm_compute in H;
    try discriminate H; reflexivity.
Qed.

Lemma upper_fixed (h : Py.str) : forallb is_hex_upper h = true -> Py.upper h = h.
Proof.
  induction h as [|c h IH]; [done|]. simpl. intros Hh.
  apply andb_true_iff in Hh as [Hc Hh]. unfold Py.upper in *. simpl.
  by rewrite upper_char_fixed, IH.
Qed.

Lemma filter_hex_fixed (h : Py.str) :
  forallb is_hex_upper h = true ->
  filter (fun c => is_hex_upper c = true) h = h.
Proof.
  induction h as [|c h IH]; [done|]. simpl. intros Hh.
  apply andb_true_iff in Hh as [Hc Hh].
  rewrite filter_cons_True by exact Hc. by rewrite IH.
Qed.

(** What the two handlers of a slot do with upper-case digits. *)
Lemma hex_upper_text (h : Py.str) :
  forallb is_hex_upper h = true ->
  Py.upper h = h
  /\ Py.startswith (py "0X") h = false
  /\ filter (fun c => is_hex_upper c = true) h = h.
Proof.
  intros Hh. pose proof (upper_fixed h Hh) as Hup.
  split; [exact Hup|]. split; [|by apply filter_hex_fixed].
  rewrite <- Hup at 1. apply upper_hex_no_prefix. by apply hex_upper_digits.
Qed.

Lemma validated_hex_cases (slot_text : Py.str) :
  validated_hex slot_text = slot_text
  \/ (validated_hex slot_text <> []
      /\ Py.len (validated_hex slot_text) <= 4
      /\ forallb is_hex_upper (validated_hex slot_text) = true
      /\ padded_hex slot_text = py "0x" ++ Py.zfill 4 (validated_hex slot_text)).
Proof.
  unfold validated_hex, padded_hex.
  set (cur := if Py.startswith (py "0X") (Py.upper slot_text)
              then Py.slice_from 2 (Py.upper slot_text) else Py.upper slot_text).
  set (h := filter (fun c => is_hex_upper c = true) cur).
  assert (Hh : forallb is_hex_upper h = true) by apply forallb_filter_hex.
  clearbody h cur.
  set (h' := if 4 <? Py.len h then Py.slice_to 4 h else h).
  destruct (negb (bool_decide (h' = _)) && negb (bool_decide (h' = []))) eqn:Hset;
    [right | by left].
  apply andb_true_iff in Hset as [_ Hne].
  apply negb_true_iff, bool_decide_eq_false in Hne.
  split; [exact Hne|]. unfold h' in *. unfold Py.len, Py.slice_to in *.
  destruct (4 <? Z.of_nat (List.length h)) eqn:Hlong.
  - apply Z.ltb_lt in Hlong.
    split; [rewrite length_take; lia|]. split; [by apply forallb_firstn|].
    destruct (Z.of_nat (List.length h) =? 0) eqn:Hz; [apply Z.eqb_eq in Hz; lia|].
    destruct (Z.of_nat (List.length h) <=? 4) eqn:Hs; [apply Z.leb_le in Hs; lia|].
    rewrite zfill_hex by (by apply forallb_firstn). rewrite length_take.
    replace (4 - (4 `min` List.length h))%nat with 0%nat by lia. reflexivity.
  - apply Z.ltb_ge in Hlong. split; [exact Hlong|]. split; [exact Hh|].
    destruct (Z.of_nat (List.length h) =? 0) eqn:Hz.
    { apply Z.eqb_eq in Hz. destruct h; [done | simpl in Hz; lia]. }
    destruct (Z.of_nat (List.length h) <=? 4) eqn:Hs; [|apply Z.leb_gt in Hs; lia].
    reflexivity.
Qed.

(** X13: the key handler of a slot either leaves the text alone or
    replaces it by one to four upper-case hexadecimal digits; it never
    empties a slot; running it again changes nothing more; and committing
    the slot afterwards gives the same text as committing it directly. *)
Theorem key_handler_of_a_slot :
  forall slot_text,
    (validated_hex slot_text = slot_text
     \/ (1 <= Py.len (validated_hex slot_text) <= 4
         /\ forallb is_hex_upper (validated_hex slot_text) = true))
    /\ (validated_hex slot_text = [] -> slot_text = [])
    /\ validated_hex (validated_hex slot_text) = validated_hex slot_text
    /\ padded_hex (validated_hex slot_text) = padded_hex slot_text.
Proof.
  intros slot_text.
  destruct (validated_hex_cases slot_text) as [Hsame|(Hne & Hlen & Hhex & Hpad)].
  { rewrite !Hsame. repeat split; auto. }
  set (h := validated_hex slot_text) in *.
  assert (Hpos : 1 <= Py.len h).
  { unfold Py.len. destruct h; [done | simpl; lia]. }
  destruct (hex_upper_text h Hhex) as (Hup & Hprefix & Hfilter).
  split; [right; done|]. split; [done|]. split.
  - unfold validated_hex. rewrite Hup, Hprefix, Hfilter.
    destruct (4 <? Py.len h) eqn:H4; [apply Z.ltb_lt in H4; lia|].
    rewrite bool_decide_eq_true_2 by reflexivity. reflexivity.
  - rewrite Hpad. unfold padded_hex. rewrite Hup, Hprefix, Hfilter.
    destruct (Py.len h =? 0) eqn:H0; [apply Z.eqb_eq in H0; lia|].
    destruct (Py.len h <=? 4) eqn:H4; [|apply Z.leb_gt in H4; lia].
    reflexivity.
Qed.

Lemma key_handler_of_a_slot_witness :
  validated_hex (py "0x12g4567") = py "1245"
  /\ padded_hex (py "1245") = padded_hex (py "0x12g4567").
Proof.
  split; [reflexivity|].
  destruct (key_handler_of_a_slot (py "0x12g4567")) as (_ & _ & _ & H).
  exact H.
Defined.

(** ** The key handler of the Raw Bytes field *)

Lemma pairs_ind (P : Py.str -> Prop) :
  P [] -> (forall a, P [a]) -> (forall a b rest, P rest -> P (a :: b :: rest)) ->
  forall s, P s.
Proof.
  intros Hnil Hone Hstep.
  fix IH 1. intros [|a [|b rest]]; [exact Hnil | apply Hone | apply Hstep, IH].
Qed.

Lemma range3_step_2 (n : Z) :
  0 <= n ->
  Py.range3 0 (n + 2) 2 = 0 :: map (fun i => i + 2) (Py.range3 0 n 2).
Proof.
  intros Hn. unfold Py.range3.
  replace ((n + 2 - 0 + 2 - 1) / 2) with ((n - 0 + 2 - 1) / 2 + 1).
  2:{ replace (n + 2 - 0 + 2 - 1) with (n - 0 + 2 - 1 + 1 * 2) by lia.
      rewrite Z.div_add by lia. reflexivity. }
  assert (0 <= (n - 0 + 2 - 1) / 2) by (apply Z.div_pos; lia).
  rewrite Z2Nat.inj_add by lia. rewrite Nat.add_comm. simpl seq. simpl map.
  f_equal. rewrite <- seq_shift, !map_map. apply map_ext. intros k. lia.
Qed.

Lemma range3_nonneg (n i : Z) : In i (Py.range3 0 n 2) -> 0 <= i.
Proof. unfold Py.range3. intros H. apply in_map_iff in H as (k & <- & _). lia. Qed.

(** The list comprehension of [validate_raw_input] cuts into pairs. *)
Lemma pairs_of_range (h : Py.str) :
  map (pair_at h) (Py.range3 0 (Py.len h) 2) = pairs h.
Proof.
  induction h as [|a|a b rest IH] using pairs_ind; [reflexivity..|].
  unfold Py.len in *. simpl List.length.
  replace (Z.of_nat (S (S (List.length rest))))
    with (Z.of_nat (List.length rest) + 2) by lia.
  rewrite range3_step_2 by lia. simpl. f_equal.
  rewrite map_map, <- IH. apply map_ext_in. intros i Hi.
  apply range3_nonneg in Hi. unfold pair_at.
  replace (Z.to_nat (i + 2)) with (S (S (Z.to_nat i))) by lia. reflexivity.
Qed.

Lemma split_go_token (t : Py.str) :
  forall cur rest,
    Forall (fun c => Py.isspace c = false) t ->
    Py.split_go cur (t ++ rest) = Py.split_go (rev t ++ cur) rest.
Proof.
  induction t as [|c t IH]; intros cur rest Ht; [reflexivity|].
  apply Forall_cons in Ht as [Hc Ht]. simpl. rewrite Hc, IH by exact Ht.
  by rewrite <- app_assoc.
Qed.

(** Tokens joined by single spaces split into the same tokens. *)
Lemma split_join (tokens : list Py.str) :
  Forall (fun t => t <> [] /\ Forall (fun c => Py.isspace c = false) t) tokens ->
  Py.split (Py.join (py " ") tokens) = tokens.
Proof.
  induction tokens as [|t tokens IH]; intros Htok; [reflexivity|].
  apply Forall_cons in Htok as [[Hne Ht] Htok]. unfold Py.split in *.
  assert (Hrev : rev t <> []).
  { intros Hnil. apply (f_equal (@rev ascii)) in Hnil.
    by rewrite rev_involutive in Hnil. }
  destruct tokens as [|t2 tokens].
  - simpl. rewrite <- (app_nil_r t) at 1. rewrite split_go_token by exact Ht.
    rewrite app_nil_r. simpl. destruct (rev t) eqn:Hr; [done|].
    rewrite <- Hr, rev_involutive. reflexivity.
  - change (Py.join (py " ") (t :: t2 :: tokens))
      with (t ++ " "%char :: Py.join (py " ") (t2 :: tokens)).
    rewrite split_go_token by exact Ht. rewrite app_nil_r.
    simpl Py.split_go at 1. change (Py.isspace " ") with true. cbv iota.
    destruct (rev t) eqn:Hr; [done|].
    rewrite <- Hr, rev_involutive. f_equal. apply IH, Htok.
Qed.

Lemma lstrip_spaces (s : Py.str) :
  exists p, s = p ++ Py.lstrip s /\ Forall (fun c => Py.isspace c = true) p.
Proof.
  induction s as [|a s (p & IH & Hp)]; simpl; [by exists []|].
  destruct (Py.isspace a) eqn:Ha.
  - exists (a :: p). split; [simpl; by f_equal | by constructor].
  - by exists [].
Qed.

Lemma split_go_trailing (ws : Py.str) :
  Forall (fun c => Py.isspace c = true) ws ->
  forall u cur, Py.split_go cur (u ++ ws) = Py.split_go cur u.
Proof.
  intros Hws.
  assert (Hbase : forall cur, Py.split_go cur ws = Py.split_go cur []).
  { induction Hws as [|c ws Hc Hws IH]; intros cur; [reflexivity|].
    simpl. rewrite Hc. destruct cur; rewrite IH; reflexivity. }
  induction u as [|c u IH]; intros cur; [apply Hbase|].
  simpl. destruct (Py.isspace c); [destruct cur|]; by rewrite IH.
Qed.

Lemma split_lstrip (s : Py.str) : Py.split (Py.lstrip s) = Py.split s.
Proof.
  unfold Py.split. induction s as [|c s IH]; [reflexivity|].
  simpl. destruct (Py.isspace c) eqn:Hc; [exact IH|].
  simpl. by rewrite Hc.
Qed.

(** [split] does not see what [strip] removes. *)
Lemma split_strip (s : Py.str) : Py.split (Py.strip s) = Py.split s.
Proof.
  rewrite <- (split_lstrip s). unfold Py.strip.
  destruct (lstrip_spaces (rev (Py.lstrip s))) as (p & Hp & Hspaces).
  apply (f_equal (@rev ascii)) in Hp.
  rewrite rev_involutive, rev_app_distr in Hp. rewrite Hp at 2.
  unfold Py.split. symmetry. apply split_go_trailing. by apply Forall_rev.
Qed.

Lemma upper_char_kinds (c : ascii) :
  Py.isspace (Py.upper_char c) = Py.isspace c
  /\ is_hex_digit (Py.upper_char c) = is_hex_digit c.
Proof.
  destruct c as [b0 b1 b2 b3 b4 b5 b6 b7].
  destruct b0, b1, b2, b3, b4, b5, b6, b7; split; reflexivity.
Qed.

Lemma split_go_upper (s : Py.str) :
  forall cur,
    Py.split_go (Py.upper cur) (Py.upper s) = map Py.upper (Py.split_go cur s).
Proof.
  unfold Py.upper.
  induction s as [|c s IH]; intros cur; simpl.
  - destruct cur; [reflexivity|]. simpl. by rewrite map_app, map_rev.
  - destruct (upper_char_kinds c) as [-> _]. destruct (Py.isspace c).
    + destruct cur; simpl; [exact (IH [])|]. rewrite map_app, map_rev. simpl.
      f_equal. exact (IH []).
    + exact (IH (c :: cur)).
Qed.

Lemma pairs_tokens (h : Py.str) :
  forallb is_hex_upper h = true ->
  Forall (fun t => t <> [] /\ Forall (fun c => Py.isspace c = false) t) (pairs h).
Proof.
  induction h as [|a|a b rest IH] using pairs_ind; intros Hh; simpl.
  - constructor.
  - constructor; [|constructor]. split; [done|]. by apply hex_upper_nospace.
  - simpl in Hh. apply andb_true_iff in Hh as [Ha Hh].
    apply andb_true_iff in Hh as [Hb Hh].
    constructor; [|by apply IH]. split; [done|].
    apply hex_upper_nospace. simpl. by rewrite Ha, Hb.
Qed.

Lemma pairs_even (h : Py.str) :
  forallb is_hex_upper h = true ->
  Z.even (Py.len h) = true ->
  forallb two_hex_digits (pairs h) = true.
Proof.
  unfold Py.len.
  induction h as [|a|a b rest IH] using pairs_ind; intros Hh Heven;
    [reflexivity | discriminate |].
  simpl in Hh. apply andb_true_iff in Hh as [Ha Hh].
  apply andb_true_iff in Hh as [Hb Hh].
  simpl pairs. simpl forallb. rewrite IH; [|exact Hh|].
  - unfold two_hex_digits. simpl.
    by rewrite (hex_upper_is_digit a Ha), (hex_upper_is_digit b Hb).
  - simpl List.length in Heven.
    replace (Z.of_nat (S (S (List.length rest))))
      with (Z.of_nat (List.length rest) + 2) in Heven by lia.
    rewrite Z.even_add in Heven. simpl in Heven.
    by destruct (Z.even (Z.of_nat (List.length rest))).
Qed.

Lemma filter_join_pairs (h : Py.str) :
  forallb is_hex_upper h = true ->
  filter (fun c => is_hex_upper c || Ascii.eqb c " " = true)
    (Py.join (py " ") (pairs h)) = Py.join (py " ") (pairs h)
  /\ filter (fun c => Ascii.eqb c " " = false) (Py.join (py " ") (pairs h)) = h
  /\ Py.upper (Py.join (py " ") (pairs h)) = Py.join (py " ") (pairs h).
Proof.
  assert (Hsp : forall c, is_hex_upper c = true -> Ascii.eqb c " " = false).
  { intros c Hc.
    destruct (hex_digit_facts c (hex_upper_is_digit c Hc)) as (_ & Hs & _).
    destruct (Ascii.eqb_spec c " ") as [->|]; [discriminate | reflexivity]. }
  induction h as [|a|a b rest IH] using pairs_ind; intros Hh.
  - done.
  - simpl in Hh. apply andb_true_iff in Hh as [Ha _]. simpl.
    rewrite filter_cons_True by (by rewrite Ha).
    rewrite filter_cons_True by (by apply Hsp).
    unfold Py.upper. simpl. by rewrite upper_char_fixed.
  - simpl in Hh. apply andb_true_iff in Hh as [Ha Hh].
    apply andb_true_iff in Hh as [Hb Hh].
    destruct (IH Hh) as (IH1 & IH2 & IH3).
    simpl pairs. destruct (pairs rest) as [|t ts] eqn:Hp.
    + assert (rest = []) as -> by (by destruct rest as [|x [|y r]]).
      simpl. rewrite !filter_cons_True by (by rewrite ?Ha, ?Hb).
      rewrite !filter_cons_True by (by apply Hsp).
      unfold Py.upper. simpl. by rewrite !upper_char_fixed.
    + change (Py.join (py " ") ([a; b] :: t :: ts))
        with (a :: b :: " "%char :: Py.join (py " ") (t :: ts)).
      set (J := Py.join (py " ") (t :: ts)) in *.
      rewrite !filter_cons_True by (by rewrite ?Ha, ?Hb).
      rewrite IH1. rewrite !filter_cons_True by (by apply Hsp).
      rewrite filter_cons_False by (by intros [=]). rewrite IH2.
      change (Py.upper (a :: b :: " "%char :: J))
        with (Py.upper_char a :: Py.upper_char b :: " "%char :: Py.upper J).
      by rewrite !upper_char_fixed, IH3.
Qed.

Lemma raw_hex_chars_upper (raw : Py.str) :
  forallb is_hex_upper (raw_hex_chars raw) = true.
Proof.
  unfold raw_hex_chars. generalize (Py.upper raw). intros s.
  induction s as [|c s IH]; [done|].
  destruct (is_hex_upper c) eqn:Hc.
  - rewrite filter_cons_True by (by rewrite Hc).
    destruct (Ascii.eqb c " ") eqn:Hs.
    + rewrite filter_cons_False by (by rewrite Hs). exact IH.
    + rewrite filter_cons_True by exact Hs. simpl. by rewrite Hc.
  - destruct (Ascii.eqb c " ") eqn:Hs.
    + rewrite filter_cons_True by (by rewrite Hc, Hs).
      rewrite filter_cons_False by (by rewrite Hs). exact IH.
    + rewrite filter_cons_False by (by rewrite Hc, Hs). exact IH.
Qed.

Lemma hex_value_byte (part : Py.str) :
  two_hex_digits part = true -> is_byte (hex_value part).
Proof.
  unfold two_hex_digits. intros H. apply andb_true_iff in H as [Hlen Hd].
  apply Z.eqb_eq in Hlen. unfold Py.len in Hlen.
  pose proof (hex_value_fold_bound part 0 Hd ltac:(lia)) as Hb.
  replace (Z.of_nat (List.length part)) with 2 in Hb by lia.
  unfold is_byte, hex_value. simpl in Hb. lia.
Qed.

Lemma two_hex_digits_upper (part : Py.str) :
  two_hex_digits (Py.upper part) = two_hex_digits part.
Proof.
  unfold two_hex_digits, Py.len, Py.upper. rewrite length_map. f_equal.
  induction part as [|c part IH]; [reflexivity|]. simpl.
  destruct (upper_char_kinds c) as [_ ->]. by rewrite IH.
Qed.

(** X14: in a Raw Bytes field of characters with code points below 256
    that holds at least one hexadecimal digit, the key handler leaves a
    text whose upper-case form is the digits in pairs separated by single
    spaces; running it again changes nothing; and when the number of
    digits is even, [send_raw_command] reads the field as exactly the
    bytes those pairs write, so no token is refused as malformed and none
    carries a sign. Among these characters [upper] makes a hexadecimal
    digit only out of a hexadecimal digit; characters above 255 whose
    upper-case form is made of the letters A to F are not covered. *)
Theorem key_handler_of_raw_bytes :
  forall g,
    let h := raw_hex_chars (raw_bytes_var g) in
    let g' := validate_raw_input g in
    h <> [] ->
    Py.upper (raw_bytes_var g') = Py.join (py " ") (pairs h)
    /\ validate_raw_input g' = g'
    /\ (Z.even (Py.len h) = true ->
        parse_hex_parts (Py.split (Py.strip (raw_bytes_var g'))) []
        = inr (map hex_value (pairs h))
        /\ Forall is_byte (map hex_value (pairs h))).
Proof.
  intros g h g' Hne.
  assert (Hh : forallb is_hex_upper h = true) by apply raw_hex_chars_upper.
  destruct (filter_join_pairs h Hh) as (Hkeep & Hdigits & Hup).
  assert (Hspaced : spaced_pairs h = Py.join (py " ") (pairs h)).
  { unfold spaced_pairs. by rewrite pairs_of_range. }
  assert (Hpos : (0 <? Py.len h) = true).
  { apply Z.ltb_lt. unfold Py.len. destruct h; [done | simpl; lia]. }
  assert (Hupper : Py.upper (validated_raw (raw_bytes_var g))
                   = Py.join (py " ") (pairs h)).
  { unfold validated_raw. fold h. rewrite Hpos, Hspaced.
    destruct (bool_decide (Py.join (py " ") (pairs h) = Py.upper (raw_bytes_var g)))
      eqn:Hsame; simpl; [by apply bool_decide_eq_true in Hsame | exact Hup]. }
  assert (Hagain : validated_raw (validated_raw (raw_bytes_var g))
                   = validated_raw (raw_bytes_var g)).
  { assert (Hh2 : raw_hex_chars (validated_raw (raw_bytes_var g)) = h).
    { unfold raw_hex_chars at 1. rewrite Hupper, Hkeep. exact Hdigits. }
    unfold validated_raw at 1. rewrite Hh2, Hpos, Hspaced, Hupper.
    rewrite bool_decide_eq_true_2 by reflexivity. reflexivity. }
  split; [exact Hupper|]. split.
  { unfold g', validate_raw_input. simpl raw_bytes_var. rewrite Hagain.
    reflexivity. }
  intros Heven.
  pose proof (pairs_even h Hh Heven) as Hpairs.
  assert (Htokens : map Py.upper (Py.split (Py.strip (raw_bytes_var g'))) = pairs h).
  { rewrite split_strip. unfold Py.split.
    rewrite <- (split_go_upper _ []).
    change (raw_bytes_var g') with (validated_raw (raw_bytes_var g)).
    rewrite Hupper. apply split_join, pairs_tokens, Hh. }
  set (tokens := Py.split (Py.strip (raw_bytes_var g'))) in *.
  assert (Hgood : forallb two_hex_digits tokens = true).
  { rewrite <- Htokens in Hpairs. clear -Hpairs.
    induction tokens as [|t tokens IH]; [reflexivity|]. simpl in *.
    rewrite two_hex_digits_upper in Hpairs.
    apply andb_true_iff in Hpairs as [-> Hpairs]. by apply IH. }
  assert (Hvalues : map hex_value tokens = map hex_value (pairs h)).
  { rewrite <- Htokens, map_map. apply map_ext_in. intros t Ht.
    symmetry. apply hex_value_upper.
    rewrite forallb_forall in Hgood. specialize (Hgood t Ht).
    unfold two_hex_digits in Hgood. by apply andb_true_iff in Hgood as [_ ?]. }
  split.
  - rewrite <- (app_nil_r tokens) at 1.
    rewrite parse_hex_parts_good by exact Hgood. simpl. by rewrite Hvalues.
  - apply Forall_forall. intros v Hv. apply list_elem_of_In, in_map_iff in Hv
      as (t & <- & Ht).
    apply hex_value_byte. rewrite forallb_forall in Hpairs. by apply Hpairs.
Qed.

Lemma key_handler_of_raw_bytes_witness :
  parse_hex_parts
    (Py.split (Py.strip
       (raw_bytes_var (validate_raw_input (enter_raw (py "+1 03zz0a5") startup)))))
    []
  = inr (map hex_value (pairs (raw_hex_chars (py "+1 03zz0a5")))).
Proof.
  destruct (key_handler_of_raw_bytes (enter_raw (py "+1 03zz0a5") startup)
              ltac:(vm_compute; discriminate)) as (_ & _ & H).
  exact (proj1 (H eq_refl)).
Defined.

(** ** A raw command that is sent *)

Lemma raw_crc_bytes (frame : list Z) :
  is_byte (fst (raw_crc frame)) /\ is_byte (snd (raw_crc frame)).
Proof. unfold raw_crc. simpl. rewrite !land_255. split; apply byte_mod. Qed.

Lemma is_bytes_true (l : list Z) : Forall is_byte l -> is_bytes l = true.
Proof.
  intros Hl. unfold is_bytes. apply forallb_forall. intros b Hb.
  rewrite Forall_forall in Hl. apply list_elem_of_In in Hb.
  destruct (Hl b Hb). apply andb_true_iff. split; [apply Z.leb_le | apply Z.ltb_lt]; lia.
Qed.

(** X15: on a connected application with an open port, a raw text of two
    or more tokens, each two hexadecimal digits, with the first byte in
    1..247 and the second in 1..127, is always transmitted: the bytes of
    the tokens followed by the two CRC bytes, in one write on the port,
    with one history entry and no dialog. *)
Theorem well_formed_raw_is_sent :
  forall env g t1 t2 rest result,
    is_connected g = true ->
    socket_open g = true ->
    Py.split (Py.strip (raw_bytes_var g)) = t1 :: t2 :: rest ->
    forallb two_hex_digits (t1 :: t2 :: rest) = true ->
    1 <= hex_value t1 <= 247 ->
    1 <= hex_value t2 <= 127 ->
    reply env = Returns result ->
    let frame := map hex_value (t1 :: t2 :: rest) in
    let g' := send_raw_command env g in
    client_calls g' = client_calls g ++ [socket_write (raw_complete_frame frame)]
    /\ raw_complete_frame frame
       = frame ++ [crc_loop frame mod 256; crc_loop frame / 256]
    /\ command_history g'
       = command_history g
         ++ [RawEntry (timestamp env)
               (py "Raw Command: " ++ hex_frame (raw_complete_frame frame))
               (hex_frame (raw_complete_frame frame))
               ((end_time env - start_time env) * 1000) true]
    /\ message_boxes g' = message_boxes g.
Proof.
  intros env g t1 t2 rest result Hconn Hsock Htokens Hgood H1 H2 Hreply frame g'.
  assert (Hbytes : Forall is_byte frame).
  { apply Forall_forall. intros v Hv. apply list_elem_of_In, in_map_iff in Hv
      as (t & <- & Ht).
    apply hex_value_byte. rewrite forallb_forall in Hgood. by apply Hgood. }
  assert (Hparse : parse_hex_parts (t1 :: t2 :: rest) [] = inr frame).
  { rewrite <- (app_nil_r (t1 :: t2 :: rest)).
    rewrite parse_hex_parts_good by exact Hgood. reflexivity. }
  assert (Hcomplete : is_bytes (raw_complete_frame frame) = true).
  { apply is_bytes_true. unfold raw_complete_frame.
    destruct (raw_crc_bytes frame) as [Hlo Hhi].
    destruct (raw_crc frame) as [lo hi]. cbn [fst snd] in Hlo, Hhi.
    apply Forall_app_2; [exact Hbytes|].
    constructor; [exact Hhi|]. constructor; [exact Hlo | constructor]. }
  assert (Hwire : raw_complete_frame frame
                  = frame ++ [crc_loop frame mod 256; crc_loop frame / 256]).
  { destruct (crc_bytes frame Hbytes) as [Hlow Hhigh].
    unfold raw_complete_frame, raw_crc. cbv zeta iota beta.
    by rewrite Hlow, Hhigh. }
  assert (Hrun :
    g' = history_append
           (RawEntry (timestamp env)
              (py "Raw Command: " ++ hex_frame (raw_complete_frame frame))
              (hex_frame (raw_complete_frame frame))
              ((end_time env - start_time env) * 1000) true)
           (log_message RawNote INFO
              (log_message
                 (RawSent (hex_frame (raw_complete_frame frame))
                    ((end_time env - start_time env) * 1000)) SUCCESS
                 (client_call (socket_write (raw_complete_frame frame))
                    (log_message
                       (SendingRaw (hex_frame (raw_complete_frame frame))
                          (fst (raw_crc frame)) (snd (raw_crc frame))) INFO g))))).
  { unfold g', send_raw_command. rewrite Hconn. simpl negb. cbv iota.
    destruct (Py.strip (raw_bytes_var g)) eqn:Hstrip; [discriminate|].
    rewrite Htokens, Hparse.
    change (Py.len (t1 :: t2 :: rest) <? 2)
      with (Z.of_nat (S (S (List.length rest))) <? 2).
    destruct (Z.of_nat (S (S (List.length rest))) <? 2) eqn:Hshort;
      [apply Z.ltb_lt in Hshort; lia|].
    change (Py.index frame 0) with (Some (hex_value t1)).
    change (Py.index frame 1) with (Some (hex_value t2)). cbv iota.
    destruct ((hex_value t1 <? 1) || (247 <? hex_value t1)) eqn:Hs.
    { apply orb_true_iff in Hs as [Hs|Hs]; apply Z.ltb_lt in Hs; lia. }
    destruct ((hex_value t2 <? 1) || (127 <? hex_value t2)) eqn:Hf.
    { apply orb_true_iff in Hf as [Hf|Hf]; apply Z.ltb_lt in Hf; lia. }
    fold frame. destruct (raw_crc frame) as [lo hi] eqn:Hcrc.
    simpl socket_open. rewrite Hsock, Hcomplete, Hreply. reflexivity. }
  rewrite Hrun. repeat split; try reflexivity. exact Hwire.
Qed.

Lemma well_formed_raw_is_sent_witness :
  client_calls
    (send_raw_command (answering (response [] []))
       (enter_raw (py "11 06 00 05 00 ff") (connect startup)))
  = [socket_write (raw_complete_frame [17; 6; 0; 5; 0; 255])].
Proof.
  destruct (well_formed_raw_is_sent (answering (response [] []))
              (enter_raw (py "11 06 00 05 00 ff") (connect startup))
              (py "11") (py "06") [py "00"; py "05"; py "00"; py "ff"]
              (response [] []) eq_refl eq_refl eq_refl eq_refl
              ltac:(vm_compute; split; discriminate)
              ltac:(vm_compute; split; discriminate) eq_refl) as [H _].
  exact H.
Defined.

(** ** Loading the settings *)

(** X16: [load_settings] never restores the start index and the length,
    and never touches the bank or the history. Without a settings file it
    changes nothing and logs nothing. With a settings file that holds a
    JSON object it sets the port, baud rate, slave id and command type
    (each to its default when the key is missing) and then always logs
    the warning Failed to load settings, for the attribute [address_var]
    that does not exist. So, when the slave id reads as a number, the
    first command after start-up has the command type of the file (Read
    Holding Registers when the file names none) and always the address 0
    and the count 1, whatever address and count the file holds: a read asks for one item at address 0, a
    register write sends the one value 0 of slot 0 to address 0, and a
    Write Coils, or a command type that the dispatcher does not know,
    makes no call. *)
Theorem settings_are_half_loaded :
  forall file g,
    start_idx_var (fst (load_settings file g)) = start_idx_var g
    /\ length_var (fst (load_settings file g)) = length_var g
    /\ register_vars (fst (load_settings file g)) = register_vars g
    /\ command_history (fst (load_settings file g)) = command_history g
    /\ load_settings NoSettingsFile g = (g, None)
    /\ forall settings,
         snd (load_settings (Settings settings) g)
         = Some (py "'ModbusSimulatorGUI' object has no attribute 'address_var'")
         /\ port_var (fst (load_settings (Settings settings) g))
            = default [] (settings !! "port"%string)
         /\ baud_var (fst (load_settings (Settings settings) g))
            = default (py "115200") (settings !! "baudrate"%string)
         /\ slave_id_var (fst (load_settings (Settings settings) g))
            = default (py "1") (settings !! "slave_id"%string)
         /\ cmd_type_var (fst (load_settings (Settings settings) g))
            = default (py "Read Holding Registers")
                (settings !! "command_type"%string)
         /\ forall env slave_id,
              Py.int 10 (default (py "1") (settings !! "slave_id"%string))
              = Some slave_id ->
              let cmd_type :=
                default (py "Read Holding Registers")
                  (settings !! "command_type"%string) in
              client_calls
                (execute_register_command env
                   (connect (fst (load_settings (Settings settings) startup))))
              = if is_cmd cmd_type "Read Holding Registers"
                then [read_holding_registers 0 1 slave_id]
                else if is_cmd cmd_type "Write Holding Registers"
                then [write_registers 0 [0] slave_id]
                else if is_cmd cmd_type "Write Single Register"
                then [write_register 0 0 slave_id]
                else if is_cmd cmd_type "Read Input Registers"
                then [read_input_registers 0 1 slave_id]
                else if is_cmd cmd_type "Read Coils"
                then [read_coils 0 1 slave_id]
                else [].
Proof.
  intros file g.
  split; [by destruct file|]. split; [by destruct file|].
  split; [by destruct file|]. split; [by destruct file|].
  split; [reflexivity|].
  intros settings.
  split; [reflexivity|].
  split; [unfold load_settings, settings_get; simpl; by case_match|].
  split; [unfold load_settings, settings_get; simpl; by case_match|].
  split; [unfold load_settings, settings_get; simpl; by case_match|].
  split; [unfold load_settings, settings_get; simpl; by case_match|].
  intros env slave_id Hslave cmd_type.
  set (g0 := connect _).
  assert (Hconn : is_connected g0 = true) by reflexivity.
  assert (Hid : Py.int 10 (slave_id_var g0) = Some slave_id).
  { rewrite <- Hslave. unfold g0, load_settings, settings_get. simpl.
    by case_match. }
  assert (Hstart : Py.int 10 (start_idx_var g0) = Some 0) by reflexivity.
  assert (Hlength : Py.int 10 (length_var g0) = Some 1) by reflexivity.
  assert (Hcmd0 : cmd_type_var g0 = cmd_type).
  { unfold g0, cmd_type, load_settings, settings_get. simpl. by case_match. }
  assert (Hbank : register_vars g0 = fresh_register_vars) by reflexivity.
  assert (Hcalls : client_calls g0 = []) by reflexivity.
  clearbody g0 cmd_type. unfold execute_register_command.
  rewrite Hconn, Hid, Hstart, Hlength, Hcmd0, Hbank. simpl negb. cbv iota.
  change ((0 <? 0) || (63 <? 0)) with false.
  change ((1 <? 1) || (64 <? 1) || (64 <? 0 + 1)) with false. cbv iota.
  change (collect_registers fresh_register_vars (slot_range 0 1) [])
    with (@inr ErrorBox (list Z) [0]).
  change (fresh_register_vars !! 0) with (Some (py "0x0000")). cbv iota.
  change (read_hex_slot 0 (py "0x0000")) with (@inr ErrorBox Z 0).
  change (collect_coils fresh_register_vars (slot_range 0 1) [])
    with (@inl ErrorBox (list Z) (CoilInvalid 0)).
  cbv iota.
  destruct (is_cmd cmd_type "Read Holding Registers");
    [rewrite transact_calls; simpl client_calls; by rewrite Hcalls|].
  destruct (is_cmd cmd_type "Write Holding Registers");
    [rewrite transact_calls; simpl client_calls; by rewrite Hcalls|].
  destruct (is_cmd cmd_type "Write Single Register");
    [rewrite transact_calls; simpl client_calls; by rewrite Hcalls|].
  destruct (is_cmd cmd_type "Read Input Registers");
    [rewrite transact_calls; simpl client_calls; by rewrite Hcalls|].
  destruct (is_cmd cmd_type "Read Coils");
    [rewrite transact_calls; simpl client_calls; by rewrite Hcalls|].
  destruct (is_cmd cmd_type "Write Coils"); exact Hcalls.
Qed.

Lemma settings_are_half_loaded_witness :
  client_calls
    (execute_register_command (answering one_coil_reply)
       (connect
          (fst (load_settings
                  (Settings (<["address"%string := py "5"]>
                             (<["count"%string := py "3"]>
                              (<["command_type"%string := py "Read Coils"]>
                               (<["slave_id"%string := py "17"]> ∅)))))
                  startup))))
  = [read_coils 0 1 17].
Proof.
  destruct (settings_are_half_loaded NoSettingsFile startup)
    as (_ & _ & _ & _ & _ & H).
  destruct (H (<["address"%string := py "5"]>
               (<["count"%string := py "3"]>
                (<["command_type"%string := py "Read Coils"]>
                 (<["slave_id"%string := py "17"]> ∅)))))
    as (_ & _ & _ & _ & _ & Hrun).
  exact (Hrun (answering one_coil_reply) 17 eq_refl).
Defined.

(** ** The layout of the frames *)

Lemma high_low_u16 (v : Z) :
  0 <= v < 65536 ->
  is_byte (high_byte v) /\ is_byte (low_byte v)
  /\ high_byte v * 256 + low_byte v = v.
Proof.
  intros Hv. destruct (high_low_byte v) as [-> ->].
  split; [apply byte_mod|]. split; [apply byte_mod|].
  rewrite (Z.mod_small (v / 256)).
  - rewrite (Z.div_mod v 256) at 3 by lia. lia.
  - split; [apply Z.div_pos; lia | apply Z.div_lt_upper_bound; lia].
Qed.

(** X17: for the three read commands the frame before the CRC has six
    bytes: the slave id, the function code (3, 4 or 1), and the address
    and the quantity as two bytes each, high byte first, from which both
    numbers are recovered. *)
Theorem read_frames_layout :
  forall slave_id start_idx length values,
    0 <= start_idx < 65536 ->
    0 <= length < 65536 ->
    exists a_hi a_lo n_hi n_lo,
      frame_bytes (py "Read Holding Registers") start_idx length slave_id values
      = Some [slave_id; 3; a_hi; a_lo; n_hi; n_lo]
      /\ frame_bytes (py "Read Input Registers") start_idx length slave_id values
         = Some [slave_id; 4; a_hi; a_lo; n_hi; n_lo]
      /\ frame_bytes (py "Read Coils") start_idx length slave_id values
         = Some [slave_id; 1; a_hi; a_lo; n_hi; n_lo]
      /\ Forall is_byte [a_hi; a_lo; n_hi; n_lo]
      /\ a_hi * 256 + a_lo = start_idx
      /\ n_hi * 256 + n_lo = length.
Proof.
  intros slave_id start_idx length values Hs Hl.
  destruct (high_low_u16 start_idx Hs) as (Ha1 & Ha2 & Ha).
  destruct (high_low_u16 length Hl) as (Hn1 & Hn2 & Hn).
  exists (high_byte start_idx), (low_byte start_idx),
         (high_byte length), (low_byte length).
  split; [reflexivity|]. split; [reflexivity|]. split; [reflexivity|].
  split; [|by split].
  repeat (constructor; [assumption|]). constructor.
Qed.

Lemma read_frames_layout_witness :
  exists a_hi a_lo n_hi n_lo,
    frame_bytes (py "Read Coils") 300 2000 9 None
    = Some [9; 1; a_hi; a_lo; n_hi; n_lo]
    /\ a_hi * 256 + a_lo = 300 /\ n_hi * 256 + n_lo = 2000.
Proof.
  destruct (read_frames_layout 9 300 2000 None ltac:(lia) ltac:(lia))
    as (a_hi & a_lo & n_hi & n_lo & _ & _ & H & _ & Ha & Hn).
  exists a_hi, a_lo, n_hi, n_lo. auto.
Defined.

Lemma decode_register_bytes (values : list Z) :
  Forall is_u16 values ->
  decode_be16 (flat_map (fun value => [high_byte value; low_byte value]) values)
  = values
  /\ Forall is_byte (flat_map (fun value => [high_byte value; low_byte value]) values)
  /\ List.length (flat_map (fun value => [high_byte value; low_byte value]) values)
     = (2 * List.length values)%nat.
Proof.
  induction 1 as [|v values Hv Hvalues (IH1 & IH2 & IH3)]; [by repeat split|].
  destruct (high_low_u16 v ltac:(unfold is_u16 in Hv; lia)) as (H1 & H2 & H3).
  cbn [flat_map app decode_be16 List.length]. rewrite IH1, IH3, H3.
  split; [reflexivity|]. split; [|lia].
  constructor; [exact H1|]. constructor; [exact H2 | exact IH2].
Qed.

(** X18: the frame of Write Holding Registers before the CRC has
    7 + 2n bytes for n values: slave id, function code 0x10, address,
    quantity, the byte count 2 * length, then every value as two bytes,
    high byte first; the values are recovered from these bytes. The frame
    of Write Single Register has six bytes, function code 6, no quantity,
    and the value in its last two bytes. *)
Theorem write_register_frames_layout :
  forall slave_id start_idx length values,
    Forall is_u16 values ->
    (exists payload,
       frame_bytes (py "Write Holding Registers") start_idx length slave_id
         (Some values)
       = Some ([slave_id; 0x10; high_byte start_idx; low_byte start_idx;
                high_byte length; low_byte length; length * 2] ++ payload)
       /\ List.length payload = (2 * List.length values)%nat
       /\ Forall is_byte payload
       /\ decode_be16 payload = values)
    /\ (forall value rest,
          values = value :: rest ->
          exists v_hi v_lo,
            frame_bytes (py "Write Single Register") start_idx length slave_id
              (Some values)
            = Some [slave_id; 6; high_byte start_idx; low_byte start_idx;
                    v_hi; v_lo]
            /\ is_byte v_hi /\ is_byte v_lo /\ v_hi * 256 + v_lo = value).
Proof.
  intros slave_id start_idx length values Hvalues. split.
  - destruct (decode_register_bytes values Hvalues) as (Hdec & Hbytes & Hlen).
    eexists. split; [reflexivity|].
    split; [exact Hlen|]. split; [exact Hbytes | exact Hdec].
  - intros value rest ->. apply Forall_cons in Hvalues as [Hv _].
    destruct (high_low_u16 value ltac:(unfold is_u16 in Hv; lia)) as (H1 & H2 & H3).
    exists (high_byte value), (low_byte value).
    split; [reflexivity|]. split; [exact H1|]. split; [exact H2 | exact H3].
Qed.

Lemma write_register_frames_layout_witness :
  exists payload,
    frame_bytes (py "Write Holding Registers") 2 2 1 (Some [0x1234; 0xABCD])
    = Some ([1; 0x10; 0; 2; 0; 2; 4] ++ payload)
    /\ decode_be16 payload = [0x1234; 0xABCD].
Proof.
  destruct (write_register_frames_layout 1 2 2 [0x1234; 0xABCD]
              ltac:(repeat constructor; unfold is_u16; lia))
    as [(payload & Hframe & _ & _ & Hdec) _].
  exists payload. split; [exact Hframe | exact Hdec].
Defined.

Lemma lor_below (n a b : Z) :
  0 <= a < 2 ^ n -> 0 <= b < 2 ^ n -> 0 <= Z.lor a b < 2 ^ n.
Proof.
  intros Ha Hb. split; [apply Z.lor_nonneg; lia|].
  destruct (Z.eq_dec (Z.lor a b) 0) as [->|Hne]; [lia|].
  assert (Hpos : 0 < Z.lor a b).
  { assert (0 <= Z.lor a b) by (apply Z.lor_nonneg; lia). lia. }
  assert (Hn : 0 < n).
  { destruct (Z_lt_le_dec 0 n) as [|Hle]; [done|].
    assert (2 ^ n <= 1).
    { destruct (Z.eq_dec n 0) as [->|]; [simpl; lia|].
      rewrite Z.pow_neg_r by lia. lia. }
    assert (a = 0) by lia. assert (b = 0) by lia. subst. by simpl in Hne. }
  apply Z.log2_lt_pow2; [exact Hpos|].
  rewrite Z.log2_lor by lia.
  assert (Z.log2 a < n).
  { destruct (Z.eq_dec a 0) as [->|]; [simpl; lia|].
    apply Z.log2_lt_pow2; lia. }
  assert (Z.log2 b < n).
  { destruct (Z.eq_dec b 0) as [->|]; [simpl; lia|].
    apply Z.log2_lt_pow2; lia. }
  lia.
Qed.

Lemma coil_bit_byte (length i : Z) (values : option (list Z)) (b j b' : Z) :
  is_byte b -> 0 <= j < 8 ->
  coil_bit length i values (Some b) j = Some b' -> is_byte b'.
Proof.
  unfold is_byte. intros Hb Hj. unfold coil_bit. simpl.
  destruct (i + j <? length); [|by intros [= <-]].
  destruct values as [vs|]; [|discriminate]. simpl.
  destruct (Py.index vs (i + j)) as [v|]; [|discriminate]. simpl.
  destruct (v =? 0); intros [= <-]; [exact Hb|].
  change 256 with (2 ^ 8). apply lor_below; [simpl; lia|].
  rewrite Z.shiftl_mul_pow2, Z.mul_1_l by lia.
  split; [apply Z.pow_nonneg; lia | apply Z.pow_lt_mono_r; lia].
Qed.

Lemma coil_byte_byte (length : Z) (values : option (list Z)) (i b : Z) :
  coil_byte length values i = Some b -> is_byte b.
Proof.
  unfold coil_byte. rewrite range_8. cbn [fold_left].
  assert (Hstep : forall acc j b',
            0 <= j < 8 ->
            (forall a, acc = Some a -> is_byte a) ->
            coil_bit length i values acc j = Some b' -> is_byte b').
  { intros [a|] j b' Hj Hacc H; [|discriminate].
    eapply coil_bit_byte; [apply Hacc; reflexivity | exact Hj | exact H]. }
  intros H.
  repeat match goal with
         | H : coil_bit _ _ _ ?acc ?j = Some ?b |- is_byte ?b =>
             apply (Hstep acc j b ltac:(lia)); [clear H; intros ? H | exact H]
         end.
  injection H as <-. unfold is_byte. lia.
Qed.

(** X19: whenever [log_modbus_frame] can build a frame for a slave id
    in 0..255 and a length in 0..127, every item of the frame, CRC
    included, is a byte, whatever the command, the address and the
    values are. *)
Theorem logged_frames_hold_bytes :
  forall cmd_type slave_id start_idx length values frame,
    0 <= slave_id <= 255 ->
    0 <= length <= 127 ->
    frame_bytes cmd_type start_idx length slave_id values = Some frame ->
    Forall is_byte frame /\ Forall is_byte (builder_complete_frame frame).
Proof.
  intros cmd_type slave_id start_idx length values frame Hslave Hlength Hframe.
  assert (Hhl : forall v, is_byte (high_byte v) /\ is_byte (low_byte v)).
  { intros v. destruct (high_low_byte v) as [-> ->]. split; apply byte_mod. }
  assert (Hhead : forall v, is_byte (high_byte v)) by (intros v; apply Hhl).
  assert (Hlow : forall v, is_byte (low_byte v)) by (intros v; apply Hhl).
  assert (Hbytes : Forall is_byte frame).
  { unfold frame_bytes in Hframe.
    destruct (is_cmd cmd_type "Read Holding Registers").
    { injection Hframe as <-.
      repeat (constructor; [first [apply Hhead | apply Hlow | unfold is_byte; lia]|]).
      constructor. }
    destruct (is_cmd cmd_type "Write Holding Registers").
    { destruct values as [vs|]; [|discriminate]. simpl in Hframe.
      injection Hframe as <-.
      repeat (constructor; [first [apply Hhead | apply Hlow | unfold is_byte; lia]|]).
      apply Forall_flat_map, Forall_forall. intros v _.
      constructor; [apply Hhead|]. constructor; [apply Hlow | constructor]. }
    destruct (is_cmd cmd_type "Write Single Register").
    { destruct values as [vs|]; [|discriminate]. simpl in Hframe.
      destruct (Py.index vs 0) as [v0|]; [|discriminate]. simpl in Hframe.
      injection Hframe as <-.
      repeat (constructor; [first [apply Hhead | apply Hlow | unfold is_byte; lia]|]).
      constructor. }
    destruct (is_cmd cmd_type "Read Input Registers").
    { injection Hframe as <-.
      repeat (constructor; [first [apply Hhead | apply Hlow | unfold is_byte; lia]|]).
      constructor. }
    destruct (is_cmd cmd_type "Read Coils").
    { injection Hframe as <-.
      repeat (constructor; [first [apply Hhead | apply Hlow | unfold is_byte; lia]|]).
      constructor. }
    destruct (is_cmd cmd_type "Write Coils"); [|discriminate].
    destruct (mapM _ _) as [coil_bytes|] eqn:Hmap; [|discriminate].
    simpl in Hframe. injection Hframe as <-.
    assert (Hcount : is_byte ((length + 7) / 8)).
    { unfold is_byte.
      split; [apply Z.div_pos; lia | apply Z.div_lt_upper_bound; lia]. }
    repeat (constructor;
            [first [apply Hhead | apply Hlow | exact Hcount | unfold is_byte; lia]|]).
    apply mapM_Some in Hmap. apply Forall_forall. intros b Hb.
    apply list_elem_of_lookup in Hb as [k Hk].
    destruct (Forall2_lookup_r _ _ _ _ _ Hmap Hk) as (i & _ & Hi).
    by apply coil_byte_byte in Hi. }
  split; [exact Hbytes|].
  unfold builder_complete_frame, builder_crc. cbv zeta iota beta.
  apply Forall_app_2; [exact Hbytes|]. rewrite !land_255.
  repeat constructor; apply byte_mod.
Qed.

Lemma logged_frames_hold_bytes_witness :
  Forall is_byte
    (builder_complete_frame [1; 0x0F; 0; 0; 0; 8; 1; 0x0D]).
Proof.
  refine (proj2 (logged_frames_hold_bytes (py "Write Coils") 1 0 8
                   (Some [1; 0; 1; 1; 0; 0; 0; 0]) _ ltac:(lia) ltac:(lia) eq_refl)).
Defined.

(** ** Committed slots and Write Coils *)

Lemma prefixed_text_is_no_decimal (d : Py.str) : Py.int 10 (py "0x" ++ d) = None.
Proof. reflexivity. Qed.

(** X20: once [pad_hex_input] has committed a slot, whatever its text
    was, Write Coils refuses it: a Write Coils over a valid range whose
    first slot has been committed ends with the dialog Invalid value in
    register, naming that slot, and nothing is transmitted. *)
Theorem committed_slot_stops_write_coils :
  forall env g slave_id start_idx length slot_text,
    is_connected g = true ->
    cmd_type_var g = py "Write Coils" ->
    valid_inputs g slave_id start_idx length ->
    register_vars g !! start_idx = Some slot_text ->
    let g1 := pad_hex_input start_idx g in
    read_coil_slot start_idx (padded_hex slot_text) = inl (CoilInvalid start_idx)
    /\ execute_register_command env g1 = showerror (CoilInvalid start_idx) g1
    /\ client_calls (execute_register_command env g1) = client_calls g.
Proof.
  intros env g slave_id start_idx length slot_text Hconn Hcmd Hvalid Hslot g1.
  destruct (padded_hex_shape slot_text) as (d & Hpad & _).
  assert (Hread : read_coil_slot start_idx (padded_hex slot_text)
                  = inl (CoilInvalid start_idx)).
  { rewrite Hpad. unfold read_coil_slot.
    by rewrite prefixed_text_is_no_decimal. }
  assert (Hg1 : g1 = set_register_vars
                       (<[start_idx := padded_hex slot_text]> (register_vars g)) g).
  { unfold g1, pad_hex_input. by rewrite Hslot. }
  assert (Hrun : execute_register_command env g1
                 = showerror (CoilInvalid start_idx) g1).
  { apply (write_coils_first_slot env g1 slave_id start_idx length)
      with (slot_text := padded_hex slot_text).
    - by rewrite Hg1.
    - rewrite Hg1. exact Hvalid.
    - by rewrite Hg1.
    - rewrite Hg1. simpl. apply lookup_insert_eq.
    - exact Hread. }
  split; [exact Hread|]. split; [exact Hrun|].
  rewrite Hrun, Hg1. reflexivity.
Qed.

Lemma committed_slot_stops_write_coils_witness :
  execute_register_command (answering (response [] []))
    (pad_hex_input 2
       (set_register_vars (<[2 := py "1"]> fresh_register_vars)
          (select_range (py "2") (py "1")
             (select_command (py "Write Coils") (connect startup)))))
  = showerror (CoilInvalid 2)
      (pad_hex_input 2
         (set_register_vars (<[2 := py "1"]> fresh_register_vars)
            (select_range (py "2") (py "1")
               (select_command (py "Write Coils") (connect startup))))).
Proof.
  destruct (committed_slot_stops_write_coils (answering (response [] []))
              (set_register_vars (<[2 := py "1"]> fresh_register_vars)
                 (select_range (py "2") (py "1")
                    (select_command (py "Write Coils") (connect startup))))
              1 2 1 (py "1") eq_refl eq_refl
              ltac:(repeat split; try reflexivity; lia) eq_refl) as (_ & H & _).
  exact H.
Defined.
